(** * EyeTrackVR: the per-eye tracking worker ([EyeTrackApp/eye_processor.py])
    and the camera widget ([RANSACApp/camera_widget.py])

    A shallow embedding of [EyeProcessor]: the ROI preprocessor
    ([capture_crop_rotate_image]), the output sink
    ([output_images_and_update]), the four detector wrappers ([HSFM],
    [HSRACM], [RANSAC3DM], [BLOBM]), the priority scheduler ([ALGOSELECT])
    and the body of [run] (slot-table setup followed by the frame loop);
    of the decorator [run_once]; and of [CameraWidget.render] (module
    [Widget]).

    Python objects are modelled as follows.
    - integers are [Z]; floats that this file only passes around are [Q];
    - a value that may be [None] is an [option];
    - a numpy array is its element type and its shape together with its
      flat row-major buffer;
    - [self] is the record [EyeProcessor]; an assignment [self.a = v] is a
      functional update [set_a v s];
    - a [try]/[except] is a [match] on the [option] returned by the
      fallible operation; an exception that nothing catches ends [run] and
      is the [Raised]/[Crash] outcome;
    - the collaborators that live in other files (detectors, calibration,
      blink analysis, the pixel arithmetic of OpenCV) are the fields of the
      record [Externals]; whatever state they keep is the abstract
      [ExtState];
    - the other threads (GUI, camera) are the per-iteration input
      [TickInput] of the loop. *)

From Stdlib Require Import ZArith QArith List Bool Lia.
From Stdlib Require String.
Import ListNotations.
Local Open Scope Z_scope.

(** ** Python sequences *)

Module Py.

(** [PySlice_AdjustIndices] for a step of 1: a negative bound counts from
    the end, and both bounds are clamped to [0, len]. *)
Definition adjust (len i : Z) : Z :=
  if i <? 0 then Z.max (i + len) 0 else Z.min i len.

(** First index and number of elements selected by [a[start:stop]]. *)
Definition slice_bounds (len : nat) (start stop : Z) : nat * nat :=
  let lo := adjust (Z.of_nat len) start in
  let hi := adjust (Z.of_nat len) stop in
  (Z.to_nat lo, Z.to_nat (hi - lo)).

(** [l[i] = v] on a list: indices [-len .. len-1] are accepted, anything
    else raises [IndexError] ([None]). *)
Fixpoint replace_nth {A} (n : nat) (v : A) (l : list A) : list A :=
  match l, n with
  | [], _ => []
  | _ :: t, O => v :: t
  | h :: t, S n' => h :: replace_nth n' v t
  end.

Definition setitem {A} (l : list A) (i : Z) (v : A) : option (list A) :=
  let len := Z.of_nat (length l) in
  if (0 <=? i) && (i <? len) then Some (replace_nth (Z.to_nat i) v l)
  else if (- len <=? i) && (i <? 0)
       then Some (replace_nth (Z.to_nat (i + len)) v l)
       else None.

End Py.

(** ** numpy arrays *)

Module Np.

(** The element types that OpenCV's Python bindings map to a matrix depth
    as they are; arrays of other element types are not represented. *)
Inductive DType : Type :=
| uint8 | int8 | uint16 | int16 | int32 | float32 | float64.

Definition dtype_eqb (a b : DType) : bool :=
  match a, b with
  | uint8, uint8 | int8, int8 | uint16, uint16 | int16, int16
  | int32, int32 | float32, float32 | float64, float64 => true
  | _, _ => false
  end.

(** [np.result_type(a, b)]: the smallest of these types that holds every
    value of both. *)
Definition result_type (a b : DType) : DType :=
  match a, b with
  | float64, _ | _, float64 => float64
  | float32, int32 | int32, float32 => float64
  | float32, _ | _, float32 => float32
  | int32, _ | _, int32 => int32
  | uint16, uint16 => uint16
  | uint16, uint8 | uint8, uint16 => uint16
  | uint16, _ | _, uint16 => int32
  | uint8, uint8 => uint8
  | int8, int8 => int8
  | _, _ => int16
  end.

(** An array: its element type, its shape and its elements in row-major
    order, each element as an integer (its value for the integer types,
    an encoding of the float for the float types). *)
Record ndarray : Type := mk_ndarray {
  dtype : DType;
  shape : list nat;
  data : list Z
}.

(** The elements of [a] converted to the type [t]; [cast] converts one
    element between two different types. *)
Definition astype (cast : DType -> DType -> Z -> Z) (t : DType) (a : ndarray)
  : list Z :=
  if dtype_eqb (dtype a) t then data a else map (cast (dtype a) t) (data a).

Definition prod_dims (dims : list nat) : nat := fold_right Nat.mul 1%nat dims.

(** Rows [ys .. ys+yn) and columns [xs .. xs+xn) of a buffer whose rows
    hold [c] cells of [k] values each. *)
Definition gather (c k ys yn xs xn : nat) (buf : list Z) : list Z :=
  flat_map
    (fun i => firstn (xn * k) (skipn ((i * c + xs) * k) buf))
    (seq ys yn).

(** [a[y0:y1, x0:x1]].  Basic slicing never raises for bounds that fall
    outside the array; it raises [IndexError] only when the array has
    fewer than two axes. *)
Definition getitem2 (a : ndarray) (y0 y1 x0 x1 : Z) : option ndarray :=
  match shape a with
  | r :: c :: rest =>
      let k := prod_dims rest in
      let '(ys, yn) := Py.slice_bounds r y0 y1 in
      let '(xs, xn) := Py.slice_bounds c x0 x1 in
      Some (mk_ndarray (dtype a) (yn :: xn :: rest)
              (gather c k ys yn xs xn (data a)))
  | _ => None
  end.

Definition list_nat_eqb (l1 l2 : list nat) : bool :=
  if list_eq_dec Nat.eq_dec l1 l2 then true else false.

(** The slice of row [i] in a buffer whose rows hold [n] values. *)
Definition row (n i : nat) (buf : list Z) : list Z :=
  firstn n (skipn (i * n) buf).

(** [np.concatenate((a, b), axis=1)]: every axis but the second has to
    agree, otherwise [ValueError]; the result has the common type of the
    two arrays. *)
Definition concatenate_axis1 (cast : DType -> DType -> Z -> Z)
    (a b : ndarray) : option ndarray :=
  match shape a, shape b with
  | r1 :: c1 :: rest1, r2 :: c2 :: rest2 =>
      if Nat.eqb r1 r2 && list_nat_eqb rest1 rest2 then
        let k := prod_dims rest1 in
        let t := result_type (dtype a) (dtype b) in
        Some (mk_ndarray t (r1 :: (c1 + c2)%nat :: rest1)
                (flat_map
                   (fun i => row (c1 * k) i (astype cast t a)
                             ++ row (c2 * k) i (astype cast t b))
                   (seq 0 r1)))
      else None
  | _, _ => None
  end.

End Np.

(** A frame attribute of [self]: an array or [None]. *)
Definition pyobj : Type := option Np.ndarray.

(** ** OpenCV

    Only the type discipline of the three calls is fixed here: which
    inputs are rejected, and what shape and element type come out.  The
    pixel arithmetic (interpolation, luminance weights) is supplied by the
    caller. *)

Module Cv2.

Record RotationMatrix : Type := mk_rotation {
  rot_center : Q * Q;
  rot_angle : Q;
  rot_scale : Q
}.

Definition getRotationMatrix2D (center : Q * Q) (angle scale : Q)
  : RotationMatrix :=
  mk_rotation center angle scale.

Definition warp_fn : Type :=
  Np.ndarray -> RotationMatrix -> nat -> nat -> Z * Z * Z -> list Z.

(** The matrix the bindings make of an array, as rows, columns and
    channels: an array of one axis is a column, a third axis of 1 to 512
    elements is the channels.  An array of more axes, or with a longer
    third axis, is a matrix of more than two dimensions, which none of the
    calls below takes. *)
Definition mat (a : Np.ndarray) : option (nat * nat * nat) :=
  match Np.shape a with
  | [] => Some (1%nat, 1%nat, 1%nat)
  | [n] => Some (n, 1%nat, 1%nat)
  | [r; c] => Some (r, c, 1%nat)
  | [r; c; k] =>
      if (1 <=? k)%nat && (k <=? 512)%nat then Some (r, c, k) else None
  | _ => None
  end.

(** The shape of the array the bindings make of a matrix: the channel
    axis is there only for more than one channel. *)
Definition shape_of_mat (rows cols channels : nat) : list nat :=
  if Nat.eqb channels 1 then [rows; cols] else [rows; cols; channels].

(** The depths the interpolation of [cv2.warpAffine] is implemented for:
    all but the signed 8-bit and 32-bit integers. *)
Definition warp_depth (d : Np.DType) : bool :=
  match d with
  | Np.int8 | Np.int32 => false
  | _ => true
  end.

(** The depths [cv2.cvtColor] converts between colour and grayscale. *)
Definition cvt_depth (d : Np.DType) : bool :=
  match d with
  | Np.uint8 | Np.uint16 | Np.float32 => true
  | _ => false
  end.

(** [cv2.warpAffine(src, M, (width, height), borderMode, borderValue)].
    [None], an empty image, a matrix of more than two dimensions and a
    depth outside [warp_depth] raise; the result has [height] rows and
    [width] columns (the size of the source when [dsize] is empty), the
    channels and the element type of the source. *)
Definition warpAffine (px : warp_fn) (src : pyobj) (M : RotationMatrix)
    (dsize : nat * nat) (borderValue : Z * Z * Z) : option Np.ndarray :=
  match src with
  | None => None
  | Some a =>
      match mat a with
      | Some (r, c, k) =>
          if Nat.eqb r 0 || Nat.eqb c 0 || negb (warp_depth (Np.dtype a))
          then None
          else
            let '(width, height) := dsize in
            let '(h, w) :=
              if Nat.eqb width 0 || Nat.eqb height 0 then (r, c)
              else (height, width) in
            Some (Np.mk_ndarray (Np.dtype a) (shape_of_mat h w k)
                    (px a M h w borderValue))
      | None => None
      end
  end.

Inductive ColorConversion : Type := COLOR_GRAY2BGR | COLOR_BGR2GRAY.

Fixpoint luminance (px : Z -> Z -> Z -> Z) (k : nat) (buf : list Z) : list Z :=
  match buf with
  | b :: g :: r :: t =>
      match k, t with
      | 4%nat, _ :: t' => px b g r :: luminance px k t'
      | _, _ => px b g r :: luminance px k t
      end
  | _ => []
  end.

(** [cv2.cvtColor(src, code)].  [COLOR_GRAY2BGR] wants one channel and
    gives three; [COLOR_BGR2GRAY] wants three or four and gives one; the
    element type stays.  Anything else, an empty image, a matrix of more
    than two dimensions and a depth outside [cvt_depth] raise. *)
Definition cvtColor (px : Np.DType -> Z -> Z -> Z -> Z) (src : pyobj)
    (code : ColorConversion) : option Np.ndarray :=
  match src with
  | None => None
  | Some a =>
      match mat a with
      | Some (r, c, k) =>
          if Nat.eqb r 0 || Nat.eqb c 0 || negb (cvt_depth (Np.dtype a))
          then None
          else
            match code, k with
            | COLOR_GRAY2BGR, 1%nat =>
                Some (Np.mk_ndarray (Np.dtype a) [r; c; 3%nat]
                        (flat_map (fun v => [v; v; v]) (Np.data a)))
            | COLOR_BGR2GRAY, 3%nat =>
                Some (Np.mk_ndarray (Np.dtype a) [r; c]
                        (luminance (px (Np.dtype a)) 3 (Np.data a)))
            | COLOR_BGR2GRAY, 4%nat =>
                Some (Np.mk_ndarray (Np.dtype a) [r; c]
                        (luminance (px (Np.dtype a)) 4 (Np.data a)))
            | _, _ => None
            end
      | None => None
      end
  end.

End Cv2.

(** ** Data of the tracker *)

Module InformationOrigin.
Inductive t : Type := RANSAC | BLOB | FAILURE | HSF | HSRAC.
End InformationOrigin.

Record EyeInformation : Type := mk_EyeInformation {
  info_type : InformationOrigin.t;
  x : Q;
  y : Q;
  pupil_dialation : Z;
  blink : Q
}.

(** The fields of [config] and [settings] that [eye_processor.py] reads. *)
Record EyeTrackCameraConfig : Type := mk_config {
  roi_window_x : Z;
  roi_window_y : Z;
  roi_window_w : Z;
  roi_window_h : Z;
  rotation_angle : Q;
  focal_length : Q
}.

Record EyeTrackSettingsConfig : Type := mk_settings {
  gui_HSF : bool;
  gui_HSFP : Z;
  gui_HSRAC : bool;
  gui_HSRACP : Z;
  gui_RANSAC3D : bool;
  gui_RANSAC3DP : Z;
  gui_BLOB : bool;
  gui_BLOBP : Z;
  gui_skip_autoradius : bool;
  gui_HSF_radius : Z
}.

(** The bound methods a slot of the table can hold. *)
Module Bound.
Inductive method : Type := HSFM | HSRACM | RANSAC3DM | BLOBM.

Definition eqb (a b : method) : bool :=
  match a, b with
  | HSFM, HSFM | HSRACM, HSRACM | RANSAC3DM, RANSAC3DM | BLOBM, BLOBM => true
  | _, _ => false
  end.
End Bound.

(** [pye3d] objects: only what [run] stores in them. *)
Record CameraModel : Type := mk_CameraModel {
  cm_focal_length : Q;
  resolution : Z * Z
}.

Inductive DetectorMode : Type := blocking | asynchronous.

Record Detector3D : Type := mk_Detector3D {
  camera : CameraModel;
  long_term_mode : DetectorMode
}.

(** Handles of the two stateful detector engines: the arguments they were
    constructed with.  What an engine learns while running is part of
    [ExtState]. *)
Record HSF_engine : Type := mk_HSF_engine {
  hsf_skip_autoradius : bool;
  hsf_default_radius : Z
}.

Record HSRAC_engine : Type := mk_HSRAC_engine {
  hsrac_skip_autoradius : bool;
  hsrac_default_radius : Z
}.

Inductive exn : Type :=
| AttributeError | TypeError | IndexError | ValueError | CvError.

Inductive Message : Type :=
| InfoExiting | ErrFrameCapture | ErrUnequalSizes.

(** What a run of the worker does to the outside, in order; kept in the
    ghost field [trace].  [EvDetector m (w, h)] is a call of the bound
    method [m] while the configured ROI is [w] by [h]. *)
Inductive Event : Type :=
| EvNewHSF (e : HSF_engine)
| EvNewHSRAC (e : HSRAC_engine)
| EvNewCamera (res : Z * Z)
| EvDetector (m : Bound.method) (res : Z * Z)
| EvWait (timeout : Q)
| EvCaptureSet
| EvPrint (m : Message).

Section Model.

Context {ExtState : Type}.

(** [self].  [ext] stands for every attribute that only the collaborators
    use (calibration bounds, filter state, blink extrema, engine
    internals); [image_queue_outgoing] is the content of the outgoing
    queue, oldest first. *)
Record EyeProcessor : Type := mk_EyeProcessor {
  config : EyeTrackCameraConfig;
  settings : EyeTrackSettingsConfig;
  previous_image : pyobj;
  current_image : pyobj;
  current_image_gray : pyobj;
  current_image_gray_clean : pyobj;
  current_frame_number : option Z;
  current_fps : option Q;
  previous_rotation : Q;
  camera_model : option CameraModel;
  detector_3d : option Detector3D;
  er_hsf : option HSF_engine;
  er_hsrac : option HSRAC_engine;
  failed : Z;
  eyeoffx : bool;
  eyeopen : Q;
  prev_x : option Q;
  prev_y : option Q;
  firstalgo : option Bound.method;
  secondalgo : option Bound.method;
  thirdalgo : option Bound.method;
  fourthalgo : option Bound.method;
  image_queue_outgoing : list (Np.ndarray * EyeInformation);
  ext : ExtState;
  trace : list Event
}.

Definition set_config (v : EyeTrackCameraConfig) (s : EyeProcessor) : EyeProcessor :=
  mk_EyeProcessor
    v (settings s) (previous_image s) (current_image s) (current_image_gray s)
    (current_image_gray_clean s) (current_frame_number s) (current_fps s)
    (previous_rotation s) (camera_model s) (detector_3d s) (er_hsf s)
    (er_hsrac s) (failed s) (eyeoffx s) (eyeopen s) (prev_x s) (prev_y s)
    (firstalgo s) (secondalgo s) (thirdalgo s) (fourthalgo s)
    (image_queue_outgoing s) (ext s) (trace s).

Definition set_settings (v : EyeTrackSettingsConfig) (s : EyeProcessor) : EyeProcessor :=
  mk_EyeProcessor
    (config s) v (previous_image s) (current_image s) (current_image_gray s)
    (current_image_gray_clean s) (current_frame_number s) (current_fps s)
    (previous_rotation s) (camera_model s) (detector_3d s) (er_hsf s)
    (er_hsrac s) (failed s) (eyeoffx s) (eyeopen s) (prev_x s) (prev_y s)
    (firstalgo s) (secondalgo s) (thirdalgo s) (fourthalgo s)
    (image_queue_outgoing s) (ext s) (trace s).

Definition set_previous_image (v : pyobj) (s : EyeProcessor) : EyeProcessor :=
  mk_EyeProcessor
    (config s) (settings s) v (current_image s) (current_image_gray s)
    (current_image_gray_clean s) (current_frame_number s) (current_fps s)
    (previous_rotation s) (camera_model s) (detector_3d s) (er_hsf s)
    (er_hsrac s) (failed s) (eyeoffx s) (eyeopen s) (prev_x s) (prev_y s)
    (firstalgo s) (secondalgo s) (thirdalgo s) (fourthalgo s)
    (image_queue_outgoing s) (ext s) (trace s).

Definition set_current_image (v : pyobj) (s : EyeProcessor) : EyeProcessor :=
  mk_EyeProcessor
    (config s) (settings s) (previous_image s) v (current_image_gray s)
    (current_image_gray_clean s) (current_frame_number s) (current_fps s)
    (previous_rotation s) (camera_model s) (detector_3d s) (er_hsf s)
    (er_hsrac s) (failed s) (eyeoffx s) (eyeopen s) (prev_x s) (prev_y s)
    (firstalgo s) (secondalgo s) (thirdalgo s) (fourthalgo s)
    (image_queue_outgoing s) (ext s) (trace s).

Definition set_current_image_gray (v : pyobj) (s : EyeProcessor) : EyeProcessor :=
  mk_EyeProcessor
    (config s) (settings s) (previous_image s) (current_image s) v
    (current_image_gray_clean s) (current_frame_number s) (current_fps s)
    (previous_rotation s) (camera_model s) (detector_3d s) (er_hsf s)
    (er_hsrac s) (failed s) (eyeoffx s) (eyeopen s) (prev_x s) (prev_y s)
    (firstalgo s) (secondalgo s) (thirdalgo s) (fourthalgo s)
    (image_queue_outgoing s) (ext s) (trace s).

Definition set_current_image_gray_clean (v : pyobj) (s : EyeProcessor) : EyeProcessor :=
  mk_EyeProcessor
    (config s) (settings s) (previous_image s) (current_image s)
    (current_image_gray s) v (current_frame_number s) (current_fps s)
    (previous_rotation s) (camera_model s) (detector_3d s) (er_hsf s)
    (er_hsrac s) (failed s) (eyeoffx s) (eyeopen s) (prev_x s) (prev_y s)
    (firstalgo s) (secondalgo s) (thirdalgo s) (fourthalgo s)
    (image_queue_outgoing s) (ext s) (trace s).

Definition set_current_frame_number (v : option Z) (s : EyeProcessor) : EyeProcessor :=
  mk_EyeProcessor
    (config s) (settings s) (previous_image s) (current_image s)
    (current_image_gray s) (current_image_gray_clean s) v (current_fps s)
    (previous_rotation s) (camera_model s) (detector_3d s) (er_hsf s)
    (er_hsrac s) (failed s) (eyeoffx s) (eyeopen s) (prev_x s) (prev_y s)
    (firstalgo s) (secondalgo s) (thirdalgo s) (fourthalgo s)
    (image_queue_outgoing s) (ext s) (trace s).

Definition set_current_fps (v : option Q) (s : EyeProcessor) : EyeProcessor :=
  mk_EyeProcessor
    (config s) (settings s) (previous_image s) (current_image s)
    (current_image_gray s) (current_image_gray_clean s)
    (current_frame_number s) v (previous_rotation s) (camera_model s)
    (detector_3d s) (er_hsf s) (er_hsrac s) (failed s) (eyeoffx s) (eyeopen s)
    (prev_x s) (prev_y s) (firstalgo s) (secondalgo s) (thirdalgo s)
    (fourthalgo s) (image_queue_outgoing s) (ext s) (trace s).

Definition set_previous_rotation (v : Q) (s : EyeProcessor) : EyeProcessor :=
  mk_EyeProcessor
    (config s) (settings s) (previous_image s) (current_image s)
    (current_image_gray s) (current_image_gray_clean s)
    (current_frame_number s) (current_fps s) v (camera_model s)
    (detector_3d s) (er_hsf s) (er_hsrac s) (failed s) (eyeoffx s) (eyeopen s)
    (prev_x s) (prev_y s) (firstalgo s) (secondalgo s) (thirdalgo s)
    (fourthalgo s) (image_queue_outgoing s) (ext s) (trace s).

Definition set_camera_model (v : option CameraModel) (s : EyeProcessor) : EyeProcessor :=
  mk_EyeProcessor
    (config s) (settings s) (previous_image s) (current_image s)
    (current_image_gray s) (current_image_gray_clean s)
    (current_frame_number s) (current_fps s) (previous_rotation s) v
    (detector_3d s) (er_hsf s) (er_hsrac s) (failed s) (eyeoffx s) (eyeopen s)
    (prev_x s) (prev_y s) (firstalgo s) (secondalgo s) (thirdalgo s)
    (fourthalgo s) (image_queue_outgoing s) (ext s) (trace s).

Definition set_detector_3d (v : option Detector3D) (s : EyeProcessor) : EyeProcessor :=
  mk_EyeProcessor
    (config s) (settings s) (previous_image s) (current_image s)
    (current_image_gray s) (current_image_gray_clean s)
    (current_frame_number s) (current_fps s) (previous_rotation s)
    (camera_model s) v (er_hsf s) (er_hsrac s) (failed s) (eyeoffx s)
    (eyeopen s) (prev_x s) (prev_y s) (firstalgo s) (secondalgo s)
    (thirdalgo s) (fourthalgo s) (image_queue_outgoing s) (ext s) (trace s).

Definition set_er_hsf (v : option HSF_engine) (s : EyeProcessor) : EyeProcessor :=
  mk_EyeProcessor
    (config s) (settings s) (previous_image s) (current_image s)
    (current_image_gray s) (current_image_gray_clean s)
    (current_frame_number s) (current_fps s) (previous_rotation s)
    (camera_model s) (detector_3d s) v (er_hsrac s) (failed s) (eyeoffx s)
    (eyeopen s) (prev_x s) (prev_y s) (firstalgo s) (secondalgo s)
    (thirdalgo s) (fourthalgo s) (image_queue_outgoing s) (ext s) (trace s).

Definition set_er_hsrac (v : option HSRAC_engine) (s : EyeProcessor) : EyeProcessor :=
  mk_EyeProcessor
    (config s) (settings s) (previous_image s) (current_image s)
    (current_image_gray s) (current_image_gray_clean s)
    (current_frame_number s) (current_fps s) (previous_rotation s)
    (camera_model s) (detector_3d s) (er_hsf s) v (failed s) (eyeoffx s)
    (eyeopen s) (prev_x s) (prev_y s) (firstalgo s) (secondalgo s)
    (thirdalgo s) (fourthalgo s) (image_queue_outgoing s) (ext s) (trace s).

Definition set_failed (v : Z) (s : EyeProcessor) : EyeProcessor :=
  mk_EyeProcessor
    (config s) (settings s) (previous_image s) (current_image s)
    (current_image_gray s) (current_image_gray_clean s)
    (current_frame_number s) (current_fps s) (previous_rotation s)
    (camera_model s) (detector_3d s) (er_hsf s) (er_hsrac s) v (eyeoffx s)
    (eyeopen s) (prev_x s) (prev_y s) (firstalgo s) (secondalgo s)
    (thirdalgo s) (fourthalgo s) (image_queue_outgoing s) (ext s) (trace s).

Definition set_eyeoffx (v : bool) (s : EyeProcessor) : EyeProcessor :=
  mk_EyeProcessor
    (config s) (settings s) (previous_image s) (current_image s)
    (current_image_gray s) (current_image_gray_clean s)
    (current_frame_number s) (current_fps s) (previous_rotation s)
    (camera_model s) (detector_3d s) (er_hsf s) (er_hsrac s) (failed s) v
    (eyeopen s) (prev_x s) (prev_y s) (firstalgo s) (secondalgo s)
    (thirdalgo s) (fourthalgo s) (image_queue_outgoing s) (ext s) (trace s).

Definition set_eyeopen (v : Q) (s : EyeProcessor) : EyeProcessor :=
  mk_EyeProcessor
    (config s) (settings s) (previous_image s) (current_image s)
    (current_image_gray s) (current_image_gray_clean s)
    (current_frame_number s) (current_fps s) (previous_rotation s)
    (camera_model s) (detector_3d s) (er_hsf s) (er_hsrac s) (failed s)
    (eyeoffx s) v (prev_x s) (prev_y s) (firstalgo s) (secondalgo s)
    (thirdalgo s) (fourthalgo s) (image_queue_outgoing s) (ext s) (trace s).

Definition set_prev_x (v : option Q) (s : EyeProcessor) : EyeProcessor :=
  mk_EyeProcessor
    (config s) (settings s) (previous_image s) (current_image s)
    (current_image_gray s) (current_image_gray_clean s)
    (current_frame_number s) (current_fps s) (previous_rotation s)
    (camera_model s) (detector_3d s) (er_hsf s) (er_hsrac s) (failed s)
    (eyeoffx s) (eyeopen s) v (prev_y s) (firstalgo s) (secondalgo s)
    (thirdalgo s) (fourthalgo s) (image_queue_outgoing s) (ext s) (trace s).

Definition set_prev_y (v : option Q) (s : EyeProcessor) : EyeProcessor :=
  mk_EyeProcessor
    (config s) (settings s) (previous_image s) (current_image s)
    (current_image_gray s) (current_image_gray_clean s)
    (current_frame_number s) (current_fps s) (previous_rotation s)
    (camera_model s) (detector_3d s) (er_hsf s) (er_hsrac s) (failed s)
    (eyeoffx s) (eyeopen s) (prev_x s) v (firstalgo s) (secondalgo s)
    (thirdalgo s) (fourthalgo s) (image_queue_outgoing s) (ext s) (trace s).

Definition set_firstalgo (v : option Bound.method) (s : EyeProcessor) : EyeProcessor :=
  mk_EyeProcessor
    (config s) (settings s) (previous_image s) (current_image s)
    (current_image_gray s) (current_image_gray_clean s)
    (current_frame_number s) (current_fps s) (previous_rotation s)
    (camera_model s) (detector_3d s) (er_hsf s) (er_hsrac s) (failed s)
    (eyeoffx s) (eyeopen s) (prev_x s) (prev_y s) v (secondalgo s)
    (thirdalgo s) (fourthalgo s) (image_queue_outgoing s) (ext s) (trace s).

Definition set_secondalgo (v : option Bound.method) (s : EyeProcessor) : EyeProcessor :=
  mk_EyeProcessor
    (config s) (settings s) (previous_image s) (current_image s)
    (current_image_gray s) (current_image_gray_clean s)
    (current_frame_number s) (current_fps s) (previous_rotation s)
    (camera_model s) (detector_3d s) (er_hsf s) (er_hsrac s) (failed s)
    (eyeoffx s) (eyeopen s) (prev_x s) (prev_y s) (firstalgo s) v
    (thirdalgo s) (fourthalgo s) (image_queue_outgoing s) (ext s) (trace s).

Definition set_thirdalgo (v : option Bound.method) (s : EyeProcessor) : EyeProcessor :=
  mk_EyeProcessor
    (config s) (settings s) (previous_image s) (current_image s)
    (current_image_gray s) (current_image_gray_clean s)
    (current_frame_number s) (current_fps s) (previous_rotation s)
    (camera_model s) (detector_3d s) (er_hsf s) (er_hsrac s) (failed s)
    (eyeoffx s) (eyeopen s) (prev_x s) (prev_y s) (firstalgo s) (secondalgo s)
    v (fourthalgo s) (image_queue_outgoing s) (ext s) (trace s).

Definition set_fourthalgo (v : option Bound.method) (s : EyeProcessor) : EyeProcessor :=
  mk_EyeProcessor
    (config s) (settings s) (previous_image s) (current_image s)
    (current_image_gray s) (current_image_gray_clean s)
    (current_frame_number s) (current_fps s) (previous_rotation s)
    (camera_model s) (detector_3d s) (er_hsf s) (er_hsrac s) (failed s)
    (eyeoffx s) (eyeopen s) (prev_x s) (prev_y s) (firstalgo s) (secondalgo s)
    (thirdalgo s) v (image_queue_outgoing s) (ext s) (trace s).

Definition set_image_queue_outgoing (v : list (Np.ndarray * EyeInformation)) (s : EyeProcessor) : EyeProcessor :=
  mk_EyeProcessor
    (config s) (settings s) (previous_image s) (current_image s)
    (current_image_gray s) (current_image_gray_clean s)
    (current_frame_number s) (current_fps s) (previous_rotation s)
    (camera_model s) (detector_3d s) (er_hsf s) (er_hsrac s) (failed s)
    (eyeoffx s) (eyeopen s) (prev_x s) (prev_y s) (firstalgo s) (secondalgo s)
    (thirdalgo s) (fourthalgo s) v (ext s) (trace s).

Definition set_ext (v : ExtState) (s : EyeProcessor) : EyeProcessor :=
  mk_EyeProcessor
    (config s) (settings s) (previous_image s) (current_image s)
    (current_image_gray s) (current_image_gray_clean s)
    (current_frame_number s) (current_fps s) (previous_rotation s)
    (camera_model s) (detector_3d s) (er_hsf s) (er_hsrac s) (failed s)
    (eyeoffx s) (eyeopen s) (prev_x s) (prev_y s) (firstalgo s) (secondalgo s)
    (thirdalgo s) (fourthalgo s) (image_queue_outgoing s) v (trace s).

Definition set_trace (v : list Event) (s : EyeProcessor) : EyeProcessor :=
  mk_EyeProcessor
    (config s) (settings s) (previous_image s) (current_image s)
    (current_image_gray s) (current_image_gray_clean s)
    (current_frame_number s) (current_fps s) (previous_rotation s)
    (camera_model s) (detector_3d s) (er_hsf s) (er_hsrac s) (failed s)
    (eyeoffx s) (eyeopen s) (prev_x s) (prev_y s) (firstalgo s) (secondalgo s)
    (thirdalgo s) (fourthalgo s) (image_queue_outgoing s) (ext s) v.

(** Modelled from the spec: the detectors ([haar_surround_feature],
    [hsrac], [ransac], [blob]), [blink], [intensity_eye_open] and
    [osc_calibrate_filter] are imported by [eye_processor.py] but defined
    elsewhere.  The specification treats each as a black box that is handed
    a frame or [self] and answers a centre with a diagnostic frame, an
    intensity, a flag or a calibrated position, and states that no detector
    feeds anything back into the cascade counter.  Accordingly one that is
    handed [self] may read all of it, and what any of them writes is
    confined to [ExtState]. *)
Record Externals : Type := mk_Externals {
  (* haar_surround_feature.External_Run_HSF: constructor and [run] *)
  hsf_init : HSF_engine -> ExtState -> ExtState;
  hsf_run : HSF_engine -> pyobj -> ExtState -> (Q * Q * pyobj) * ExtState;
  (* hsrac.External_Run_HSRACS: constructor and [run] *)
  hsrac_init : HSRAC_engine -> ExtState -> ExtState;
  hsrac_run : HSRAC_engine -> pyobj -> ExtState
              -> (Q * Q * pyobj * pyobj * pyobj) * ExtState;
  RANSAC3D : EyeProcessor -> (Q * Q * pyobj) * ExtState;
  BLOB : EyeProcessor -> (Q * Q * pyobj) * ExtState;
  BLINK : EyeProcessor -> bool * ExtState;
  intense : Q -> Q -> pyobj -> ExtState -> Q * ExtState;
  cal_osc : EyeProcessor -> Q -> Q -> (Q * Q) * ExtState;
  (* pixel arithmetic of cv2.warpAffine and of cv2.COLOR_BGR2GRAY, and
     the conversion of an element between two types *)
  warp_pixels : Cv2.warp_fn;
  gray_pixel : Np.DType -> Z -> Z -> Z -> Z;
  np_cast : Np.DType -> Np.DType -> Z -> Z
}.

Context (E : Externals).

Definition log (ev : Event) (s : EyeProcessor) : EyeProcessor :=
  set_trace (trace s ++ [ev]) s.

(** [EyeProcessor.__init__], as far as the attributes above go. *)
Definition init (cfg : EyeTrackCameraConfig) (st : EyeTrackSettingsConfig)
    (x0 : ExtState) : EyeProcessor :=
  mk_EyeProcessor cfg st None None None None None None (rotation_angle cfg)
    None None None None 0 true 0%Q None None None None None None [] x0 [].

(** ** Output sink *)

Definition output_images_and_update (threshold_image : pyobj)
    (output_information : EyeInformation) (s : EyeProcessor) : EyeProcessor :=
  match Cv2.cvtColor (gray_pixel E) (current_image_gray s) Cv2.COLOR_GRAY2BGR with
  | None => log (EvPrint ErrUnequalSizes) s
  | Some gray_bgr =>
      match Cv2.cvtColor (gray_pixel E) threshold_image Cv2.COLOR_GRAY2BGR with
      | None => log (EvPrint ErrUnequalSizes) s
      | Some thresh_bgr =>
          match Np.concatenate_axis1 (np_cast E) gray_bgr thresh_bgr with
          | None => log (EvPrint ErrUnequalSizes) s
          | Some image_stack =>
              let s1 :=
                set_image_queue_outgoing
                  (image_queue_outgoing s ++ [(image_stack, output_information)])
                  s in
              let s2 := set_previous_image (current_image s1) s1 in
              set_previous_rotation (rotation_angle (config s2)) s2
          end
      end
  end.

(** ** Preprocessor *)

(** [rows, cols, _ = img.shape]: [None] and an array that does not have
    exactly three axes raise. *)
Definition shape3 (img : pyobj) : option (nat * nat) :=
  match img with
  | Some a =>
      match Np.shape a with
      | [rows; cols; _] => Some (rows, cols)
      | _ => None
      end
  | None => None
  end.

(** [self.current_image[y : y + h, x : x + w]]. *)
Definition crop (img : pyobj) (cfg : EyeTrackCameraConfig) : option Np.ndarray :=
  match img with
  | Some a =>
      Np.getitem2 a
        (roi_window_y cfg) (roi_window_y cfg + roi_window_h cfg)
        (roi_window_x cfg) (roi_window_x cfg + roi_window_w cfg)
  | None => None
  end.

(** Returns [true] for Python's [True] and [false] for the [None] the
    method falls off with after the outer [except]. *)
Definition capture_crop_rotate_image (s : EyeProcessor) : bool * EyeProcessor :=
  let s1 :=
    match crop (current_image s) (config s) with
    | Some cropped => set_current_image (Some cropped) s
    | None => log (EvPrint ErrFrameCapture) (set_current_image (previous_image s) s)
    end in
  let dims :=
    match shape3 (current_image s1) with
    | Some rc => Some rc
    | None => shape3 (previous_image s1)
    end in
  match dims with
  | None => (false, s1)
  | Some (rows, cols) =>
      let img_center :=
        (inject_Z (Z.of_nat cols) / 2, inject_Z (Z.of_nat rows) / 2)%Q in
      let rotation_matrix :=
        Cv2.getRotationMatrix2D img_center (rotation_angle (config s1)) 1 in
      match Cv2.warpAffine (warp_pixels E) (current_image s1) rotation_matrix
              (cols, rows) (64, 64, 64) with
      | Some rotated => (true, set_current_image (Some rotated) s1)
      | None => (false, s1)
      end
  end.

(** ** Detector wrappers *)

Inductive result : Type :=
| Ok (s : EyeProcessor)
| Raised (e : exn) (s : EyeProcessor).

Definition bind (r : result) (k : EyeProcessor -> result) : result :=
  match r with
  | Ok s => k s
  | Raised e s => Raised e s
  end.

Notation "s <- r ;; k" := (bind r (fun s => k))
  (at level 61, r at next level, right associativity).

Definition BLINKM (s : EyeProcessor) : EyeProcessor :=
  let '(b, x1) := BLINK E s in
  set_eyeoffx b (set_ext x1 s).

Definition HSRACM (s : EyeProcessor) : result :=
  match er_hsrac s with
  | None => Raised AttributeError s
  | Some eng =>
      let '((cx, cy, thresh, gray_frame, uncropframe), x1) :=
        hsrac_run E eng (current_image_gray s) (ext s) in
      let s := set_current_image_gray gray_frame (set_ext x1 s) in
      let s :=
        match prev_x s with
        | None => set_prev_y (Some cy) (set_prev_x (Some cx) s)
        | Some _ => s
        end in
      let '(eo, x2) := intense E cx cy uncropframe (ext s) in
      let s := set_eyeopen eo (set_ext x2 s) in
      let '((out_x, out_y), x3) := cal_osc E s cx cy in
      let s := set_ext x3 s in
      if eyeoffx s then
        Ok (output_images_and_update thresh
              (mk_EyeInformation InformationOrigin.HSRAC out_x out_y 0 0) s)
      else
        Ok (output_images_and_update thresh
              (mk_EyeInformation InformationOrigin.HSRAC out_x out_y 0 (eyeopen s)) s)
  end.

Definition HSFM (s : EyeProcessor) : result :=
  match er_hsf s with
  | None => Raised AttributeError s
  | Some eng =>
      let '((cx, cy, frame), x1) := hsf_run E eng (current_image_gray s) (ext s) in
      let s := set_ext x1 s in
      let '(eo, x2) := intense E cx cy (current_image_gray s) (ext s) in
      let s := set_eyeopen eo (set_ext x2 s) in
      let '((out_x, out_y), x3) := cal_osc E s cx cy in
      let s := set_ext x3 s in
      if Qeq_bool cx 0 then
        Ok (output_images_and_update frame
              (mk_EyeInformation InformationOrigin.HSF out_x out_y 0 (eyeopen s)) s)
      else
        Ok (output_images_and_update frame
              (mk_EyeInformation InformationOrigin.HSF out_x out_y 0 (eyeopen s)) s)
  end.

Definition RANSAC3DM (s : EyeProcessor) : result :=
  let '((cx, cy, thresh), x1) := RANSAC3D E s in
  let s := set_ext x1 s in
  let '(eo, x2) := intense E cx cy (current_image_gray s) (ext s) in
  let s := set_eyeopen eo (set_ext x2 s) in
  let '((out_x, out_y), x3) := cal_osc E s cx cy in
  let s := set_ext x3 s in
  if Qeq_bool cx 0 then
    Ok (output_images_and_update thresh
          (mk_EyeInformation InformationOrigin.RANSAC out_x out_y 0 (eyeopen s)) s)
  else
    Ok (output_images_and_update thresh
          (mk_EyeInformation InformationOrigin.RANSAC out_x out_y 0 (eyeopen s)) s).

Definition BLOBM (s : EyeProcessor) : result :=
  let '((cx, cy, thresh), x1) := BLOB E s in
  let s := set_ext x1 s in
  let '(eo, x2) := intense E cx cy (current_image_gray s) (ext s) in
  let s := set_eyeopen eo (set_ext x2 s) in
  let '((out_x, out_y), x3) := cal_osc E s cx cy in
  let s := set_ext x3 s in
  if Qeq_bool cx 0 then
    Ok (output_images_and_update thresh
          (mk_EyeInformation InformationOrigin.HSRAC out_x out_y 0 (eyeopen s)) s)
  else
    Ok (output_images_and_update thresh
          (mk_EyeInformation InformationOrigin.HSRAC out_x out_y 0 (eyeopen s)) s).

(** ** Scheduler *)

Definition roi_size (s : EyeProcessor) : Z * Z :=
  (roi_window_w (config s), roi_window_h (config s)).

(** Calling the bound method held in a slot.  The call is entered in
    [trace] first. *)
Definition invoke (m : Bound.method) (s : EyeProcessor) : result :=
  let s := log (EvDetector m (roi_size s)) s in
  match m with
  | Bound.HSFM => HSFM s
  | Bound.HSRACM => HSRACM s
  | Bound.RANSAC3DM => RANSAC3DM s
  | Bound.BLOBM => BLOBM s
  end.

Definition call (slot : option Bound.method) (s : EyeProcessor) : result :=
  match slot with
  | Some m => invoke m s
  | None => Raised TypeError s
  end.

Definition is_not_None {A} (o : option A) : bool :=
  match o with Some _ => true | None => false end.

Definition ALGOSELECT (s : EyeProcessor) : result :=
  s <- (if (failed s =? 0) && is_not_None (firstalgo s)
        then call (firstalgo s) s
        else Ok (set_failed (failed s + 1) s)) ;;
  s <- (if (failed s =? 1) && is_not_None (secondalgo s)
        then call (secondalgo s) s
        else Ok (set_failed (failed s + 1) s)) ;;
  s <- (if (failed s =? 2) && is_not_None (thirdalgo s)
        then call (thirdalgo s) s
        else Ok (set_failed (failed s + 1) s)) ;;
  if (failed s =? 3) && is_not_None (fourthalgo s)
  then call (fourthalgo s) s
  else Ok (set_failed 0 s).

(** ** [run]: setup of the slot table *)

Definition slots : Type := list (option Bound.method).

(** Lines 332-338: the edge-based engine and its entry of [algolist].  The
    second component is [None] when the subscript assignment raises. *)
Definition assign_HSF (s : EyeProcessor) (algolist : slots)
  : EyeProcessor * option slots :=
  if gui_HSF (settings s) then
    let s :=
      match er_hsf s with
      | None =>
          let e := mk_HSF_engine (gui_skip_autoradius (settings s))
                                 (gui_HSF_radius (settings s)) in
          log (EvNewHSF e) (set_er_hsf (Some e) (set_ext (hsf_init E e (ext s)) s))
      | Some _ => s
      end in
    (s, Py.setitem algolist (gui_HSFP (settings s)) (Some Bound.HSFM))
  else
    (match er_hsf s with
     | Some _ => set_er_hsf None s
     | None => s
     end, Some algolist).

(** Lines 340-346: the same for the hybrid engine. *)
Definition assign_HSRAC (s : EyeProcessor) (algolist : slots)
  : EyeProcessor * option slots :=
  if gui_HSRAC (settings s) then
    let s :=
      match er_hsrac s with
      | None =>
          let e := mk_HSRAC_engine (gui_skip_autoradius (settings s))
                                   (gui_HSF_radius (settings s)) in
          log (EvNewHSRAC e)
            (set_er_hsrac (Some e) (set_ext (hsrac_init E e (ext s)) s))
      | Some _ => s
      end in
    (s, Py.setitem algolist (gui_HSRACP (settings s)) (Some Bound.HSRACM))
  else
    (match er_hsrac s with
     | Some _ => set_er_hsrac None s
     | None => s
     end, Some algolist).

(** The [if]/[elif] chains of lines 359-366 and 377-384. *)
Definition assign_chain (enabled : bool) (p : Z) (m : Bound.method)
    (s : EyeProcessor) : EyeProcessor :=
  if enabled && (p =? 1) then set_firstalgo (Some m) s
  else if enabled && (p =? 2) then set_secondalgo (Some m) s
  else if enabled && (p =? 3) then set_thirdalgo (Some m) s
  else if enabled && (p =? 4) then set_fourthalgo (Some m) s
  else s.

Definition setup (s : EyeProcessor) : result :=
  let s :=
    set_fourthalgo None
      (set_thirdalgo None (set_secondalgo None (set_firstalgo None s))) in
  let algolist : slots := [None; None; None; None; None] in
  match assign_HSF s algolist with
  | (s, None) => Raised IndexError s
  | (s, Some algolist) =>
      match assign_HSRAC s algolist with
      | (s, None) => Raised IndexError s
      | (s, Some algolist) =>
          match algolist with
          | [_; a1; a2; a3; a4] =>
              let s :=
                set_fourthalgo a4
                  (set_thirdalgo a3 (set_secondalgo a2 (set_firstalgo a1 s))) in
              let s :=
                assign_chain (gui_RANSAC3D (settings s))
                  (gui_RANSAC3DP (settings s)) Bound.RANSAC3DM s in
              let s :=
                assign_chain (gui_BLOB (settings s))
                  (gui_BLOBP (settings s)) Bound.BLOBM s in
              Ok s
          | _ => Raised ValueError s
          end
      end
  end.

(** ** [run]: the frame loop *)

(** What the other threads contribute to one iteration: the values the
    shared [config] and [settings] objects hold, whether the cancellation
    event is set at the top of the iteration, what [wait(0.1)] would
    return, whether the incoming queue is empty, and the item [get]
    delivers within its timeout ([None] for [queue.Empty]). *)
Record TickInput : Type := mk_tick {
  in_config : EyeTrackCameraConfig;
  in_settings : EyeTrackSettingsConfig;
  in_cancelled : bool;
  in_wait : bool;
  in_queue_empty : bool;
  in_frame : option (pyobj * Z * Q)
}.

Inductive outcome : Type :=
| Continue (s : EyeProcessor)
| Return (s : EyeProcessor)
| Crash (e : exn) (s : EyeProcessor).

Definition pair_eqb (a b : Z * Z) : bool :=
  (fst a =? fst b) && (snd a =? snd b).

(** Lines 404-410. *)
Definition model_is_stale (s : EyeProcessor) : bool :=
  match camera_model s, detector_3d s with
  | Some cm, Some _ => negb (pair_eqb (resolution cm) (roi_size s))
  | _, _ => true
  end.

Definition reset_model (s : EyeProcessor) : EyeProcessor :=
  let cm := mk_CameraModel (focal_length (config s)) (roi_size s) in
  let s := set_camera_model (Some cm) s in
  let s := set_detector_3d (Some (mk_Detector3D cm blocking)) s in
  log (EvNewCamera (roi_size s)) s.

Definition idle_timeout : Q := 1 # 10.

(** Lines 436-466: what an iteration does with a frame the preprocessor
    accepted. *)
Definition detect_and_blink (s : EyeProcessor) : outcome :=
  match Cv2.cvtColor (gray_pixel E) (current_image s) Cv2.COLOR_BGR2GRAY with
  | None => Crash CvError s
  | Some gray =>
      let s := set_current_image_gray (Some gray) s in
      let s := set_current_image_gray_clean (current_image_gray s) s in
      match ALGOSELECT s with
      | Raised e s => Crash e s
      | Ok s => Continue (BLINKM s)
      end
  end.

(** Lines 423-427: the item taken from the incoming queue. *)
Definition dequeue (item : pyobj * Z * Q) (s : EyeProcessor) : EyeProcessor :=
  let '(img, n, fps) := item in
  set_current_fps (Some fps)
    (set_current_frame_number (Some n) (set_current_image img s)).

(** The shared objects as this iteration finds them. *)
Definition observe (inp : TickInput) (s : EyeProcessor) : EyeProcessor :=
  set_settings (in_settings inp) (set_config (in_config inp) s).

Definition loop_body (inp : TickInput) (s : EyeProcessor) : outcome :=
  let s := observe inp s in
  if in_cancelled inp then Return (log (EvPrint InfoExiting) s)
  else if (roi_window_w (config s) <=? 0) || (roi_window_h (config s) <=? 0)
  then
    let s := log (EvWait idle_timeout) s in
    if in_wait inp then Return s else Continue s
  else
    let s := if model_is_stale s then reset_model s else s in
    let s := if in_queue_empty inp then log EvCaptureSet s else s in
    match in_frame inp with
    | None => Continue s
    | Some item =>
        match capture_crop_rotate_image (dequeue item s) with
        | (false, s) => Continue s
        | (true, s) => detect_and_blink s
        end
    end.

(** The loop over a finite prefix of the environment's inputs;
    [Continue] means the worker is still running after the prefix. *)
Fixpoint loop (inputs : list TickInput) (s : EyeProcessor) : outcome :=
  match inputs with
  | [] => Continue s
  | inp :: rest =>
      match loop_body inp s with
      | Continue s' => loop rest s'
      | final => final
      end
  end.

Definition run (inputs : list TickInput) (s : EyeProcessor) : outcome :=
  match setup s with
  | Ok s' => loop inputs s'
  | Raised e s' => Crash e s'
  end.

Definition state_of (o : outcome) : EyeProcessor :=
  match o with
  | Continue s | Return s | Crash _ s => s
  end.

Definition state_of_result (r : result) : EyeProcessor :=
  match r with
  | Ok s | Raised _ s => s
  end.

End Model.

Arguments EyeProcessor : clear implicits.
Arguments Externals : clear implicits.
Arguments TickInput : clear implicits.

(** ** Observations on a run *)

(** The bound methods called, in order. *)
Fixpoint detector_calls (tr : list Event) : list Bound.method :=
  match tr with
  | [] => []
  | EvDetector m _ :: t => m :: detector_calls t
  | _ :: t => detector_calls t
  end.

(** Constructions of a stateful detector engine. *)
Definition is_engine_construction (ev : Event) : bool :=
  match ev with
  | EvNewHSF _ | EvNewHSRAC _ => true
  | _ => false
  end.

(** The engine behind a bound method, if it has one. *)
Definition constructs (m : Bound.method) (ev : Event) : bool :=
  match m, ev with
  | Bound.HSFM, EvNewHSF _ | Bound.HSRACM, EvNewHSRAC _ => true
  | _, _ => false
  end.

(** [stale_reuse m last tr]: somewhere in [tr] the method [m] is called at
    a resolution different from the one of its previous call ([last] when
    the previous call is before [tr]) although its engine was not
    constructed in between. *)
Fixpoint stale_reuse (m : Bound.method) (last : option (Z * Z))
    (tr : list Event) : bool :=
  match tr with
  | [] => false
  | ev :: t =>
      if constructs m ev then stale_reuse m None t
      else
        match ev with
        | EvDetector m' res =>
            if Bound.eqb m m' then
              match last with
              | Some res0 =>
                  negb (pair_eqb res0 res) || stale_reuse m (Some res) t
              | None => stale_reuse m (Some res) t
              end
            else stale_reuse m last t
        | _ => stale_reuse m last t
        end
  end.

(** What the slot table holds besides the counter. *)
Definition slot_table {X} (s : EyeProcessor X)
  : option Bound.method * option Bound.method
    * option Bound.method * option Bound.method :=
  (firstalgo s, secondalgo s, thirdalgo s, fourthalgo s).

(** The highest-priority occupied slot. *)
Definition first_occupied {X} (s : EyeProcessor X) : option Bound.method :=
  match firstalgo s, secondalgo s, thirdalgo s, fourthalgo s with
  | Some m, _, _, _ => Some m
  | None, Some m, _, _ => Some m
  | None, None, Some m, _ => Some m
  | None, None, None, o => o
  end.

(** The records [s'] has on the outgoing queue beyond those of [s]. *)
Definition emitted {X} (s s' : EyeProcessor X)
  : list (Np.ndarray * EyeInformation) :=
  skipn (length (image_queue_outgoing s)) (image_queue_outgoing s').

(** The ROI is not set up: the guard of line 394. *)
Definition roi_unconfigured (inp : TickInput) : bool :=
  (roi_window_w (in_config inp) <=? 0) || (roi_window_h (in_config inp) <=? 0).

(** Cancellation is seen in this iteration, at its top or in the wait. *)
Definition cancellation_seen (inp : TickInput) : bool :=
  in_cancelled inp || in_wait inp.

Definition is_idle_event (ev : Event) : bool :=
  match ev with
  | EvWait t => Qeq_bool t (1 # 10)
  | EvPrint InfoExiting => true
  | _ => false
  end.

(** What a worker that finds the ROI unset in every iteration adds to the
    trace: one wait of 0.1 s for each iteration, up to the iteration that
    finds the cancellation event set at its top (it prints and returns) or
    during its wait (it returns). *)
Fixpoint idle_events (inputs : list TickInput) : list Event :=
  match inputs with
  | [] => []
  | inp :: rest =>
      if in_cancelled inp then [EvPrint InfoExiting]
      else EvWait (1 # 10) :: (if in_wait inp then [] else idle_events rest)
  end.

Definition is_Return {X} (o : @outcome X) : bool :=
  match o with
  | Return _ => true
  | _ => false
  end.

Definition is_Crash {X} (o : @outcome X) : bool :=
  match o with
  | Crash _ _ => true
  | _ => false
  end.

(** [s'] has the slot table and the engine handles of [s], and no engine
    was constructed on the way. *)
Definition keeps_table {X} (s s' : EyeProcessor X) : Prop :=
  slot_table s' = slot_table s /\
  er_hsf s' = er_hsf s /\
  er_hsrac s' = er_hsrac s /\
  exists added,
    trace s' = trace s ++ added /\
    existsb is_engine_construction added = false.

Definition is_print (ev : Event) : bool :=
  match ev with
  | EvPrint _ => true
  | _ => false
  end.

(** The part of [self] that decides which detector runs and on which
    engine: everything [run] sets up before the loop, with the models of
    the 3D detector. *)
Record same_wiring {X} (s s' : EyeProcessor X) : Prop := mk_same_wiring {
  sw_config : config s' = config s;
  sw_settings : settings s' = settings s;
  sw_failed : failed s' = failed s;
  sw_first : firstalgo s' = firstalgo s;
  sw_second : secondalgo s' = secondalgo s;
  sw_third : thirdalgo s' = thirdalgo s;
  sw_fourth : fourthalgo s' = fourthalgo s;
  sw_er_hsf : er_hsf s' = er_hsf s;
  sw_er_hsrac : er_hsrac s' = er_hsrac s;
  sw_camera_model : camera_model s' = camera_model s;
  sw_detector_3d : detector_3d s' = detector_3d s
}.

(** [s'] is [s] after some work that touched none of the wiring and only
    printed. *)
Definition quiet_step {X} (s s' : EyeProcessor X) : Prop :=
  same_wiring s s' /\
  exists printed, trace s' = trace s ++ printed /\ forallb is_print printed = true.

(** The bound method [m] can run: its engine handle is not [None]. *)
Definition ready {X} (m : Bound.method) (s : EyeProcessor X) : bool :=
  match m with
  | Bound.HSFM => match er_hsf s with Some _ => true | None => false end
  | Bound.HSRACM => match er_hsrac s with Some _ => true | None => false end
  | _ => true
  end.

(** A frame the loop has accepted: a non-empty colour image of 8-bit or
    16-bit unsigned integers or of 32-bit floats, as [cv2.COLOR_BGR2GRAY]
    wants it. *)
Definition is_bgr_frame (a : Np.ndarray) : Prop :=
  exists rows cols k,
    Np.shape a = [rows; cols; k] /\
    rows <> 0%nat /\ cols <> 0%nat /\ (k = 3%nat \/ k = 4%nat) /\
    Cv2.cvt_depth (Np.dtype a) = true.

Definition previous_ok {X} (s : EyeProcessor X) : Prop :=
  forall p, previous_image s = Some p -> is_bgr_frame p.

(** [s'] still has the current frame of [s], and its previous frame is
    either the previous or the current frame of [s]. *)
Definition frames_kept {X} (s s' : EyeProcessor X) : Prop :=
  current_image s' = current_image s /\
  (previous_image s' = previous_image s \/
   previous_image s' = current_image s).

(** ** The slot table as the specification words it

    Slot [i] holds the last algorithm, in the order edge-based, hybrid,
    3D-model-based, blob-based, that is enabled with priority [i]; it is
    empty when there is none. *)

Definition enabled (st : EyeTrackSettingsConfig) (m : Bound.method) : bool :=
  match m with
  | Bound.HSFM => gui_HSF st
  | Bound.HSRACM => gui_HSRAC st
  | Bound.RANSAC3DM => gui_RANSAC3D st
  | Bound.BLOBM => gui_BLOB st
  end.

Definition priority (st : EyeTrackSettingsConfig) (m : Bound.method) : Z :=
  match m with
  | Bound.HSFM => gui_HSFP st
  | Bound.HSRACM => gui_HSRACP st
  | Bound.RANSAC3DM => gui_RANSAC3DP st
  | Bound.BLOBM => gui_BLOBP st
  end.

Definition overwrite_order : list Bound.method :=
  [Bound.HSFM; Bound.HSRACM; Bound.RANSAC3DM; Bound.BLOBM].

Definition spec_slot (st : EyeTrackSettingsConfig) (i : Z) : option Bound.method :=
  fold_left
    (fun slot m => if enabled st m && (priority st m =? i) then Some m else slot)
    overwrite_order None.

Definition priorities_in_range (st : EyeTrackSettingsConfig) : Prop :=
  forall m, 1 <= priority st m <= 4.

(** ** Stand-ins for the collaborators

    Used to run the model on concrete frames.  The detectors answer a
    fixed centre [c] and hand the grayscale frame back as their diagnostic
    frame; calibration maps pixel 50 to 0 and pixels 0 and 100 to -1 and
    1; the warp copies the source when the canvas has its size and paints
    the border colour otherwise; a conversion between element types keeps
    the integer. *)

Definition demo_warp : Cv2.warp_fn :=
  fun a M h w border =>
    match Np.shape a with
    | r :: c :: rest =>
        if Nat.eqb r h && Nat.eqb c w then Np.data a
        else repeat (fst (fst border)) (h * w * Np.prod_dims rest)
    | _ => []
    end.

Definition demo_gray_pixel (b g r : Z) : Z :=
  Z.shiftr (b * 1868 + g * 9617 + r * 4899 + 8192) 14.

Definition demo_ext (c : Q * Q) : Externals unit :=
  mk_Externals
    (fun _ x => x)
    (fun _ img x => ((fst c, snd c, img), x))
    (fun _ x => x)
    (fun _ img x => ((fst c, snd c, img, img, img), x))
    (fun s => ((fst c, snd c, current_image_gray s), ext s))
    (fun s => ((fst c, snd c, current_image_gray s), ext s))
    (fun s => (false, ext s))
    (fun _ _ _ x => (0%Q, x))
    (fun s cx cy => (((cx - 50) / 50, (cy - 50) / 50)%Q, ext s))
    demo_warp
    (fun _ => demo_gray_pixel)
    (fun _ _ v => v).

(** A [rows] by [cols] BGR frame, white with a dark disk of radius
    [radius] around its centre. *)
Definition disk_frame (rows cols radius : nat) : Np.ndarray :=
  Np.mk_ndarray Np.uint8 [rows; cols; 3%nat]
    (flat_map
       (fun i =>
          flat_map
            (fun j =>
               let dy := Z.of_nat i - Z.of_nat rows / 2 in
               let dx := Z.of_nat j - Z.of_nat cols / 2 in
               if dy * dy + dx * dx <=? Z.of_nat radius * Z.of_nat radius
               then [0; 0; 0] else [255; 255; 255])
            (seq 0 cols))
       (seq 0 rows)).

Definition gray_frame (rows cols : nat) (v : Z) : Np.ndarray :=
  Np.mk_ndarray Np.uint8 [rows; cols] (repeat v (rows * cols)).

Definition demo_config (x y w h : Z) : EyeTrackCameraConfig :=
  mk_config x y w h 0 30.

(** Enable flags and priorities in the order edge-based, hybrid,
    3D-model-based, blob-based. *)
Definition demo_settings (hsf : bool) (hsfp : Z) (hsrac : bool) (hsracp : Z)
    (ransac : bool) (ransacp : Z) (blob : bool) (blobp : Z)
  : EyeTrackSettingsConfig :=
  mk_settings hsf hsfp hsrac hsracp ransac ransacp blob blobp false 10.

Definition frame_tick (cfg : EyeTrackCameraConfig)
    (st : EyeTrackSettingsConfig) (img : pyobj) (n : Z) : TickInput :=
  mk_tick cfg st false false true (Some (img, n, 60%Q)).

Definition idle_tick (cfg : EyeTrackCameraConfig)
    (st : EyeTrackSettingsConfig) (cancelled cancelled_in_wait : bool)
  : TickInput :=
  mk_tick cfg st cancelled cancelled_in_wait true None.

(** ** Concrete configurations and runs *)

Definition only_blob (p : Z) : EyeTrackSettingsConfig :=
  demo_settings false 1 false 2 false 3 true p.

Definition only_hsf (p : Z) : EyeTrackSettingsConfig :=
  demo_settings true p false 2 false 3 false 4.

(** Edge-based and hybrid both at priority 2, 3D-model-based and blob-based
    both at priority 1. *)
Definition colliding : EyeTrackSettingsConfig :=
  demo_settings true 2 true 2 true 1 true 1.

Definition roi_100 : EyeTrackCameraConfig := demo_config 0 0 100 100.

Definition roi_unset : EyeTrackCameraConfig := demo_config 0 0 0 0.

(** [self] as [run] has wired it for the settings [st], before the first
    iteration. *)
Definition wired (c : Q * Q) (cfg : EyeTrackCameraConfig)
    (st : EyeTrackSettingsConfig) : EyeProcessor unit :=
  state_of (run (demo_ext c) [] (init cfg st tt)).

(** Scenario A of the specification: ROI (0, 0, 100, 100), no rotation,
    one frame with a centred dark disk, only the blob-based algorithm
    enabled, at priority 1. *)
Definition scenario_A : @outcome unit :=
  run (demo_ext (50, 50)%Q)
    [frame_tick roi_100 (only_blob 1) (Some (disk_frame 100 100 20)) 1]
    (init roi_100 (only_blob 1) tt).

(** Three frames with only the blob-based algorithm enabled, at
    priority 4. *)
Definition fourth_slot_run : @outcome unit :=
  run (demo_ext (4, 4)%Q)
    [frame_tick (demo_config 0 0 8 8) (only_blob 4) (Some (disk_frame 8 8 2)) 1;
     frame_tick (demo_config 0 0 8 8) (only_blob 4) (Some (disk_frame 8 8 2)) 2;
     frame_tick (demo_config 0 0 8 8) (only_blob 4) (Some (disk_frame 8 8 2)) 3]
    (init (demo_config 0 0 8 8) (only_blob 4) tt).

(** Only the edge-based algorithm; the detector finds no pupil and answers
    the sentinel (0, 0). *)
Definition sentinel_run : @outcome unit :=
  run (demo_ext (0, 0)%Q)
    [frame_tick (demo_config 0 0 8 8) (only_hsf 1) (Some (disk_frame 8 8 2)) 1]
    (init (demo_config 0 0 8 8) (only_hsf 1) tt).

(** Only the edge-based algorithm; the ROI shrinks from 8 by 8 to 4 by 4
    between two frames. *)
Definition resize_run : @outcome unit :=
  run (demo_ext (2, 2)%Q)
    [frame_tick (demo_config 0 0 8 8) (only_hsf 1) (Some (disk_frame 8 8 2)) 1;
     frame_tick (demo_config 0 0 4 4) (only_hsf 1) (Some (disk_frame 8 8 2)) 2]
    (init (demo_config 0 0 8 8) (only_hsf 1) tt).

(** The ROI is never set up and the edge-based algorithm is enabled; the
    third iteration is cancelled during its wait. *)
Definition unset_roi_run : @outcome unit :=
  run (demo_ext (0, 0)%Q)
    [idle_tick roi_unset (only_hsf 1) false false;
     idle_tick roi_unset (only_hsf 1) false false;
     idle_tick roi_unset (only_hsf 1) false true]
    (init roi_unset (only_hsf 1) tt).

(** Only the blob-based algorithm; a good frame, then an item whose frame
    is [None]. *)
Definition fallback_run : @outcome unit :=
  run (demo_ext (4, 4)%Q)
    [frame_tick (demo_config 0 0 8 8) (only_blob 1) (Some (disk_frame 8 8 2)) 1;
     frame_tick (demo_config 0 0 8 8) (only_blob 1) None 2]
    (init (demo_config 0 0 8 8) (only_blob 1) tt).

(** An 8 by 8 frame and an ROI of 4 by 4 inside it. *)
Definition inside : EyeProcessor unit :=
  set_current_image (Some (disk_frame 8 8 2))
    (init (demo_config 2 3 4 4) (only_blob 1) tt).

(** A 4 by 4 frame and an ROI of 4 by 4 whose corner is at (2, 2). *)
Definition overhanging : EyeProcessor unit :=
  set_current_image (Some (disk_frame 4 4 1))
    (init (demo_config 2 2 4 4) (only_blob 1) tt).



(** ** Further observations *)

(** Constructions of the camera model with its 3D detector. *)
Fixpoint count_new_camera (tr : list Event) : nat :=
  match tr with
  | [] => 0%nat
  | EvNewCamera _ :: t => S (count_new_camera t)
  | _ :: t => count_new_camera t
  end.

(** The item this iteration dequeues, if any, carries [None] or a
    non-empty colour image of an element type [cv2.COLOR_BGR2GRAY]
    takes. *)
Definition delivers_colour (inp : TickInput) : Prop :=
  match in_frame inp with
  | Some (Some a, _, _) => is_bgr_frame a
  | _ => True
  end.

Definition table_entries {X} (s : EyeProcessor X) : list (option Bound.method) :=
  [firstalgo s; secondalgo s; thirdalgo s; fourthalgo s].

(** Every bound method in the slot table has its engine. *)
Definition slots_ready {X} (s : EyeProcessor X) : Prop :=
  forall m, In (Some m) (table_entries s) -> ready m s = true.

(** Only the fourth slot is occupied. *)
Definition only_fourth_occupied {X} (s : EyeProcessor X) : bool :=
  match firstalgo s, secondalgo s, thirdalgo s, fourthalgo s with
  | None, None, None, Some _ => true
  | _, _, _, _ => false
  end.

(** What a wrapper leaves alone before it hands its record to the sink:
    everything but [ext], [eyeopen], [current_image_gray], [prev_x],
    [prev_y] and the trace. *)
Record untouched {X} (s s' : EyeProcessor X) : Prop := mk_untouched {
  ut_wiring : same_wiring s s';
  ut_queue : image_queue_outgoing s' = image_queue_outgoing s;
  ut_current : current_image s' = current_image s;
  ut_previous : previous_image s' = previous_image s;
  ut_rotation : previous_rotation s' = previous_rotation s;
  ut_clean : current_image_gray_clean s' = current_image_gray_clean s;
  ut_eyeoffx : eyeoffx s' = eyeoffx s
}.

(** The camera model, the 3D detector and the number of their
    constructions are those of [s]. *)
Definition camera_kept {X} (s s' : EyeProcessor X) : Prop :=
  camera_model s' = camera_model s /\
  detector_3d s' = detector_3d s /\
  count_new_camera (trace s') = count_new_camera (trace s).

(** The camera model is the one for a [w] by [h] ROI and the 3D detector
    exists, so line 404 finds nothing to rebuild. *)
Definition camera_fits {X} (res : Z * Z) (s : EyeProcessor X) : Prop :=
  exists cm d,
    camera_model s = Some cm /\ detector_3d s = Some d /\ resolution cm = res.

(** What the loop does around the scheduler (reading the shared objects,
    waiting, rebuilding the camera model, dequeuing, preprocessing,
    grayscale conversion) leaves all of this alone. *)
Record plumbing {X} (s s' : EyeProcessor X) : Prop := mk_plumbing {
  pl_failed : failed s' = failed s;
  pl_table : slot_table s' = slot_table s;
  pl_er_hsf : er_hsf s' = er_hsf s;
  pl_er_hsrac : er_hsrac s' = er_hsrac s;
  pl_queue : image_queue_outgoing s' = image_queue_outgoing s;
  pl_previous : previous_image s' = previous_image s;
  pl_eyeoffx : eyeoffx s' = eyeoffx s;
  pl_calls : detector_calls (trace s') = detector_calls (trace s)
}.

(** The iteration dequeues an item. *)
Definition delivers (inp : TickInput) : bool :=
  match in_frame inp with
  | Some _ => true
  | None => false
  end.

(** ** The decorator [run_once]

    [wrapper.has_run] is the boolean; the wrapped function [f] works on a
    state of its own and either returns a value or raises ([None]).  A call
    of the wrapper gives [Returned r] when [f] ran and returned [r],
    [Skipped] for the [None] the wrapper falls off with, and [Failed] when
    [f] raised. *)

Inductive once_result (R : Type) : Type :=
| Returned (r : R)
| Skipped
| Failed.

Arguments Returned {R} r.
Arguments Skipped {R}.
Arguments Failed {R}.

Section RunOnce.

Context {A W R : Type}.

Variable f : A -> W -> option R * W.

Definition wrapper (a : A) (st : bool * W) : once_result R * (bool * W) :=
  let '(has_run, w) := st in
  if negb has_run then
    match f a w with
    | (Some r, w') => (Returned r, (true, w'))
    | (None, w') => (Failed, (true, w'))
    end
  else (Skipped, (has_run, w)).

(** Successive calls; a call that raises does not stop the caller here. *)
Fixpoint wrapper_calls (args : list A) (st : bool * W)
  : list (once_result R) * (bool * W) :=
  match args with
  | [] => ([], st)
  | a :: rest =>
      let '(r, st') := wrapper a st in
      let '(rs, st'') := wrapper_calls rest st' in
      (r :: rs, st'')
  end.

(** [run_once(f)]: the wrapper with [has_run] cleared. *)
Definition run_once (w : W) : bool * W := (false, w).

End RunOnce.

(** ** The camera widget ([RANSACApp/camera_widget.py])

    [CameraWidget.render] is called by the GUI loop for every window
    event.  The widget, together with the fields of the eye's
    configuration and of the tracker that [render] reads and writes, is
    the record [CameraWidget]; what [render] does to the window, the disk,
    the camera and the capture event is appended to [effects].  The two
    queues [render] polls are its argument [QueueInput]: what a
    non-blocking [get] finds, [None] for an empty queue. *)

Module Widget.

Inductive Source : Type :=
| SrcInt (n : Z)
| SrcNone
| SrcStr (a : String.string).

Inductive QueueName : Type := CaptureQueue | RoiQueue.

Inductive Layout : Type := RoiLayout | TrackingLayout.

Inductive Graph : Type := RoiSelectionGraph | OutputGraph.

Inductive Colour : Type := White | Blue | Red.

Inductive Note : Type :=
| NewValue (a : String.string)
| MovingToTracking
| MoveToRoi.

Inductive Effect : Type :=
| Printed (m : Note)
| Save
| SetOutputQueue (q : QueueName)
| Visible (l : Layout) (b : bool)
| Readout (calibrating : bool)
| CaptureEventSet
| DeleteFigure (f : nat)
| Erase (g : Graph)
| DrawImage (bytes : list Z)
| DrawRectangle (fx0 fy0 fx1 fy1 : Z)
| UpdateImage (bytes : list Z)
| Background (c : Colour)
| DrawCircle (cx cy : Q).

(** The window events [render] tells apart; [OtherEvent] is any other
    event, a timeout included. *)
Inductive GuiEvent : Type :=
| SaveTrackingButton
| TrackingButton
| RoiButton
| RoiSelectionUp
| RoiSelection
| RestartCalibration
| RecenterEye
| OtherEvent.

Record Values : Type := mk_Values {
  v_camera_addr : String.string;
  v_threshold_slider : Q;
  v_rotation_slider : Q;
  v_scalar_slider : Q;
  v_show_color_image : bool;
  v_roi_selection : Z * Z
}.

(** What [render] reads of the record the tracker sends with an image:
    whether its origin is [FAILURE], whether its [blink] is truthy, and
    the two coordinates. *)
Record EyeInfo : Type := mk_EyeInfo {
  failed_origin : bool;
  blinking : bool;
  eye_x : Q;
  eye_y : Q
}.

Record QueueInput : Type := mk_QueueInput {
  roi_item : option (Np.ndarray * Z * Q);
  image_item : option (Np.ndarray * EyeInfo)
}.

Record CameraWidget : Type := mk_CameraWidget {
  capture_source : Source;
  threshold : Q;
  rotation_angle : Q;
  vrc_eye_position_scalar : Q;
  show_color_image : bool;
  roi_window_x : Z;
  roi_window_y : Z;
  roi_window_w : Z;
  roi_window_h : Z;
  in_roi_mode : bool;
  is_mouse_up : bool;
  x0 : option Z;
  y0 : option Z;
  x1 : option Z;
  y1 : option Z;
  figure : option nat;
  calibration_frame_counter : option Z;
  recenter_eye : bool;
  camera_output : QueueName;
  next_figure : nat;
  effects : list Effect
}.

Definition set_capture_source (v : Source) (s : CameraWidget) : CameraWidget :=
  mk_CameraWidget
    v (threshold s) (rotation_angle s) (vrc_eye_position_scalar s)
    (show_color_image s) (roi_window_x s) (roi_window_y s) (roi_window_w s)
    (roi_window_h s) (in_roi_mode s) (is_mouse_up s) (x0 s) (y0 s) (x1 s)
    (y1 s) (figure s) (calibration_frame_counter s) (recenter_eye s)
    (camera_output s) (next_figure s) (effects s).

Definition set_threshold (v : Q) (s : CameraWidget) : CameraWidget :=
  mk_CameraWidget
    (capture_source s) v (rotation_angle s) (vrc_eye_position_scalar s)
    (show_color_image s) (roi_window_x s) (roi_window_y s) (roi_window_w s)
    (roi_window_h s) (in_roi_mode s) (is_mouse_up s) (x0 s) (y0 s) (x1 s)
    (y1 s) (figure s) (calibration_frame_counter s) (recenter_eye s)
    (camera_output s) (next_figure s) (effects s).

Definition set_rotation_angle (v : Q) (s : CameraWidget) : CameraWidget :=
  mk_CameraWidget
    (capture_source s) (threshold s) v (vrc_eye_position_scalar s)
    (show_color_image s) (roi_window_x s) (roi_window_y s) (roi_window_w s)
    (roi_window_h s) (in_roi_mode s) (is_mouse_up s) (x0 s) (y0 s) (x1 s)
    (y1 s) (figure s) (calibration_frame_counter s) (recenter_eye s)
    (camera_output s) (next_figure s) (effects s).

Definition set_vrc_eye_position_scalar (v : Q) (s : CameraWidget) : CameraWidget :=
  mk_CameraWidget
    (capture_source s) (threshold s) (rotation_angle s) v (show_color_image s)
    (roi_window_x s) (roi_window_y s) (roi_window_w s) (roi_window_h s)
    (in_roi_mode s) (is_mouse_up s) (x0 s) (y0 s) (x1 s) (y1 s) (figure s)
    (calibration_frame_counter s) (recenter_eye s) (camera_output s)
    (next_figure s) (effects s).

Definition set_show_color_image (v : bool) (s : CameraWidget) : CameraWidget :=
  mk_CameraWidget
    (capture_source s) (threshold s) (rotation_angle s)
    (vrc_eye_position_scalar s) v (roi_window_x s) (roi_window_y s)
    (roi_window_w s) (roi_window_h s) (in_roi_mode s) (is_mouse_up s) (x0 s)
    (y0 s) (x1 s) (y1 s) (figure s) (calibration_frame_counter s)
    (recenter_eye s) (camera_output s) (next_figure s) (effects s).

Definition set_roi_window_x (v : Z) (s : CameraWidget) : CameraWidget :=
  mk_CameraWidget
    (capture_source s) (threshold s) (rotation_angle s)
    (vrc_eye_position_scalar s) (show_color_image s) v (roi_window_y s)
    (roi_window_w s) (roi_window_h s) (in_roi_mode s) (is_mouse_up s) (x0 s)
    (y0 s) (x1 s) (y1 s) (figure s) (calibration_frame_counter s)
    (recenter_eye s) (camera_output s) (next_figure s) (effects s).

Definition set_roi_window_y (v : Z) (s : CameraWidget) : CameraWidget :=
  mk_CameraWidget
    (capture_source s) (threshold s) (rotation_angle s)
    (vrc_eye_position_scalar s) (show_color_image s) (roi_window_x s) v
    (roi_window_w s) (roi_window_h s) (in_roi_mode s) (is_mouse_up s) (x0 s)
    (y0 s) (x1 s) (y1 s) (figure s) (calibration_frame_counter s)
    (recenter_eye s) (camera_output s) (next_figure s) (effects s).

Definition set_roi_window_w (v : Z) (s : CameraWidget) : CameraWidget :=
  mk_CameraWidget
    (capture_source s) (threshold s) (rotation_angle s)
    (vrc_eye_position_scalar s) (show_color_image s) (roi_window_x s)
    (roi_window_y s) v (roi_window_h s) (in_roi_mode s) (is_mouse_up s) (x0 s)
    (y0 s) (x1 s) (y1 s) (figure s) (calibration_frame_counter s)
    (recenter_eye s) (camera_output s) (next_figure s) (effects s).

Definition set_roi_window_h (v : Z) (s : CameraWidget) : CameraWidget :=
  mk_CameraWidget
    (capture_source s) (threshold s) (rotation_angle s)
    (vrc_eye_position_scalar s) (show_color_image s) (roi_window_x s)
    (roi_window_y s) (roi_window_w s) v (in_roi_mode s) (is_mouse_up s) (x0 s)
    (y0 s) (x1 s) (y1 s) (figure s) (calibration_frame_counter s)
    (recenter_eye s) (camera_output s) (next_figure s) (effects s).

Definition set_in_roi_mode (v : bool) (s : CameraWidget) : CameraWidget :=
  mk_CameraWidget
    (capture_source s) (threshold s) (rotation_angle s)
    (vrc_eye_position_scalar s) (show_color_image s) (roi_window_x s)
    (roi_window_y s) (roi_window_w s) (roi_window_h s) v (is_mouse_up s)
    (x0 s) (y0 s) (x1 s) (y1 s) (figure s) (calibration_frame_counter s)
    (recenter_eye s) (camera_output s) (next_figure s) (effects s).

Definition set_is_mouse_up (v : bool) (s : CameraWidget) : CameraWidget :=
  mk_CameraWidget
    (capture_source s) (threshold s) (rotation_angle s)
    (vrc_eye_position_scalar s) (show_color_image s) (roi_window_x s)
    (roi_window_y s) (roi_window_w s) (roi_window_h s) (in_roi_mode s) v
    (x0 s) (y0 s) (x1 s) (y1 s) (figure s) (calibration_frame_counter s)
    (recenter_eye s) (camera_output s) (next_figure s) (effects s).

Definition set_x0 (v : option Z) (s : CameraWidget) : CameraWidget :=
  mk_CameraWidget
    (capture_source s) (threshold s) (rotation_angle s)
    (vrc_eye_position_scalar s) (show_color_image s) (roi_window_x s)
    (roi_window_y s) (roi_window_w s) (roi_window_h s) (in_roi_mode s)
    (is_mouse_up s) v (y0 s) (x1 s) (y1 s) (figure s)
    (calibration_frame_counter s) (recenter_eye s) (camera_output s)
    (next_figure s) (effects s).

Definition set_y0 (v : option Z) (s : CameraWidget) : CameraWidget :=
  mk_CameraWidget
    (capture_source s) (threshold s) (rotation_angle s)
    (vrc_eye_position_scalar s) (show_color_image s) (roi_window_x s)
    (roi_window_y s) (roi_window_w s) (roi_window_h s) (in_roi_mode s)
    (is_mouse_up s) (x0 s) v (x1 s) (y1 s) (figure s)
    (calibration_frame_counter s) (recenter_eye s) (camera_output s)
    (next_figure s) (effects s).

Definition set_x1 (v : option Z) (s : CameraWidget) : CameraWidget :=
  mk_CameraWidget
    (capture_source s) (threshold s) (rotation_angle s)
    (vrc_eye_position_scalar s) (show_color_image s) (roi_window_x s)
    (roi_window_y s) (roi_window_w s) (roi_window_h s) (in_roi_mode s)
    (is_mouse_up s) (x0 s) (y0 s) v (y1 s) (figure s)
    (calibration_frame_counter s) (recenter_eye s) (camera_output s)
    (next_figure s) (effects s).

Definition set_y1 (v : option Z) (s : CameraWidget) : CameraWidget :=
  mk_CameraWidget
    (capture_source s) (threshold s) (rotation_angle s)
    (vrc_eye_position_scalar s) (show_color_image s) (roi_window_x s)
    (roi_window_y s) (roi_window_w s) (roi_window_h s) (in_roi_mode s)
    (is_mouse_up s) (x0 s) (y0 s) (x1 s) v (figure s)
    (calibration_frame_counter s) (recenter_eye s) (camera_output s)
    (next_figure s) (effects s).

Definition set_figure (v : option nat) (s : CameraWidget) : CameraWidget :=
  mk_CameraWidget
    (capture_source s) (threshold s) (rotation_angle s)
    (vrc_eye_position_scalar s) (show_color_image s) (roi_window_x s)
    (roi_window_y s) (roi_window_w s) (roi_window_h s) (in_roi_mode s)
    (is_mouse_up s) (x0 s) (y0 s) (x1 s) (y1 s) v
    (calibration_frame_counter s) (recenter_eye s) (camera_output s)
    (next_figure s) (effects s).

Definition set_calibration_frame_counter (v : option Z) (s : CameraWidget) : CameraWidget :=
  mk_CameraWidget
    (capture_source s) (threshold s) (rotation_angle s)
    (vrc_eye_position_scalar s) (show_color_image s) (roi_window_x s)
    (roi_window_y s) (roi_window_w s) (roi_window_h s) (in_roi_mode s)
    (is_mouse_up s) (x0 s) (y0 s) (x1 s) (y1 s) (figure s) v (recenter_eye s)
    (camera_output s) (next_figure s) (effects s).

Definition set_recenter_eye (v : bool) (s : CameraWidget) : CameraWidget :=
  mk_CameraWidget
    (capture_source s) (threshold s) (rotation_angle s)
    (vrc_eye_position_scalar s) (show_color_image s) (roi_window_x s)
    (roi_window_y s) (roi_window_w s) (roi_window_h s) (in_roi_mode s)
    (is_mouse_up s) (x0 s) (y0 s) (x1 s) (y1 s) (figure s)
    (calibration_frame_counter s) v (camera_output s) (next_figure s)
    (effects s).

Definition set_camera_output (v : QueueName) (s : CameraWidget) : CameraWidget :=
  mk_CameraWidget
    (capture_source s) (threshold s) (rotation_angle s)
    (vrc_eye_position_scalar s) (show_color_image s) (roi_window_x s)
    (roi_window_y s) (roi_window_w s) (roi_window_h s) (in_roi_mode s)
    (is_mouse_up s) (x0 s) (y0 s) (x1 s) (y1 s) (figure s)
    (calibration_frame_counter s) (recenter_eye s) v (next_figure s)
    (effects s).

Definition set_next_figure (v : nat) (s : CameraWidget) : CameraWidget :=
  mk_CameraWidget
    (capture_source s) (threshold s) (rotation_angle s)
    (vrc_eye_position_scalar s) (show_color_image s) (roi_window_x s)
    (roi_window_y s) (roi_window_w s) (roi_window_h s) (in_roi_mode s)
    (is_mouse_up s) (x0 s) (y0 s) (x1 s) (y1 s) (figure s)
    (calibration_frame_counter s) (recenter_eye s) (camera_output s) v
    (effects s).

Definition set_effects (v : list Effect) (s : CameraWidget) : CameraWidget :=
  mk_CameraWidget
    (capture_source s) (threshold s) (rotation_angle s)
    (vrc_eye_position_scalar s) (show_color_image s) (roi_window_x s)
    (roi_window_y s) (roi_window_w s) (roi_window_h s) (in_roi_mode s)
    (is_mouse_up s) (x0 s) (y0 s) (x1 s) (y1 s) (figure s)
    (calibration_frame_counter s) (recenter_eye s) (camera_output s)
    (next_figure s) v.

Inductive outcome : Type :=
| Done (s : CameraWidget)
| Raise (e : exn) (s : CameraWidget).

Definition emit (e : Effect) (s : CameraWidget) : CameraWidget :=
  set_effects (effects s ++ [e]) s.

(** The widget as [__init__] leaves it (lines 161-165), over the
    configuration of its eye and the tracker's counter: tracking mode,
    the camera feeding the capture queue, no point of a drag recorded. *)
Definition init (src : Source) (thr rot scal : Q) (color : bool)
    (x y w h : Z) (counter : option Z) : CameraWidget :=
  mk_CameraWidget src thr rot scal color x y w h false true
    None None None None None counter false CaptureQueue 1 [].

(** [int(v)] of a float: truncation towards zero. *)
Definition py_int (v : Q) : Z := Z.quot (Qnum v) (Zpos (Qden v)).

(** [values[addr] != self.config.capture_source]: a string differs from
    an integer and from [None]. *)
Definition differs_from_source (a : String.string) (src : Source) : bool :=
  match src with
  | SrcStr b => negb (String.eqb a b)
  | _ => true
  end.

Section Render.

(** [int(text)] of Python, [None] for [ValueError], and [cv2.imencode]
    followed by [tobytes], [None] when OpenCV raises. *)
Variable parse_int : String.string -> option Z.
Variable imencode : Np.ndarray -> option (list Z).

(** Lines 174-208: the settings that follow the widgets. *)
Definition update_config (ev : GuiEvent) (vals : Values) (s : CameraWidget)
  : CameraWidget :=
  let changed := false in
  let '(s, changed) :=
    match ev with
    | SaveTrackingButton =>
        if differs_from_source (v_camera_addr vals) (capture_source s) then
          let s := emit (Printed (NewValue (v_camera_addr vals))) s in
          let src :=
            match parse_int (v_camera_addr vals) with
            | Some n => SrcInt n
            | None =>
                if String.eqb (v_camera_addr vals) String.EmptyString
                then SrcNone
                else SrcStr (v_camera_addr vals)
            end in
          (set_capture_source src s, true)
        else (s, changed)
    | _ => (s, changed)
    end in
  let '(s, changed) :=
    if negb (Qeq_bool (threshold s) (v_threshold_slider vals))
    then (set_threshold (inject_Z (py_int (v_threshold_slider vals))) s, true)
    else (s, changed) in
  let '(s, changed) :=
    if negb (Qeq_bool (rotation_angle s) (v_rotation_slider vals))
    then (set_rotation_angle (inject_Z (py_int (v_rotation_slider vals))) s,
          true)
    else (s, changed) in
  let '(s, changed) :=
    if negb (Qeq_bool (vrc_eye_position_scalar s) (v_scalar_slider vals))
    then (set_vrc_eye_position_scalar
            (inject_Z (py_int (v_scalar_slider vals))) s, true)
    else (s, changed) in
  let '(s, changed) :=
    if negb (Bool.eqb (show_color_image s) (v_show_color_image vals))
    then (set_show_color_image (v_show_color_image vals) s, true)
    else (s, changed) in
  if changed then emit Save s else s.

(** Lines 210-240: the [if]/[elif] chain on the event. *)
Definition dispatch (ev : GuiEvent) (vals : Values) (s : CameraWidget)
  : outcome :=
  match ev with
  | TrackingButton =>
      let s := emit (Printed MovingToTracking) s in
      let s := set_in_roi_mode false s in
      let s := emit (SetOutputQueue CaptureQueue)
                 (set_camera_output CaptureQueue s) in
      let s := emit (Visible RoiLayout false) s in
      Done (emit (Visible TrackingLayout true) s)
  | RoiButton =>
      let s := emit (Printed MoveToRoi) s in
      let s := set_in_roi_mode true s in
      let s := emit (SetOutputQueue RoiQueue) (set_camera_output RoiQueue s) in
      let s := emit (Visible RoiLayout true) s in
      Done (emit (Visible TrackingLayout false) s)
  | RoiSelectionUp =>
      let s := set_is_mouse_up true s in
      match x0 s, x1 s with
      | Some a0, Some a1 =>
          if negb (Z.abs (a0 - a1) =? 0) then
            match y0 s, y1 s with
            | Some b0, Some b1 =>
                if negb (Z.abs (b0 - b1) =? 0) then
                  let s := set_roi_window_x (Z.min a0 a1) s in
                  let s := set_roi_window_y (Z.min b0 b1) s in
                  let s := set_roi_window_w (Z.abs (a0 - a1)) s in
                  let s := set_roi_window_h (Z.abs (b0 - b1)) s in
                  Done (emit Save s)
                else Done s
            | _, _ => Raise TypeError s
            end
          else Done s
      | _, _ => Raise TypeError s
      end
  | RoiSelection =>
      let s :=
        if is_mouse_up s then
          let s := set_is_mouse_up false s in
          set_y0 (Some (snd (v_roi_selection vals)))
            (set_x0 (Some (fst (v_roi_selection vals))) s)
        else s in
      Done (set_y1 (Some (snd (v_roi_selection vals)))
              (set_x1 (Some (fst (v_roi_selection vals))) s))
  | RestartCalibration => Done (set_calibration_frame_counter (Some 300) s)
  | RecenterEye => Done (set_recenter_eye true s)
  | _ => Done s
  end.

(** Lines 242-297: the mode read-out and the image of the active mode. *)
Definition display (q : QueueInput) (s : CameraWidget) : outcome :=
  let s :=
    match calibration_frame_counter s with
    | Some _ => emit (Readout true) s
    | None => emit (Readout false) s
    end in
  if in_roi_mode s then
    match roi_item q with
    | None => Done (emit CaptureEventSet s)
    | Some (img, _, _) =>
        match imencode img with
        | None => Raise CvError s
        | Some bytes =>
            let s :=
              match figure s with
              | Some f => emit (DeleteFigure f) s
              | None => s
              end in
            let s := emit (Erase RoiSelectionGraph) s in
            let s := emit (DrawImage bytes) s in
            match x0 s, y0 s, x1 s, y1 s with
            | Some a0, Some b0, Some a1, Some b1 =>
                let s := emit (DrawRectangle a0 b0 a1 b1) s in
                Done (set_next_figure (S (next_figure s))
                        (set_figure (Some (next_figure s)) s))
            | _, _, _, _ => Done s
            end
        end
    end
  else
    match image_item q with
    | None => Done s
    | Some (img, eye_info) =>
        match imencode img with
        | None => Raise CvError s
        | Some bytes =>
            let s := emit (UpdateImage bytes) s in
            let s := emit (Erase OutputGraph) s in
            if negb (failed_origin eye_info) && negb (blinking eye_info)
            then
              let s := emit (Background White) s in
              Done (emit (DrawCircle (eye_x eye_info * -100)
                                     (eye_y eye_info * -100))%Q s)
            else if blinking eye_info then Done (emit (Background Blue) s)
            else if failed_origin eye_info
                 then Done (emit (Background Red) s)
                 else Done s
        end
    end.

Definition render (ev : GuiEvent) (vals : Values) (q : QueueInput)
    (s : CameraWidget) : outcome :=
  match dispatch ev vals (update_config ev vals s) with
  | Done s => display q s
  | Raise e s => Raise e s
  end.

(** The GUI loop: [render] for one event after the other, until one
    raises. *)
Fixpoint renders (evs : list (GuiEvent * Values * QueueInput))
    (s : CameraWidget) : outcome :=
  match evs with
  | [] => Done s
  | (ev, vals, q) :: rest =>
      match render ev vals q s with
      | Done s' => renders rest s'
      | Raise e s' => Raise e s'
      end
  end.

End Render.

Definition state_of (o : outcome) : CameraWidget :=
  match o with
  | Done s | Raise _ s => s
  end.

(** The ROI as the configuration holds it. *)
Definition roi (s : CameraWidget) : Z * Z * Z * Z :=
  (roi_window_x s, roi_window_y s, roi_window_w s, roi_window_h s).

Fixpoint count_saves (l : list Effect) : nat :=
  match l with
  | [] => 0%nat
  | Save :: t => S (count_saves t)
  | _ :: t => count_saves t
  end.

(** The camera feeds the ROI queue exactly in ROI mode. *)
Definition mode_matches_queue (s : CameraWidget) : Prop :=
  camera_output s = (if in_roi_mode s then RoiQueue else CaptureQueue).

(** The pointer of an event. *)
Definition pointer (e : GuiEvent * Values * QueueInput) : Z * Z :=
  v_roi_selection (snd (fst e)).

(** While the button is held the window sends the graph's own event
    (a move of the pointer) or an event [render] has no branch for. *)
Definition during_drag (e : GuiEvent * Values * QueueInput) : bool :=
  match fst (fst e) with
  | RoiSelection | OtherEvent => true
  | _ => false
  end.

(** Where the pointer was at the last graph event of [evs], [pt] when
    there is none. *)
Fixpoint last_pointer (pt : Z * Z)
    (evs : list (GuiEvent * Values * QueueInput)) : Z * Z :=
  match evs with
  | [] => pt
  | e :: rest =>
      match fst (fst e) with
      | RoiSelection => last_pointer (pointer e) rest
      | _ => last_pointer pt rest
      end
  end.

Definition is_graph_event (e : GuiEvent * Values * QueueInput) : bool :=
  match fst (fst e) with
  | RoiSelection => true
  | _ => false
  end.

Definition is_whole (v : Q) : bool := Qeq_bool (inject_Z (py_int v)) v.

(** What neither the settings nor the display touch. *)
Definition held (s t : CameraWidget) : Prop :=
  is_mouse_up t = is_mouse_up s /\
  x0 t = x0 s /\ y0 t = y0 s /\ x1 t = x1 s /\ y1 t = y1 s /\
  roi t = roi s /\
  in_roi_mode t = in_roi_mode s /\
  camera_output t = camera_output s.

(** A drag in progress: it began at [p], the pointer was last seen at
    [q], and the ROI is still that of [s0]. *)
Definition dragging (p q : Z * Z) (s0 s : CameraWidget) : Prop :=
  is_mouse_up s = false /\
  x0 s = Some (fst p) /\ y0 s = Some (snd p) /\
  x1 s = Some (fst q) /\ y1 s = Some (snd q) /\
  roi s = roi s0.

(** The part of the eye's configuration [render] writes. *)
Definition config_of (s : CameraWidget)
  : Source * Q * Q * Q * bool * (Z * Z * Z * Z) :=
  (capture_source s, threshold s, rotation_angle s,
   vrc_eye_position_scalar s, show_color_image s, roi s).

(** The configuration already holds what the widgets show. *)
Definition settled (vals : Values) (s : CameraWidget) : Prop :=
  Qeq_bool (threshold s) (v_threshold_slider vals) = true /\
  Qeq_bool (rotation_angle s) (v_rotation_slider vals) = true /\
  Qeq_bool (vrc_eye_position_scalar s) (v_scalar_slider vals) = true /\
  show_color_image s = v_show_color_image vals.

End Widget.

(** ** Further concrete inputs *)

Definition nothing_enabled : EyeTrackSettingsConfig :=
  demo_settings false 1 false 2 false 3 false 4.

(** Three items with an 8 by 8 frame, read with the ROI (0, 0, 8, 8) and
    the settings [st]. *)
Definition three_frames (st : EyeTrackSettingsConfig) : list TickInput :=
  [frame_tick (demo_config 0 0 8 8) st (Some (disk_frame 8 8 2)) 1;
   frame_tick (demo_config 0 0 8 8) st (Some (disk_frame 8 8 2)) 2;
   frame_tick (demo_config 0 0 8 8) st (Some (disk_frame 8 8 2)) 3].

(** [self] after one iteration that accepted an 8 by 8 frame, with only
    the blob-based algorithm enabled. *)
Definition after_good_frame : EyeProcessor unit :=
  state_of
    (run (demo_ext (4, 4)%Q)
       [frame_tick (demo_config 0 0 8 8) (only_blob 1)
          (Some (disk_frame 8 8 2)) 1]
       (init (demo_config 0 0 8 8) (only_blob 1) tt)).

(** A 4 by 4 frame and an ROI whose corner is on its right edge. *)
Definition beyond : EyeProcessor unit :=
  set_current_image (Some (disk_frame 4 4 1))
    (init (demo_config 4 0 4 4) (only_blob 1) tt).

(** An item with a grayscale frame of 2 rows and 2 columns. *)
Definition gray_tick : TickInput :=
  frame_tick (demo_config 0 0 2 2) (only_blob 1) (Some (gray_frame 2 2 7)) 1.

(** The engine [run] constructs for the hybrid algorithm under
    [demo_settings]. *)
Definition hybrid_engine : HSRAC_engine := mk_HSRAC_engine false 10.

(** The text of one digit, 0. *)
Definition text_0 : String.string :=
  String.String (Ascii.Ascii false false false false true true false false)
    String.EmptyString.

(** Stand-ins for [int] and [cv2.imencode], and a widget with its
    inputs. *)
Definition demo_parse_int (a : String.string) : option Z :=
  if String.eqb a text_0 then Some 0 else None.

Definition demo_imencode (a : Np.ndarray) : option (list Z) :=
  Some (Np.data a).

Definition demo_values (pt : Z * Z) : Widget.Values :=
  Widget.mk_Values text_0 50 0 3000 false pt.

Definition no_frames : Widget.QueueInput := Widget.mk_QueueInput None None.

Definition roi_frame : Widget.QueueInput :=
  Widget.mk_QueueInput (Some (disk_frame 2 2 0, 1, 60%Q)) None.

Definition new_widget : Widget.CameraWidget :=
  Widget.init Widget.SrcNone 50 0 3000 false 0 0 0 0 (Some 300).

(** The widget in ROI mode, with a frame on the ROI queue. *)
Definition widget_in_roi_mode : Widget.CameraWidget :=
  Widget.state_of
    (Widget.render demo_parse_int demo_imencode Widget.RoiButton
       (demo_values (0, 0)) roi_frame new_widget).

(** A press at (30, 5), a move to (10, 20), a timeout, the release. *)
Definition press : Widget.GuiEvent * Widget.Values * Widget.QueueInput :=
  (Widget.RoiSelection, demo_values (30, 5), roi_frame).

Definition drag_moves
  : list (Widget.GuiEvent * Widget.Values * Widget.QueueInput) :=
  [(Widget.RoiSelection, demo_values (10, 20), roi_frame);
   (Widget.OtherEvent, demo_values (10, 20), no_frames)].

Definition release : Widget.GuiEvent * Widget.Values * Widget.QueueInput :=
  (Widget.RoiSelectionUp, demo_values (10, 20), roi_frame).

(** * Properties *)

Section Facts.

Context {ExtState : Type} (E : Externals ExtState).

Ltac break_match :=
  match goal with
  | |- context [match ?x with _ => _ end] => destruct x eqn:?
  end.

(** ** Frame lemmas: what the sink and the wrappers leave alone *)

Lemma detector_calls_app (l1 l2 : list Event) :
  detector_calls (l1 ++ l2) = detector_calls l1 ++ detector_calls l2.
Proof.
  induction l1 as [|ev l1 IH]; simpl; [reflexivity|].
  destruct ev; simpl; rewrite IH; reflexivity.
Qed.

Lemma detector_calls_printed (l : list Event) :
  forallb is_print l = true -> detector_calls l = [].
Proof.
  induction l as [|ev l IH]; simpl; [reflexivity|].
  destruct ev; simpl; try discriminate; exact IH.
Qed.

Lemma quiet_refl (s : EyeProcessor ExtState) : quiet_step s s.
Proof.
  split; [constructor; reflexivity|].
  exists []; rewrite app_nil_r; split; reflexivity.
Qed.

Lemma quiet_trans (s1 s2 s3 : EyeProcessor ExtState) :
  quiet_step s1 s2 -> quiet_step s2 s3 -> quiet_step s1 s3.
Proof.
  intros [W1 (l1 & T1 & P1)] [W2 (l2 & T2 & P2)].
  split.
  - destruct W1, W2; constructor; congruence.
  - exists (l1 ++ l2); split.
    + rewrite T2, T1, app_assoc; reflexivity.
    + rewrite forallb_app, P1, P2; reflexivity.
Qed.

Lemma quiet_calls (s s' : EyeProcessor ExtState) :
  quiet_step s s' -> detector_calls (trace s') = detector_calls (trace s).
Proof.
  intros [_ (l & T & P)].
  rewrite T, detector_calls_app, (detector_calls_printed l P), app_nil_r.
  reflexivity.
Qed.

Lemma quiet_log_print (s : EyeProcessor ExtState) (m : Message) : quiet_step s (log (EvPrint m) s).
Proof.
  split; [constructor; reflexivity|].
  exists [EvPrint m]; split; reflexivity.
Qed.

Lemma quiet_untraced (s s' : EyeProcessor ExtState) :
  same_wiring s s' -> trace s' = trace s -> quiet_step s s'.
Proof.
  intros W T; split; [exact W|].
  exists []; rewrite app_nil_r; split; [exact T|reflexivity].
Qed.

Lemma output_images_and_update_quiet (t : pyobj) (i : EyeInformation) (s : EyeProcessor ExtState) :
  quiet_step s (output_images_and_update E t i s).
Proof.
  unfold output_images_and_update.
  repeat break_match; try apply quiet_log_print.
  apply quiet_untraced; [constructor|]; reflexivity.
Qed.

Ltac quiet_then_output :=
  simpl state_of_result;
  eapply quiet_trans; [|apply output_images_and_update_quiet];
  apply quiet_untraced; [constructor|]; reflexivity.

Lemma HSFM_quiet (s : EyeProcessor ExtState) :
  quiet_step s (state_of_result (HSFM E s)).
Proof.
  unfold HSFM.
  destruct (er_hsf s) as [eng|]; [|apply quiet_refl].
  destruct (hsf_run E eng _ _) as [[[cx cy] frame] x1].
  destruct (intense E cx cy _ _) as [eo x2].
  destruct (cal_osc E _ cx cy) as [[out_x out_y] x3].
  destruct (Qeq_bool cx 0); quiet_then_output.
Qed.

Lemma HSRACM_quiet (s : EyeProcessor ExtState) :
  quiet_step s (state_of_result (HSRACM E s)).
Proof.
  unfold HSRACM.
  destruct (er_hsrac s) as [eng|]; [|apply quiet_refl].
  destruct (hsrac_run E eng _ _) as [[[[[cx cy] thresh] gray] uncrop] x1].
  cbn [prev_x set_current_image_gray set_ext].
  destruct (prev_x s);
    destruct (intense E cx cy _ _) as [eo x2];
    destruct (cal_osc E _ cx cy) as [[out_x out_y] x3];
    cbn [eyeoffx set_ext set_eyeopen set_prev_x set_prev_y set_current_image_gray];
    destruct (eyeoffx s); quiet_then_output.
Qed.

Lemma RANSAC3DM_quiet (s : EyeProcessor ExtState) :
  quiet_step s (state_of_result (RANSAC3DM E s)).
Proof.
  unfold RANSAC3DM.
  destruct (RANSAC3D E s) as [[[cx cy] thresh] x1].
  destruct (intense E cx cy _ _) as [eo x2].
  destruct (cal_osc E _ cx cy) as [[out_x out_y] x3].
  destruct (Qeq_bool cx 0); quiet_then_output.
Qed.

Lemma BLOBM_quiet (s : EyeProcessor ExtState) :
  quiet_step s (state_of_result (BLOBM E s)).
Proof.
  unfold BLOBM.
  destruct (BLOB E s) as [[[cx cy] thresh] x1].
  destruct (intense E cx cy _ _) as [eo x2].
  destruct (cal_osc E _ cx cy) as [[out_x out_y] x3].
  destruct (Qeq_bool cx 0); quiet_then_output.
Qed.

(** A wrapper raises only for want of its engine. *)
Lemma HSFM_total (s : EyeProcessor ExtState) :
  er_hsf s <> None -> exists s', HSFM E s = Ok s'.
Proof.
  unfold HSFM; intros R.
  destruct (er_hsf s) as [eng|]; [|congruence].
  destruct (hsf_run E eng _ _) as [[[cx cy] frame] x1].
  destruct (intense E cx cy _ _) as [eo x2].
  destruct (cal_osc E _ cx cy) as [[out_x out_y] x3].
  destruct (Qeq_bool cx 0); eexists; reflexivity.
Qed.

Lemma HSRACM_total (s : EyeProcessor ExtState) :
  er_hsrac s <> None -> exists s', HSRACM E s = Ok s'.
Proof.
  unfold HSRACM; intros R.
  destruct (er_hsrac s) as [eng|]; [|congruence].
  destruct (hsrac_run E eng _ _) as [[[[[cx cy] thresh] gray] uncrop] x1].
  cbn [prev_x set_current_image_gray set_ext].
  destruct (prev_x s);
    destruct (intense E cx cy _ _) as [eo x2];
    destruct (cal_osc E _ cx cy) as [[out_x out_y] x3];
    cbn [eyeoffx set_ext set_eyeopen set_prev_x set_prev_y set_current_image_gray];
    destruct (eyeoffx s); eexists; reflexivity.
Qed.

Lemma RANSAC3DM_total (s : EyeProcessor ExtState) :
  exists s', RANSAC3DM E s = Ok s'.
Proof.
  unfold RANSAC3DM.
  destruct (RANSAC3D E _) as [[[cx cy] thresh] x1].
  destruct (intense E cx cy _ _) as [eo x2].
  destruct (cal_osc E _ cx cy) as [[out_x out_y] x3].
  destruct (Qeq_bool cx 0); eexists; reflexivity.
Qed.

Lemma BLOBM_total (s : EyeProcessor ExtState) :
  exists s', BLOBM E s = Ok s'.
Proof.
  unfold BLOBM.
  destruct (BLOB E _) as [[[cx cy] thresh] x1].
  destruct (intense E cx cy _ _) as [eo x2].
  destruct (cal_osc E _ cx cy) as [[out_x out_y] x3].
  destruct (Qeq_bool cx 0); eexists; reflexivity.
Qed.

Lemma invoke_ready (m : Bound.method) (s : EyeProcessor ExtState) :
  ready m s = true -> exists s', invoke E m s = Ok s'.
Proof.
  unfold invoke, ready; destruct m; intros R.
  - apply HSFM_total; simpl; destruct (er_hsf s); congruence.
  - apply HSRACM_total; simpl; destruct (er_hsrac s); congruence.
  - apply RANSAC3DM_total.
  - apply BLOBM_total.
Qed.

(** A call of a bound method enters itself in the trace, may print, and
    leaves the wiring alone. *)
Lemma invoke_spec (m : Bound.method) (s : EyeProcessor ExtState) :
  let s' := state_of_result (invoke E m s) in
  same_wiring s s' /\
  exists printed,
    trace s' = trace s ++ EvDetector m (roi_size s) :: printed /\
    forallb is_print printed = true.
Proof.
  assert (Q : quiet_step (log (EvDetector m (roi_size s)) s)
                (state_of_result (invoke E m s))).
  { unfold invoke; destruct m;
      [apply HSFM_quiet|apply HSRACM_quiet|apply RANSAC3DM_quiet|apply BLOBM_quiet]. }
  destruct Q as [W (l & T & P)].
  split.
  - destruct W; constructor; assumption.
  - exists l; split; [|exact P].
    rewrite T; simpl; rewrite <- app_assoc; reflexivity.
Qed.

(** ** Lifting a relation through the scheduler

    A reflexive and transitive relation between states that every call of
    a bound method and every write of the counter respects is respected by
    [ALGOSELECT], whether it returns or raises. *)

Section Lift.

Variable R : EyeProcessor ExtState -> EyeProcessor ExtState -> Prop.
Hypothesis R_refl : forall s, R s s.
Hypothesis R_trans : forall s1 s2 s3, R s1 s2 -> R s2 s3 -> R s1 s3.
Hypothesis R_invoke : forall m s, R s (state_of_result (invoke E m s)).
Hypothesis R_failed : forall v s, R s (set_failed v s).

Lemma check_lift (guard : bool) (slot : option Bound.method) (v : Z)
    (s : EyeProcessor ExtState) :
  R s (state_of_result (if guard then call E slot s else Ok (set_failed v s))).
Proof.
  destruct guard; [|apply R_failed].
  destruct slot as [m|]; [apply R_invoke|apply R_refl].
Qed.

Lemma bind_lift (r : result) (k : EyeProcessor ExtState -> result)
    (s : EyeProcessor ExtState) :
  R s (state_of_result r) ->
  (forall s1, R s1 (state_of_result (k s1))) ->
  R s (state_of_result (bind r k)).
Proof.
  intros H K; destruct r as [s1|e s1]; cbn in *; [|exact H].
  eapply R_trans; [exact H|apply K].
Qed.

Lemma ALGOSELECT_lift (s : EyeProcessor ExtState) :
  R s (state_of_result (ALGOSELECT E s)).
Proof.
  unfold ALGOSELECT.
  repeat (apply bind_lift; [apply check_lift|intros ?]).
  apply check_lift.
Qed.

End Lift.

(** ** The scheduler *)

(** One guarded call of [ALGOSELECT] whose guard holds. *)
Lemma call_spec (m : Bound.method) (s : EyeProcessor ExtState) :
  ready m s = true ->
  exists s',
    call E (Some m) s = Ok s' /\
    same_wiring s s' /\
    detector_calls (trace s') = detector_calls (trace s) ++ [m].
Proof.
  intros R.
  destruct (invoke_ready m s R) as [s' H].
  pose proof (invoke_spec m s) as [W (l & T & P)].
  rewrite H in W, T; simpl in W, T.
  exists s'; split; [exact H|split; [exact W|]].
  rewrite T, detector_calls_app; simpl.
  rewrite (detector_calls_printed l P); reflexivity.
Qed.

Ltac skip_check :=
  cbn [bind failed set_failed firstalgo secondalgo thirdalgo fourthalgo
       andb is_not_None trace Z.eqb Z.add Pos.eqb Pos.add Pos.succ].

(** With the counter at 0 and one of the first three slots occupied, a
    tick calls the highest-priority occupied slot, once, and the counter
    is back at 0. *)
Lemma ALGOSELECT_upper_slots (m : Bound.method) (s : EyeProcessor ExtState) :
  failed s = 0 ->
  first_occupied s = Some m ->
  firstalgo s <> None \/ secondalgo s <> None \/ thirdalgo s <> None ->
  ready m s = true ->
  exists s',
    ALGOSELECT E s = Ok s' /\
    failed s' = 0 /\
    detector_calls (trace s') = detector_calls (trace s) ++ [m] /\
    slot_table s' = slot_table s.
Proof.
  intros F O U R.
  unfold ALGOSELECT, first_occupied, slot_table in *.
  rewrite F.
  destruct (firstalgo s) as [m1|] eqn:S1.
  - (* slot 1 *)
    injection O as ->.
    destruct (call_spec m s R) as (s1 & C & W & D).
    skip_check; rewrite C; skip_check.
    destruct W; rewrite sw_failed0, F; skip_check.
    eexists; split; [reflexivity|]; cbn.
    repeat split; congruence.
  - destruct (secondalgo s) as [m2|] eqn:S2.
    + (* slot 2 *)
      injection O as ->.
      destruct (call_spec m (set_failed 1 s) R) as (s1 & C & W & D).
      skip_check; rewrite S2; skip_check; rewrite C; skip_check.
      destruct W; rewrite sw_failed0; skip_check.
      eexists; split; [reflexivity|]; cbn in *.
      repeat split; congruence.
    + destruct (thirdalgo s) as [m3|] eqn:S3.
      * (* slot 3 *)
        injection O as ->.
        destruct (call_spec m (set_failed 2 (set_failed 1 s)) R) as (s1 & C & W & D).
        skip_check; rewrite S2; skip_check; rewrite S3; skip_check.
        rewrite C; skip_check.
        destruct W; rewrite sw_failed0; skip_check.
        eexists; split; [reflexivity|]; cbn in *.
        repeat split; congruence.
      * destruct U as [U|[U|U]]; congruence.
Qed.

(** With every slot empty a tick calls nothing and the counter is back at
    0. *)
Lemma ALGOSELECT_empty_table (s : EyeProcessor ExtState) :
  failed s = 0 ->
  slot_table s = (None, None, None, None) ->
  exists s',
    ALGOSELECT E s = Ok s' /\
    failed s' = 0 /\
    trace s' = trace s /\
    image_queue_outgoing s' = image_queue_outgoing s.
Proof.
  intros F T; unfold slot_table in T.
  injection T as S1 S2 S3 S4.
  unfold ALGOSELECT; rewrite F, S1.
  skip_check; rewrite S2; skip_check; rewrite S3; skip_check; rewrite S4.
  skip_check.
  eexists; split; [reflexivity|]; cbn; auto.
Qed.

(** C1 (fails on the code): when only the fourth slot is occupied, the tick
    that calls it leaves the cascade counter at 3, not 0, and the next
    tick, which starts from 3, calls no detector at all although the slot
    is still occupied; only that second tick brings the counter back
    to 0. *)
Theorem ALGOSELECT_only_fourth_slot (m : Bound.method) (s : EyeProcessor ExtState) :
  failed s = 0 ->
  slot_table s = (None, None, None, Some m) ->
  ready m s = true ->
  exists s1 s2,
    ALGOSELECT E s = Ok s1 /\
    detector_calls (trace s1) = detector_calls (trace s) ++ [m] /\
    failed s1 = 3 /\
    first_occupied s1 = Some m /\
    ALGOSELECT E s1 = Ok s2 /\
    detector_calls (trace s2) = detector_calls (trace s1) /\
    image_queue_outgoing s2 = image_queue_outgoing s1 /\
    failed s2 = 0.
Proof.
  intros F T R; unfold slot_table in T.
  injection T as S1 S2 S3 S4.
  destruct (call_spec m (set_failed 3 (set_failed 2 (set_failed 1 s))) R)
    as (s1 & C & W & D).
  destruct W; cbn in *.
  assert (A1 : ALGOSELECT E s = Ok s1).
  { unfold ALGOSELECT; rewrite F, S1.
    skip_check; rewrite S2; skip_check; rewrite S3; skip_check; rewrite S4.
    skip_check; exact C. }
  exists s1.
  eexists; split; [exact A1|].
  split; [exact D|].
  split; [exact sw_failed0|].
  split.
  { unfold first_occupied.
    rewrite sw_first0, S1, sw_second0, S2, sw_third0, S3, sw_fourth0.
    exact S4. }
  unfold ALGOSELECT; rewrite sw_failed0.
  skip_check.
  split; [reflexivity|]; cbn; auto.
Qed.

(** ** Setup of the slot table *)

Lemma assign_HSF_spec (s : EyeProcessor ExtState) (l : slots) :
  exists s1,
    assign_HSF E s l =
      (s1, if gui_HSF (settings s)
           then Py.setitem l (gui_HSFP (settings s)) (Some Bound.HSFM)
           else Some l) /\
    settings s1 = settings s.
Proof.
  unfold assign_HSF.
  destruct (gui_HSF (settings s)), (er_hsf s);
    eexists; split; reflexivity.
Qed.

Lemma assign_HSRAC_spec (s : EyeProcessor ExtState) (l : slots) :
  exists s1,
    assign_HSRAC E s l =
      (s1, if gui_HSRAC (settings s)
           then Py.setitem l (gui_HSRACP (settings s)) (Some Bound.HSRACM)
           else Some l) /\
    settings s1 = settings s.
Proof.
  unfold assign_HSRAC.
  destruct (gui_HSRAC (settings s)), (er_hsrac s);
    eexists; split; reflexivity.
Qed.

(** A subscript assignment with an index in 1..4 on the five-element
    [algolist]. *)
Lemma setitem_algolist (a0 a1 a2 a3 a4 v : option Bound.method) (p : Z) :
  1 <= p <= 4 ->
  Py.setitem [a0; a1; a2; a3; a4] p v =
    Some [a0;
          if p =? 1 then v else a1;
          if p =? 2 then v else a2;
          if p =? 3 then v else a3;
          if p =? 4 then v else a4].
Proof.
  intros H.
  assert (C : p = 1 \/ p = 2 \/ p = 3 \/ p = 4) by lia.
  destruct C as [->|[->|[->| ->]]]; reflexivity.
Qed.

(** What an [if]/[elif] chain leaves in each slot. *)
Lemma assign_chain_spec (en : bool) (p : Z) (m : Bound.method)
    (s : EyeProcessor ExtState) :
  let s' := assign_chain en p m s in
  settings s' = settings s /\
  firstalgo s' = (if en && (p =? 1) then Some m else firstalgo s) /\
  secondalgo s' = (if en && (p =? 2) then Some m else secondalgo s) /\
  thirdalgo s' = (if en && (p =? 3) then Some m else thirdalgo s) /\
  fourthalgo s' = (if en && (p =? 4) then Some m else fourthalgo s).
Proof.
  unfold assign_chain.
  destruct en; cbn [andb]; [|repeat split; reflexivity].
  destruct (Z.eqb_spec p 1) as [->|N1]; [repeat split; reflexivity|].
  destruct (Z.eqb_spec p 2) as [->|N2]; [repeat split; reflexivity|].
  destruct (Z.eqb_spec p 3) as [->|N3]; [repeat split; reflexivity|].
  destruct (Z.eqb_spec p 4) as [->|N4]; repeat split; reflexivity.
Qed.

Lemma spec_slot_unfold (st : EyeTrackSettingsConfig) (i : Z) :
  spec_slot st i =
    if gui_BLOB st && (gui_BLOBP st =? i) then Some Bound.BLOBM
    else if gui_RANSAC3D st && (gui_RANSAC3DP st =? i) then Some Bound.RANSAC3DM
    else if gui_HSRAC st && (gui_HSRACP st =? i) then Some Bound.HSRACM
    else if gui_HSF st && (gui_HSFP st =? i) then Some Bound.HSFM
    else None.
Proof.
  unfold spec_slot; cbn.
  destruct (gui_BLOB st && (gui_BLOBP st =? i)),
           (gui_RANSAC3D st && (gui_RANSAC3DP st =? i)),
           (gui_HSRAC st && (gui_HSRACP st =? i)),
           (gui_HSF st && (gui_HSFP st =? i)); reflexivity.
Qed.

(** C2: with every priority rank in 1..4, setup raises nothing and fills
    each slot exactly as the specification words it: slot [i] holds the
    last algorithm in the order edge-based, hybrid, 3D-model-based,
    blob-based that is enabled with priority [i], and is empty when there
    is none.  The table depends on the settings only, not on what [self]
    held before. *)
Theorem setup_slot_table (s : EyeProcessor ExtState) :
  priorities_in_range (settings s) ->
  exists s',
    setup E s = Ok s' /\
    settings s' = settings s /\
    firstalgo s' = spec_slot (settings s) 1 /\
    secondalgo s' = spec_slot (settings s) 2 /\
    thirdalgo s' = spec_slot (settings s) 3 /\
    fourthalgo s' = spec_slot (settings s) 4.
Proof.
  intros P.
  pose proof (P Bound.HSFM) as P1.
  pose proof (P Bound.HSRACM) as P2.
  cbn [priority] in P1, P2.
  unfold setup.
  match goal with
  | |- context [assign_HSF E ?s0 ?l] =>
      destruct (assign_HSF_spec s0 l) as (s1 & -> & St1)
  end.
  cbn [settings set_firstalgo set_secondalgo set_thirdalgo set_fourthalgo] in *.
  rewrite !spec_slot_unfold.
  destruct (gui_HSF (settings s)) eqn:E1;
    [rewrite (setitem_algolist _ _ _ _ _ _ _ P1)|];
    match goal with
    | |- context [assign_HSRAC E s1 ?l] =>
        destruct (assign_HSRAC_spec s1 l) as (s2 & -> & St2)
    end;
    rewrite St1 in *;
    (destruct (gui_HSRAC (settings s)) eqn:E2;
     [rewrite (setitem_algolist _ _ _ _ _ _ _ P2)|]);
    eexists; (split; [reflexivity|]);
    repeat match goal with
           | |- context [assign_chain ?en ?p ?m ?s0] =>
               let H := fresh "C" in
               pose proof (assign_chain_spec en p m s0) as H;
               cbv zeta in H;
               destruct H as (-> & -> & -> & -> & ->)
           end;
    cbn [settings firstalgo secondalgo thirdalgo fourthalgo
         set_firstalgo set_secondalgo set_thirdalgo set_fourthalgo];
    rewrite ?St2, ?E1, ?E2; cbn [andb];
    repeat split; try reflexivity;
    repeat match goal with
           | |- context [if ?b then _ else _] => destruct b
           end; reflexivity.
Qed.

(** ** The output sink *)

(** Either the sink publishes one item and records the accepted frame and
    rotation, or it publishes nothing and records nothing. *)
Lemma output_images_and_update_cases (t : pyobj) (i : EyeInformation)
    (s : EyeProcessor ExtState) :
  let s' := output_images_and_update E t i s in
  (image_queue_outgoing s' = image_queue_outgoing s /\
   previous_image s' = previous_image s /\
   previous_rotation s' = previous_rotation s /\
   trace s' = trace s ++ [EvPrint ErrUnequalSizes]) \/
  (exists img,
     image_queue_outgoing s' = image_queue_outgoing s ++ [(img, i)] /\
     previous_image s' = current_image s /\
     previous_rotation s' = rotation_angle (config s) /\
     trace s' = trace s).
Proof.
  unfold output_images_and_update.
  repeat break_match; cbn; try (left; repeat split; reflexivity).
  right; eexists; repeat split; reflexivity.
Qed.

Lemma emitted_same (s s' : EyeProcessor ExtState) :
  image_queue_outgoing s' = image_queue_outgoing s -> emitted s s' = [].
Proof.
  unfold emitted; intros ->; apply skipn_all.
Qed.

Lemma emitted_app (s s' : EyeProcessor ExtState) l :
  image_queue_outgoing s' = image_queue_outgoing s ++ l -> emitted s s' = l.
Proof.
  unfold emitted; intros ->.
  rewrite skipn_app, skipn_all, Nat.sub_diag; reflexivity.
Qed.

Lemma output_images_and_update_emitted (t : pyobj) (i : EyeInformation)
    (s : EyeProcessor ExtState) :
  emitted s (output_images_and_update E t i s) = [] \/
  exists img, emitted s (output_images_and_update E t i s) = [(img, i)].
Proof.
  destruct (output_images_and_update_cases t i s) as [(Q & _)|(img & Q & _)].
  - left; apply emitted_same; exact Q.
  - right; exists img; apply emitted_app; exact Q.
Qed.



(** ** The preprocessor *)

Lemma slice_bounds_inside (len : nat) (lo n : Z) :
  0 <= lo -> 0 < n -> lo + n <= Z.of_nat len ->
  Py.slice_bounds len lo (lo + n) = (Z.to_nat lo, Z.to_nat n).
Proof.
  intros H0 Hn Hlen.
  unfold Py.slice_bounds, Py.adjust.
  destruct (Z.ltb_spec lo 0); [lia|].
  destruct (Z.ltb_spec (lo + n) 0); [lia|].
  rewrite !Z.min_l by lia.
  f_equal; f_equal; lia.
Qed.

Lemma mat_three_axes (a : Np.ndarray) (r c k : nat) :
  Np.shape a = [r; c; k] -> (1 <= k <= 512)%nat ->
  Cv2.mat a = Some (r, c, k).
Proof.
  intros S [L U]; unfold Cv2.mat; rewrite S.
  apply Nat.leb_le in L, U; rewrite L, U; reflexivity.
Qed.

Lemma warpAffine_same_canvas (px : Cv2.warp_fn) (a : Np.ndarray)
    (r c k : nat) (M : Cv2.RotationMatrix) (border : Z * Z * Z) :
  Np.shape a = [r; c; k] ->
  r <> 0%nat -> c <> 0%nat -> (1 <= k <= 512)%nat ->
  Cv2.warp_depth (Np.dtype a) = true ->
  Cv2.warpAffine px (Some a) M (c, r) border =
    Some (Np.mk_ndarray (Np.dtype a) (Cv2.shape_of_mat r c k)
            (px a M r c border)).
Proof.
  intros S R C K D.
  apply Nat.eqb_neq in R, C.
  unfold Cv2.warpAffine; rewrite (mat_three_axes a r c k S K), R, C, D.
  reflexivity.
Qed.

Lemma warpAffine_bad_depth (px : Cv2.warp_fn) (a : Np.ndarray)
    (M : Cv2.RotationMatrix) (dsize : nat * nat) (border : Z * Z * Z) :
  Cv2.warp_depth (Np.dtype a) = false ->
  Cv2.warpAffine px (Some a) M dsize border = None.
Proof.
  intros D; unfold Cv2.warpAffine.
  destruct (Cv2.mat a) as [[[r c] k]|]; [|reflexivity].
  rewrite D; cbn [negb]; rewrite !orb_true_r; reflexivity.
Qed.

Lemma shape_of_mat_colour (r c k : nat) :
  (2 <= k)%nat -> Cv2.shape_of_mat r c k = [r; c; k].
Proof.
  intros K; unfold Cv2.shape_of_mat.
  destruct (Nat.eqb_spec k 1); [lia|reflexivity].
Qed.

(** The matrix line 226 builds for a frame of [rows] by [cols]. *)
Lemma capture_success (s : EyeProcessor ExtState) (cropped : Np.ndarray)
    (rows cols k : nat) :
  crop (current_image s) (config s) = Some cropped ->
  Np.shape cropped = [rows; cols; k] ->
  rows <> 0%nat -> cols <> 0%nat -> (1 <= k <= 512)%nat ->
  Cv2.warp_depth (Np.dtype cropped) = true ->
  exists rotated,
    capture_crop_rotate_image E s =
      (true, set_current_image (Some rotated) (set_current_image (Some cropped) s)) /\
    Np.shape rotated = Cv2.shape_of_mat rows cols k /\
    Np.dtype rotated = Np.dtype cropped.
Proof.
  intros C S R Cn K D.
  unfold capture_crop_rotate_image; rewrite C.
  cbn [current_image set_current_image shape3 config].
  rewrite S.
  rewrite (warpAffine_same_canvas _ cropped rows cols k _ _ S R Cn K D).
  eexists; split; [reflexivity|split; reflexivity].
Qed.

(** A frame of a depth [cv2.warpAffine] does not take: the call raises
    inside the [try] and the method returns [None]. *)
Lemma capture_bad_depth (s : EyeProcessor ExtState) (cropped : Np.ndarray) :
  crop (current_image s) (config s) = Some cropped ->
  Cv2.warp_depth (Np.dtype cropped) = false ->
  capture_crop_rotate_image E s = (false, set_current_image (Some cropped) s).
Proof.
  intros C D.
  unfold capture_crop_rotate_image; rewrite C.
  cbn [current_image set_current_image config].
  destruct (shape3 (Some cropped)) as [[rows cols]|].
  - rewrite warpAffine_bad_depth by exact D; reflexivity.
  - destruct (shape3 _) as [[rows cols]|]; [|reflexivity].
    rewrite warpAffine_bad_depth by exact D; reflexivity.
Qed.

Lemma crop_dtype (img : pyobj) (cfg : EyeTrackCameraConfig)
    (a cropped : Np.ndarray) :
  img = Some a -> crop img cfg = Some cropped ->
  Np.dtype cropped = Np.dtype a.
Proof.
  intros -> C; unfold crop, Np.getitem2 in C.
  destruct (Np.shape a) as [|r [|c rest]]; try discriminate.
  destruct (Py.slice_bounds r _ _) as [ys yn].
  destruct (Py.slice_bounds c _ _) as [xs xn].
  injection C as <-; reflexivity.
Qed.

(** C8 (as amended): when the ROI has positive width and height and lies
    inside the frame, then for every rotation angle the frame the
    preprocessor leaves in [current_image] has exactly [h] rows and [w]
    columns (and the channel axis of the source, unless that has length
    one); it does leave one for every element type [cv2.warpAffine]
    takes, and for the others it returns [None] with the crop, which also
    has [h] rows and [w] columns, in [current_image]. *)
Theorem preprocessor_output_shape (s : EyeProcessor ExtState) (a : Np.ndarray)
    (R C k : nat) :
  current_image s = Some a ->
  Np.shape a = [R; C; k] ->
  (1 <= k <= 4)%nat ->
  0 < roi_window_w (config s) ->
  0 < roi_window_h (config s) ->
  0 <= roi_window_x (config s) ->
  roi_window_x (config s) + roi_window_w (config s) <= Z.of_nat C ->
  0 <= roi_window_y (config s) ->
  roi_window_y (config s) + roi_window_h (config s) <= Z.of_nat R ->
  (Cv2.warp_depth (Np.dtype a) = true ->
   exists out s',
     capture_crop_rotate_image E s = (true, s') /\
     current_image s' = Some out /\
     Np.shape out =
       Z.to_nat (roi_window_h (config s))
         :: Z.to_nat (roi_window_w (config s))
         :: (if Nat.eqb k 1 then [] else [k])) /\
  (Cv2.warp_depth (Np.dtype a) = false ->
   exists cropped,
     capture_crop_rotate_image E s
       = (false, set_current_image (Some cropped) s) /\
     Np.shape cropped =
       [Z.to_nat (roi_window_h (config s));
        Z.to_nat (roi_window_w (config s)); k]).
Proof.
  intros I S K W H X XW Y YH.
  assert (Cr : exists cropped,
             crop (current_image s) (config s) = Some cropped /\
             Np.shape cropped =
               [Z.to_nat (roi_window_h (config s));
                Z.to_nat (roi_window_w (config s)); k]).
  { unfold crop, Np.getitem2; rewrite I, S.
    rewrite (slice_bounds_inside R _ _ Y H YH).
    rewrite (slice_bounds_inside C _ _ X W XW).
    eexists; split; reflexivity. }
  destruct Cr as (cropped & Cr & Sc).
  pose proof (crop_dtype _ _ a cropped I Cr) as Dc.
  split; intros D.
  - destruct (capture_success s cropped _ _ k Cr Sc) as (rotated & Cap & Sr & _);
      try lia; try congruence.
    exists rotated; eexists; split; [exact Cap|split; [reflexivity|]].
    rewrite Sr; unfold Cv2.shape_of_mat.
    destruct (Nat.eqb k 1); reflexivity.
  - exists cropped; split; [|exact Sc].
    apply capture_bad_depth; [exact Cr|congruence].
Qed.

(** The [except] of line 213 with no earlier frame to fall back on. *)
Lemma capture_no_fallback (s : EyeProcessor ExtState) :
  crop (current_image s) (config s) = None ->
  previous_image s = None ->
  capture_crop_rotate_image E s =
    (false, log (EvPrint ErrFrameCapture) (set_current_image None s)).
Proof.
  intros C P.
  unfold capture_crop_rotate_image; rewrite C, P.
  cbn [current_image previous_image set_current_image log set_trace shape3].
  rewrite P; reflexivity.
Qed.

(** The [except] of line 213 with an earlier frame: that frame is rotated
    on a canvas of its own size. *)
Lemma capture_fallback (s : EyeProcessor ExtState) (p : Np.ndarray)
    (rows cols k : nat) :
  crop (current_image s) (config s) = None ->
  previous_image s = Some p ->
  Np.shape p = [rows; cols; k] ->
  rows <> 0%nat -> cols <> 0%nat -> (2 <= k <= 512)%nat ->
  Cv2.warp_depth (Np.dtype p) = true ->
  let M :=
    Cv2.getRotationMatrix2D
      (inject_Z (Z.of_nat cols) / 2, inject_Z (Z.of_nat rows) / 2)%Q
      (rotation_angle (config s)) 1 in
  let rotated :=
    Np.mk_ndarray (Np.dtype p) [rows; cols; k]
      (warp_pixels E p M rows cols (64, 64, 64)) in
  Cv2.warpAffine (warp_pixels E) (Some p) M (cols, rows) (64, 64, 64) = Some rotated /\
  capture_crop_rotate_image E s =
    (true,
     set_current_image (Some rotated)
       (log (EvPrint ErrFrameCapture) (set_current_image (Some p) s))).
Proof.
  intros C P S R Cn K D M rotated.
  assert (W : Cv2.warpAffine (warp_pixels E) (Some p) M (cols, rows) (64, 64, 64)
              = Some rotated).
  { rewrite (warpAffine_same_canvas _ p rows cols k _ _ S R Cn) by (lia || exact D).
    rewrite shape_of_mat_colour by lia; reflexivity. }
  split; [exact W|].
  unfold capture_crop_rotate_image; rewrite C, P.
  cbn [current_image set_current_image log set_trace shape3 config].
  rewrite S; fold M; rewrite W; reflexivity.
Qed.

Lemma cvt_depth_warp_depth (d : Np.DType) :
  Cv2.cvt_depth d = true -> Cv2.warp_depth d = true.
Proof. destruct d; intros H; try discriminate H; reflexivity. Qed.

(** ** Accepted frames

    [previous_image] only ever holds a frame that went through the
    grayscale conversion of line 436, so it is a non-empty colour image in
    every state a run can reach. *)

Lemma frames_refl (s : EyeProcessor ExtState) : frames_kept s s.
Proof. split; [reflexivity|left; reflexivity]. Qed.

Lemma frames_trans (s1 s2 s3 : EyeProcessor ExtState) :
  frames_kept s1 s2 -> frames_kept s2 s3 -> frames_kept s1 s3.
Proof.
  intros [C1 P1] [C2 P2]; split; [congruence|].
  destruct P2 as [P2|P2]; [destruct P1; [left|right]|right]; congruence.
Qed.

Lemma frames_same (s s' : EyeProcessor ExtState) :
  current_image s' = current_image s ->
  previous_image s' = previous_image s ->
  frames_kept s s'.
Proof. intros C P; split; [exact C|left; exact P]. Qed.

Lemma output_frames (t : pyobj) (i : EyeInformation) (s : EyeProcessor ExtState) :
  frames_kept s (output_images_and_update E t i s).
Proof.
  unfold output_images_and_update.
  repeat break_match; try (apply frames_same; reflexivity).
  split; [reflexivity|right; reflexivity].
Qed.

Ltac frames_then_output :=
  cbn [state_of_result];
  eapply frames_trans; [|apply output_frames];
  apply frames_same; reflexivity.

Lemma invoke_frames (m : Bound.method) (s : EyeProcessor ExtState) :
  frames_kept s (state_of_result (invoke E m s)).
Proof.
  unfold invoke.
  apply (frames_trans s (log (EvDetector m (roi_size s)) s));
    [apply frames_same; reflexivity|].
  generalize (log (EvDetector m (roi_size s)) s); intros s0.
  destruct m.
  - unfold HSFM.
    destruct (er_hsf s0) as [eng|]; [|apply frames_refl].
    destruct (hsf_run E eng _ _) as [[[cx cy] frame] x1].
    destruct (intense E cx cy _ _) as [eo x2].
    destruct (cal_osc E _ cx cy) as [[out_x out_y] x3].
    destruct (Qeq_bool cx 0); frames_then_output.
  - unfold HSRACM.
    destruct (er_hsrac s0) as [eng|]; [|apply frames_refl].
    destruct (hsrac_run E eng _ _) as [[[[[cx cy] thresh] gray] uncrop] x1].
    cbn [prev_x set_current_image_gray set_ext].
    destruct (prev_x s0);
      destruct (intense E cx cy _ _) as [eo x2];
      destruct (cal_osc E _ cx cy) as [[out_x out_y] x3];
      cbn [eyeoffx set_ext set_eyeopen set_prev_x set_prev_y
           set_current_image_gray];
      destruct (eyeoffx s0); frames_then_output.
  - unfold RANSAC3DM.
    destruct (RANSAC3D E _) as [[[cx cy] thresh] x1].
    destruct (intense E cx cy _ _) as [eo x2].
    destruct (cal_osc E _ cx cy) as [[out_x out_y] x3].
    destruct (Qeq_bool cx 0); frames_then_output.
  - unfold BLOBM.
    destruct (BLOB E _) as [[[cx cy] thresh] x1].
    destruct (intense E cx cy _ _) as [eo x2].
    destruct (cal_osc E _ cx cy) as [[out_x out_y] x3].
    destruct (Qeq_bool cx 0); frames_then_output.
Qed.

Lemma ALGOSELECT_frames (s : EyeProcessor ExtState) :
  frames_kept s (state_of_result (ALGOSELECT E s)).
Proof.
  apply ALGOSELECT_lift.
  - exact frames_refl.
  - exact frames_trans.
  - exact invoke_frames.
  - intros v s0; apply frames_same; reflexivity.
Qed.

Lemma mat_colour (a : Np.ndarray) (r c k : nat) :
  Cv2.mat a = Some (r, c, k) -> (2 <= k)%nat -> Np.shape a = [r; c; k].
Proof.
  unfold Cv2.mat; intros M K.
  destruct (Np.shape a) as [|r' [|c' [|k' [|k'' rest]]]]; try discriminate M.
  - injection M as <- <- <-; lia.
  - injection M as <- <- <-; lia.
  - injection M as <- <- <-; lia.
  - destruct ((1 <=? k')%nat && (k' <=? 512)%nat); [|discriminate M].
    injection M as <- <- <-; reflexivity.
Qed.

Lemma cvtColor_bgr2gray_inv (px : Np.DType -> Z -> Z -> Z -> Z) (img : pyobj)
    (gray : Np.ndarray) :
  Cv2.cvtColor px img Cv2.COLOR_BGR2GRAY = Some gray ->
  exists a, img = Some a /\ is_bgr_frame a.
Proof.
  unfold Cv2.cvtColor.
  destruct img as [a|]; [|discriminate].
  destruct (Cv2.mat a) as [[[r c] k]|] eqn:M; [|discriminate].
  destruct (Nat.eqb_spec r 0) as [|R]; [discriminate|].
  destruct (Nat.eqb_spec c 0) as [|C]; [discriminate|].
  destruct (Cv2.cvt_depth (Np.dtype a)) eqn:D; [|discriminate].
  cbn [orb negb]; intros H.
  assert (K : k = 3%nat \/ k = 4%nat)
    by (destruct k as [|[|[|[|[|k]]]]]; try discriminate H; auto).
  exists a; split; [reflexivity|].
  exists r, c, k.
  split; [apply mat_colour; [exact M|destruct K; lia]|].
  repeat split; assumption.
Qed.

Lemma capture_previous_image (s : EyeProcessor ExtState) :
  previous_image (snd (capture_crop_rotate_image E s)) = previous_image s.
Proof.
  unfold capture_crop_rotate_image; cbv zeta.
  repeat break_match; reflexivity.
Qed.

Lemma detect_and_blink_previous_ok (s : EyeProcessor ExtState) :
  previous_ok s -> previous_ok (state_of (detect_and_blink E s)).
Proof.
  intros P; unfold detect_and_blink.
  destruct (Cv2.cvtColor _ _ _) as [gray|] eqn:G; [|exact P].
  destruct (cvtColor_bgr2gray_inv _ _ _ G) as (a & Ca & Ba).
  match goal with
  | |- context [ALGOSELECT E ?s0] =>
      pose proof (ALGOSELECT_frames s0) as [_ F];
      cbn [current_image previous_image set_current_image_gray
           set_current_image_gray_clean] in F;
      assert (Done : previous_ok (state_of_result (ALGOSELECT E s0)))
  end.
  { intros p Hp; destruct F as [F|F]; rewrite F in Hp.
    - apply P; exact Hp.
    - rewrite Ca in Hp; injection Hp as <-; exact Ba. }
  match goal with
  | |- context [ALGOSELECT E ?s0] => destruct (ALGOSELECT E s0) as [s1|e s1]
  end; cbn in Done |- *; [|exact Done].
  unfold BLINKM; destruct (BLINK E s1) as [b x1]; exact Done.
Qed.

Lemma loop_body_previous_ok (inp : TickInput) (s : EyeProcessor ExtState) :
  previous_ok s -> previous_ok (state_of (loop_body E inp s)).
Proof.
  intros P; unfold loop_body; cbv zeta.
  destruct (in_cancelled inp); [exact P|].
  destruct (_ || _); [destruct (in_wait inp); exact P|].
  destruct (in_frame inp) as [item|];
    [|destruct (model_is_stale _), (in_queue_empty inp); exact P].
  match goal with
  | |- context [capture_crop_rotate_image E ?s0] =>
      pose proof (capture_previous_image s0) as C;
      assert (P0 : previous_image s0 = previous_image s)
        by (destruct item as [[img n] fps];
            destruct (model_is_stale _), (in_queue_empty inp); reflexivity);
      destruct (capture_crop_rotate_image E s0) as [[|] s1]
  end; cbn [snd] in C.
  - apply detect_and_blink_previous_ok.
    intros p Hp; apply P; congruence.
  - intros p Hp; apply P; cbn in Hp; congruence.
Qed.

Lemma loop_previous_ok (inputs : list TickInput) (s : EyeProcessor ExtState) :
  previous_ok s -> previous_ok (state_of (loop E inputs s)).
Proof.
  revert s; induction inputs as [|inp rest IH]; intros s P; cbn; [exact P|].
  pose proof (loop_body_previous_ok inp s P) as B.
  destruct (loop_body E inp s) as [s1|s1|e s1]; cbn in B |- *;
    [apply IH; exact B|exact B|exact B].
Qed.

Lemma assign_chain_previous_image (en : bool) (p : Z) (m : Bound.method)
    (s : EyeProcessor ExtState) :
  previous_image (assign_chain en p m s) = previous_image s.
Proof.
  unfold assign_chain; repeat break_match; reflexivity.
Qed.

Lemma setup_previous_image (s : EyeProcessor ExtState) :
  previous_image (state_of_result (setup E s)) = previous_image s.
Proof.
  unfold setup.
  match goal with
  | |- context [assign_HSF E ?s0 ?l] =>
      assert (H1 : previous_image (fst (assign_HSF E s0 l)) = previous_image s)
        by (unfold assign_HSF; repeat break_match; reflexivity);
      destruct (assign_HSF E s0 l) as [s1 [l1|]]
  end; cbn [fst] in H1; [|exact H1].
  match goal with
  | |- context [assign_HSRAC E s1 ?l] =>
      assert (H2 : previous_image (fst (assign_HSRAC E s1 l)) = previous_image s1)
        by (unfold assign_HSRAC; repeat break_match; reflexivity);
      destruct (assign_HSRAC E s1 l) as [s2 [l2|]]
  end; cbn [fst] in H2; [|cbn; congruence].
  destruct l2 as [|a0 [|a1 [|a2 [|a3 [|a4 [|a5 l2]]]]]];
    cbn [state_of_result]; try congruence.
  rewrite !assign_chain_previous_image; cbn; congruence.
Qed.

(** Every state a run reaches from a fresh [EyeProcessor] has an accepted
    frame, or none, in [previous_image]. *)
Lemma run_previous_ok (inputs : list TickInput) (cfg : EyeTrackCameraConfig)
    (st : EyeTrackSettingsConfig) (x0 : ExtState) :
  previous_ok (state_of (run E inputs (init cfg st x0))).
Proof.
  unfold run.
  pose proof (setup_previous_image (init cfg st x0)) as S.
  destruct (setup E (init cfg st x0)) as [s0|e s0]; cbn in S.
  - apply loop_previous_ok; intros p Hp; congruence.
  - cbn; intros p Hp; congruence.
Qed.

(** ** The loop never rewires *)

Lemma keeps_refl (s : EyeProcessor ExtState) : keeps_table s s.
Proof.
  repeat split; exists []; rewrite app_nil_r; split; reflexivity.
Qed.

Lemma keeps_trans (s1 s2 s3 : EyeProcessor ExtState) :
  keeps_table s1 s2 -> keeps_table s2 s3 -> keeps_table s1 s3.
Proof.
  intros (T1 & H1 & R1 & l1 & A1 & N1) (T2 & H2 & R2 & l2 & A2 & N2).
  repeat split; try congruence.
  exists (l1 ++ l2); split.
  - rewrite A2, A1, app_assoc; reflexivity.
  - rewrite existsb_app, N1, N2; reflexivity.
Qed.

Lemma keeps_untraced (s s' : EyeProcessor ExtState) :
  slot_table s' = slot_table s -> er_hsf s' = er_hsf s ->
  er_hsrac s' = er_hsrac s -> trace s' = trace s ->
  keeps_table s s'.
Proof.
  intros T H R A; repeat split; try assumption.
  exists []; rewrite app_nil_r; split; [exact A|reflexivity].
Qed.

Lemma keeps_log (ev : Event) (s : EyeProcessor ExtState) :
  is_engine_construction ev = false -> keeps_table s (log ev s).
Proof.
  intros Hev; repeat split.
  exists [ev].
  split; [reflexivity|].
  cbn; rewrite Hev; reflexivity.
Qed.

Lemma printed_no_construction (l : list Event) :
  forallb is_print l = true -> existsb is_engine_construction l = false.
Proof.
  induction l as [|ev l IH]; cbn; [reflexivity|].
  destruct ev; cbn; try discriminate; exact IH.
Qed.

Lemma invoke_keeps (m : Bound.method) (s : EyeProcessor ExtState) :
  keeps_table s (state_of_result (invoke E m s)).
Proof.
  destruct (invoke_spec m s) as [W (l & T & P)].
  destruct W; unfold keeps_table, slot_table; repeat split; try congruence.
  exists (EvDetector m (roi_size s) :: l); split; [exact T|].
  cbn; apply printed_no_construction; exact P.
Qed.

Lemma ALGOSELECT_keeps (s : EyeProcessor ExtState) :
  keeps_table s (state_of_result (ALGOSELECT E s)).
Proof.
  apply ALGOSELECT_lift.
  - exact keeps_refl.
  - exact keeps_trans.
  - exact invoke_keeps.
  - intros v s0; apply keeps_untraced; reflexivity.
Qed.

Lemma BLINKM_keeps (s : EyeProcessor ExtState) : keeps_table s (BLINKM E s).
Proof.
  unfold BLINKM; destruct (BLINK E s) as [b x1].
  apply keeps_untraced; reflexivity.
Qed.

Lemma capture_keeps (s : EyeProcessor ExtState) :
  keeps_table s (snd (capture_crop_rotate_image E s)).
Proof.
  unfold capture_crop_rotate_image; cbv zeta.
  destruct (crop (current_image s) (config s)) as [cropped|].
  - repeat break_match; cbn [snd]; apply keeps_untraced; reflexivity.
  - repeat break_match; cbn [snd];
      (eapply keeps_trans; [apply (keeps_log (EvPrint ErrFrameCapture) s)|];
       [reflexivity|apply keeps_untraced; reflexivity]).
Qed.

Lemma detect_and_blink_keeps (s : EyeProcessor ExtState) :
  keeps_table s (state_of (detect_and_blink E s)).
Proof.
  unfold detect_and_blink.
  destruct (Cv2.cvtColor _ _ _) as [gray|]; [|apply keeps_refl].
  match goal with
  | |- context [ALGOSELECT E ?s0] =>
      pose proof (ALGOSELECT_keeps s0) as K;
      destruct (ALGOSELECT E s0) as [s1|e s1]; cbn in K |- *
  end.
  - eapply keeps_trans; [|apply BLINKM_keeps].
    eapply keeps_trans; [|exact K].
    apply keeps_untraced; reflexivity.
  - eapply keeps_trans; [|exact K].
    apply keeps_untraced; reflexivity.
Qed.

Lemma loop_body_keeps (inp : TickInput) (s : EyeProcessor ExtState) :
  keeps_table s (state_of (loop_body E inp s)).
Proof.
  unfold loop_body.
  assert (K0 : keeps_table s (observe inp s))
    by (apply keeps_untraced; reflexivity).
  set (s0 := observe inp s) in *.
  cbv zeta.
  destruct (in_cancelled inp).
  { eapply keeps_trans; [exact K0|apply keeps_log; reflexivity]. }
  destruct ((roi_window_w (config s0) <=? 0) || (roi_window_h (config s0) <=? 0)).
  { eapply keeps_trans; [exact K0|].
    destruct (in_wait inp); apply keeps_log; reflexivity. }
  assert (K1 : keeps_table s
                 (if model_is_stale s0 then reset_model s0 else s0)).
  { destruct (model_is_stale s0); [|exact K0].
    eapply keeps_trans; [exact K0|].
    unfold reset_model.
    eapply keeps_trans; [|apply keeps_log; reflexivity].
    apply keeps_untraced; reflexivity. }
  set (s1 := if model_is_stale s0 then reset_model s0 else s0) in *.
  assert (K2 : keeps_table s
                 (if in_queue_empty inp then log EvCaptureSet s1 else s1)).
  { destruct (in_queue_empty inp); [|exact K1].
    eapply keeps_trans; [exact K1|apply keeps_log; reflexivity]. }
  set (s2 := if in_queue_empty inp then log EvCaptureSet s1 else s1) in *.
  destruct (in_frame inp) as [[[img n] fps]|]; [|exact K2].
  assert (K3 : keeps_table s (dequeue (img, n, fps) s2)).
  { eapply keeps_trans; [exact K2|apply keeps_untraced; reflexivity]. }
  pose proof (capture_keeps (dequeue (img, n, fps) s2)) as K4.
  destruct (capture_crop_rotate_image E (dequeue (img, n, fps) s2)) as [[|] s3];
    cbn [snd] in K4.
  - eapply keeps_trans; [|apply detect_and_blink_keeps].
    eapply keeps_trans; [exact K3|exact K4].
  - eapply keeps_trans; [exact K3|exact K4].
Qed.

Lemma loop_keeps (inputs : list TickInput) (s : EyeProcessor ExtState) :
  keeps_table s (state_of (loop E inputs s)).
Proof.
  revert s; induction inputs as [|inp rest IH]; intros s; cbn.
  - apply keeps_refl.
  - pose proof (loop_body_keeps inp s) as K.
    destruct (loop_body E inp s) as [s1|s1|e s1]; cbn in K |- *;
      [|exact K|exact K].
    eapply keeps_trans; [exact K|apply IH].
Qed.

(** C10: however long the loop runs and whatever the other threads do to
    the enable flags and priority ranks meanwhile, the four slots and the
    two engine handles are the ones the loop started with, and the loop
    constructs no engine. *)
Theorem loop_never_rewires (inputs : list TickInput) (s : EyeProcessor ExtState) :
  let s' := state_of (loop E inputs s) in
  firstalgo s' = firstalgo s /\
  secondalgo s' = secondalgo s /\
  thirdalgo s' = thirdalgo s /\
  fourthalgo s' = fourthalgo s /\
  er_hsf s' = er_hsf s /\
  er_hsrac s' = er_hsrac s /\
  exists added,
    trace s' = trace s ++ added /\
    existsb is_engine_construction added = false.
Proof.
  destruct (loop_keeps inputs s) as (T & H & R & A).
  unfold slot_table in T; injection T as T1 T2 T3 T4.
  cbv zeta; repeat split; assumption.
Qed.

(** ** Waiting for the ROI *)

Lemma idle_iteration (inp : TickInput) (s : EyeProcessor ExtState) :
  roi_unconfigured inp = true ->
  loop_body E inp s =
    if in_cancelled inp then Return (log (EvPrint InfoExiting) (observe inp s))
    else if in_wait inp then Return (log (EvWait idle_timeout) (observe inp s))
    else Continue (log (EvWait idle_timeout) (observe inp s)).
Proof.
  unfold roi_unconfigured, loop_body; intros U.
  cbn [observe config set_settings set_config]; rewrite U; reflexivity.
Qed.

Lemma loop_app (l1 l2 : list TickInput) (s : EyeProcessor ExtState) :
  loop E (l1 ++ l2) s =
    match loop E l1 s with
    | Continue s' => loop E l2 s'
    | final => final
    end.
Proof.
  revert s; induction l1 as [|inp l1 IH]; intros s; cbn; [reflexivity|].
  destruct (loop_body E inp s); [apply IH|reflexivity|reflexivity].
Qed.

(** What the loop does while every iteration finds the ROI unset. *)
Lemma idle_loop (inputs : list TickInput) (s : EyeProcessor ExtState) :
  Forall (fun inp => roi_unconfigured inp = true) inputs ->
  let o := loop E inputs s in
  is_Crash o = false /\
  is_Return o = existsb cancellation_seen inputs /\
  (exists added,
     trace (state_of o) = trace s ++ added /\
     forallb is_idle_event added = true /\
     (length added <= length inputs)%nat) /\
  er_hsf (state_of o) = er_hsf s /\
  er_hsrac (state_of o) = er_hsrac s /\
  camera_model (state_of o) = camera_model s /\
  detector_3d (state_of o) = detector_3d s /\
  image_queue_outgoing (state_of o) = image_queue_outgoing s.
Proof.
  intros H; revert s; induction H as [|inp rest U _ IH]; intros s; cbv zeta.
  - cbn; repeat split.
    exists []; rewrite app_nil_r; repeat split; apply Nat.le_refl.
  - cbn [loop]; rewrite (idle_iteration inp s U).
    unfold cancellation_seen at 1; cbn [existsb].
    destruct (in_cancelled inp); cbn [orb].
    { cbn; repeat split.
      exists [EvPrint InfoExiting]; repeat split; cbn; lia. }
    destruct (in_wait inp); cbn [orb].
    { cbn; repeat split.
      exists [EvWait idle_timeout]; repeat split; cbn; lia. }
    specialize (IH (log (EvWait idle_timeout) (observe inp s))).
    cbv zeta in IH.
    destruct IH as (C & R & (added & T & I & L) & H1 & H2 & H3 & H4 & Q).
    repeat split; try assumption.
    exists (EvWait idle_timeout :: added); split; [|split].
    + rewrite T; cbn; rewrite <- app_assoc; reflexivity.
    + cbn [forallb]; rewrite I; reflexivity.
    + cbn; lia.
Qed.

(** ** Origin tags of the emitted records *)

Lemma output_origin (P : InformationOrigin.t -> Prop) (t : pyobj)
    (i : EyeInformation) (s0 s : EyeProcessor ExtState) :
  image_queue_outgoing s0 = image_queue_outgoing s ->
  P (info_type i) ->
  Forall (fun r => P (info_type (snd r)))
    (emitted s (output_images_and_update E t i s0)).
Proof.
  intros Q Hi.
  assert (Eq : emitted s (output_images_and_update E t i s0)
               = emitted s0 (output_images_and_update E t i s0))
    by (unfold emitted; rewrite Q; reflexivity).
  rewrite Eq.
  destruct (output_images_and_update_emitted t i s0) as [->|(img & ->)].
  - constructor.
  - constructor; [exact Hi|constructor].
Qed.

(** Every record [BLOBM] emits carries the origin of the hybrid
    detector. *)
Lemma BLOBM_emits_hybrid (s : EyeProcessor ExtState) :
  exists s',
    BLOBM E s = Ok s' /\
    Forall (fun r => info_type (snd r) = InformationOrigin.HSRAC) (emitted s s').
Proof.
  unfold BLOBM.
  destruct (BLOB E s) as [[[cx cy] thresh] x1].
  destruct (intense E cx cy _ _) as [eo x2].
  destruct (cal_osc E _ cx cy) as [[out_x out_y] x3].
  destruct (Qeq_bool cx 0); eexists; (split; [reflexivity|]);
    apply (output_origin (fun o => o = InformationOrigin.HSRAC)); reflexivity.
Qed.

(** No wrapper ever emits a record marked as a failure, whatever its
    detector answered. *)
Ltac no_failure :=
  cbn [state_of_result];
  apply (output_origin (fun o => o <> InformationOrigin.FAILURE));
  (reflexivity || discriminate).

Lemma HSFM_never_emits_failure (s : EyeProcessor ExtState) :
  Forall (fun r => info_type (snd r) <> InformationOrigin.FAILURE)
    (emitted s (state_of_result (HSFM E s))).
Proof.
  unfold HSFM.
  destruct (er_hsf s) as [eng|];
    [|rewrite emitted_same by reflexivity; constructor].
  destruct (hsf_run E eng _ _) as [[[cx cy] frame] x1].
  destruct (intense E cx cy _ _) as [eo x2].
  destruct (cal_osc E _ cx cy) as [[out_x out_y] x3].
  destruct (Qeq_bool cx 0); no_failure.
Qed.

Lemma HSRACM_never_emits_failure (s : EyeProcessor ExtState) :
  Forall (fun r => info_type (snd r) <> InformationOrigin.FAILURE)
    (emitted s (state_of_result (HSRACM E s))).
Proof.
  unfold HSRACM.
  destruct (er_hsrac s) as [eng|];
    [|rewrite emitted_same by reflexivity; constructor].
  destruct (hsrac_run E eng _ _) as [[[[[cx cy] thresh] gray] uncrop] x1].
  cbn [prev_x set_current_image_gray set_ext].
  destruct (prev_x s);
    destruct (intense E cx cy _ _) as [eo x2];
    destruct (cal_osc E _ cx cy) as [[out_x out_y] x3];
    cbn [eyeoffx set_ext set_eyeopen set_prev_x set_prev_y
         set_current_image_gray];
    destruct (eyeoffx s); no_failure.
Qed.

Lemma RANSAC3DM_never_emits_failure (s : EyeProcessor ExtState) :
  Forall (fun r => info_type (snd r) <> InformationOrigin.FAILURE)
    (emitted s (state_of_result (RANSAC3DM E s))).
Proof.
  unfold RANSAC3DM.
  destruct (RANSAC3D E _) as [[[cx cy] thresh] x1].
  destruct (intense E cx cy _ _) as [eo x2].
  destruct (cal_osc E _ cx cy) as [[out_x out_y] x3].
  destruct (Qeq_bool cx 0); no_failure.
Qed.

Lemma BLOBM_never_emits_failure (s : EyeProcessor ExtState) :
  Forall (fun r => info_type (snd r) <> InformationOrigin.FAILURE)
    (emitted s (state_of_result (BLOBM E s))).
Proof.
  unfold BLOBM.
  destruct (BLOB E _) as [[[cx cy] thresh] x1].
  destruct (intense E cx cy _ _) as [eo x2].
  destruct (cal_osc E _ cx cy) as [[out_x out_y] x3].
  destruct (Qeq_bool cx 0); no_failure.
Qed.

Lemma invoke_never_emits_failure (m : Bound.method) (s : EyeProcessor ExtState) :
  Forall (fun r => info_type (snd r) <> InformationOrigin.FAILURE)
    (emitted s (state_of_result (invoke E m s))).
Proof.
  unfold invoke.
  change (emitted s) with (emitted (log (EvDetector m (roi_size s)) s)).
  destruct m;
    [apply HSFM_never_emits_failure|apply HSRACM_never_emits_failure
    |apply RANSAC3DM_never_emits_failure|apply BLOBM_never_emits_failure].
Qed.

End Facts.

(** * Concrete runs *)

Lemma ALGOSELECT_only_fourth_slot_witness :
  let E := demo_ext (4, 4)%Q in
  let s := wired (4, 4)%Q (demo_config 0 0 8 8) (only_blob 4) in
  failed s = 0 /\
  slot_table s = (None, None, None, Some Bound.BLOBM) /\
  ready Bound.BLOBM s = true /\
  exists s1 s2,
    ALGOSELECT E s = Ok s1 /\
    detector_calls (trace s1) = detector_calls (trace s) ++ [Bound.BLOBM] /\
    failed s1 = 3 /\
    first_occupied s1 = Some Bound.BLOBM /\
    ALGOSELECT E s1 = Ok s2 /\
    detector_calls (trace s2) = detector_calls (trace s1) /\
    image_queue_outgoing s2 = image_queue_outgoing s1 /\
    failed s2 = 0.
Proof.
  cbv zeta.
  split; [reflexivity|].
  split; [reflexivity|].
  split; [reflexivity|].
  apply (ALGOSELECT_only_fourth_slot (demo_ext (4, 4)%Q) Bound.BLOBM
           (wired (4, 4)%Q (demo_config 0 0 8 8) (only_blob 4)));
    reflexivity.
Defined.

(** Three frames arrive, the only enabled detector sits in slot 4: it is
    called for the first and the third frame only, and two records come
    out. *)
Example fourth_slot_skips_every_other_frame :
  detector_calls (trace (state_of fourth_slot_run)) = [Bound.BLOBM; Bound.BLOBM] /\
  length (image_queue_outgoing (state_of fourth_slot_run)) = 2%nat /\
  failed (state_of fourth_slot_run) = 3.
Proof. vm_compute; repeat split; reflexivity. Qed.

Lemma colliding_in_range : priorities_in_range colliding.
Proof. intros m; destruct m; cbn; lia. Qed.

Lemma setup_slot_table_witness :
  let E := demo_ext (0, 0)%Q in
  let s := init roi_100 colliding tt in
  priorities_in_range (settings s) /\
  exists s',
    setup E s = Ok s' /\
    settings s' = settings s /\
    firstalgo s' = spec_slot (settings s) 1 /\
    secondalgo s' = spec_slot (settings s) 2 /\
    thirdalgo s' = spec_slot (settings s) 3 /\
    fourthalgo s' = spec_slot (settings s) 4.
Proof.
  cbv zeta.
  split; [exact colliding_in_range|].
  apply (setup_slot_table (demo_ext (0, 0)%Q) (init roi_100 colliding tt)).
  exact colliding_in_range.
Defined.

(** The collision of the witness, spelled out: blob-based beats
    3D-model-based in slot 1, hybrid beats edge-based in slot 2. *)
Example colliding_table :
  slot_table (wired (0, 0)%Q roi_100 colliding) =
    (Some Bound.BLOBM, Some Bound.HSRACM, None, None).
Proof. reflexivity. Qed.

(** Outside the range 1..4 the subscript assignment of the edge-based and
    hybrid algorithms follows Python: 5 raises, -1 lands in slot 4 and 0 in
    the entry that is thrown away; the [if]/[elif] chains of the other two
    algorithms just match nothing. *)
Example setup_priority_5_raises :
  exists s', setup (demo_ext (0, 0)%Q) (init roi_100 (only_hsf 5) tt)
             = Raised IndexError s'.
Proof. vm_compute; eexists; reflexivity. Qed.

Example setup_priority_minus_1 :
  slot_table (wired (0, 0)%Q roi_100 (only_hsf (-1))) =
    (None, None, None, Some Bound.HSFM).
Proof. vm_compute; reflexivity. Qed.

Example setup_priority_0 :
  slot_table (wired (0, 0)%Q roi_100 (only_hsf 0)) = (None, None, None, None) /\
  slot_table (wired (0, 0)%Q roi_100 (only_blob 5)) = (None, None, None, None).
Proof. split; vm_compute; reflexivity. Qed.

(** C3 (fails on the code): every record [BLOBM] emits is tagged with the
    origin of the hybrid detector, whatever the blob detector answers; in
    Scenario A exactly one record is emitted and its origin is [HSRAC],
    not [BLOB]. *)
Theorem blob_records_tagged_hybrid :
  (forall (X : Type) (E : Externals X) (s : EyeProcessor X),
     exists s',
       BLOBM E s = Ok s' /\
       Forall (fun r => info_type (snd r) = InformationOrigin.HSRAC)
         (emitted s s')) /\
  map (fun r => info_type (snd r)) (image_queue_outgoing (state_of scenario_A))
    = [InformationOrigin.HSRAC] /\
  InformationOrigin.HSRAC <> InformationOrigin.BLOB.
Proof.
  split; [intros X E s; apply BLOBM_emits_hybrid|].
  split; [vm_compute; reflexivity|discriminate].
Qed.

(** C4 (fails on the code): the loop constructs no engine, whatever its
    inputs; in a run whose ROI shrinks from 8 by 8 to 4 by 4 between two
    frames the edge-based engine is constructed once, before the loop,
    and is called at both resolutions, while the camera model of the 3D
    detector is rebuilt for the new resolution. *)
Theorem engine_survives_resolution_change :
  (forall (X : Type) (E : Externals X) (inputs : list TickInput)
          (s : EyeProcessor X),
     exists added,
       trace (state_of (loop E inputs s)) = trace s ++ added /\
       existsb is_engine_construction added = false) /\
  trace (state_of resize_run) =
    [EvNewHSF (mk_HSF_engine false 10);
     EvNewCamera (8, 8); EvCaptureSet; EvDetector Bound.HSFM (8, 8);
     EvNewCamera (4, 4); EvCaptureSet; EvDetector Bound.HSFM (4, 4)] /\
  stale_reuse Bound.HSFM None (trace (state_of resize_run)) = true.
Proof.
  split.
  - intros X E inputs s.
    destruct (loop_keeps E inputs s) as (_ & _ & _ & A); exact A.
  - split; vm_compute; reflexivity.
Qed.

(** C5 (fails on the code): no wrapper ever emits a record marked
    [FAILURE]; when the edge-based detector answers the sentinel (0, 0),
    the record that goes out is an ordinary [HSF] sample whose position is
    the calibration of (0, 0), here (-1, -1). *)
Theorem sentinel_forwarded_as_sample :
  (forall (X : Type) (E : Externals X) (m : Bound.method) (s : EyeProcessor X),
     Forall (fun r => info_type (snd r) <> InformationOrigin.FAILURE)
       (emitted s (state_of_result (invoke E m s)))) /\
  map (fun r => (info_type (snd r), Qred (x (snd r)), Qred (y (snd r))))
    (image_queue_outgoing (state_of sentinel_run))
    = [(InformationOrigin.HSF, (-1)%Q, (-1)%Q)].
Proof.
  split; [intros X E m s; apply invoke_never_emits_failure|].
  vm_compute; reflexivity.
Qed.

(** The fallback at work: the second item carries no frame, the frame
    accepted in the first iteration is used again, and a second record
    goes out. *)
Example fallback_reuses_previous_frame :
  trace (state_of fallback_run) =
    [EvNewCamera (8, 8); EvCaptureSet; EvDetector Bound.BLOBM (8, 8);
     EvCaptureSet; EvPrint ErrFrameCapture; EvDetector Bound.BLOBM (8, 8)] /\
  length (image_queue_outgoing (state_of fallback_run)) = 2%nat.
Proof. vm_compute; split; reflexivity. Qed.



Lemma preprocessor_output_shape_witness :
  let E := demo_ext (0, 0)%Q in
  let s := inside in
  current_image s = Some (disk_frame 8 8 2) /\
  Np.shape (disk_frame 8 8 2) = [8; 8; 3]%nat /\
  (1 <= 3 <= 4)%nat /\
  0 < roi_window_w (config s) /\
  0 < roi_window_h (config s) /\
  0 <= roi_window_x (config s) /\
  roi_window_x (config s) + roi_window_w (config s) <= Z.of_nat 8 /\
  0 <= roi_window_y (config s) /\
  roi_window_y (config s) + roi_window_h (config s) <= Z.of_nat 8 /\
  Cv2.warp_depth (Np.dtype (disk_frame 8 8 2)) = true /\
  (Cv2.warp_depth (Np.dtype (disk_frame 8 8 2)) = true ->
   exists out s',
     capture_crop_rotate_image E s = (true, s') /\
     current_image s' = Some out /\
     Np.shape out =
       Z.to_nat (roi_window_h (config s))
         :: Z.to_nat (roi_window_w (config s))
         :: (if Nat.eqb 3 1 then [] else [3%nat])) /\
  (Cv2.warp_depth (Np.dtype (disk_frame 8 8 2)) = false ->
   exists cropped,
     capture_crop_rotate_image E s
       = (false, set_current_image (Some cropped) s) /\
     Np.shape cropped =
       [Z.to_nat (roi_window_h (config s));
        Z.to_nat (roi_window_w (config s)); 3%nat]).
Proof.
  cbv zeta.
  repeat (split; [first [reflexivity | cbn; lia]|]).
  apply (preprocessor_output_shape (demo_ext (0, 0)%Q) inside
           (disk_frame 8 8 2) 8 8 3);
    first [reflexivity | cbn; lia].
Defined.

(** C8 as stated fails: the ROI (2, 2, 4, 4) has positive width and height,
    but on a 4 by 4 frame the crop is clipped to the frame and the
    preprocessor returns 2 rows and 2 columns, not 4 and 4. *)
Lemma preprocessor_clips_overhanging_roi :
  0 < roi_window_w (config overhanging) /\
  0 < roi_window_h (config overhanging) /\
  fst (capture_crop_rotate_image (demo_ext (0, 0)%Q) overhanging) = true /\
  option_map Np.shape
    (current_image (snd (capture_crop_rotate_image (demo_ext (0, 0)%Q) overhanging)))
    = Some [2; 2; 3]%nat /\
  [2; 2; 3]%nat <>
    [Z.to_nat (roi_window_h (config overhanging));
     Z.to_nat (roi_window_w (config overhanging)); 3%nat].
Proof.
  split; [reflexivity|].
  split; [reflexivity|].
  split; [reflexivity|].
  split; [reflexivity|].
  cbn; discriminate.
Qed.

(** C9 as stated fails: with the edge-based algorithm enabled, [run]
    constructs its engine before the loop starts, although the ROI is
    unset in every iteration of the run. *)
Lemma engine_constructed_before_roi_is_set :
  roi_window_w roi_unset <= 0 /\
  trace (state_of unset_roi_run) =
    [EvNewHSF (mk_HSF_engine false 10);
     EvWait idle_timeout; EvWait idle_timeout; EvWait idle_timeout] /\
  er_hsf (state_of unset_roi_run) = Some (mk_HSF_engine false 10) /\
  is_Return unset_roi_run = true.
Proof.
  split; [cbn; lia|].
  repeat split; reflexivity.
Qed.

(** * More of the worker *)

Section MoreFacts.

Context {ExtState : Type} (E : Externals ExtState).

Ltac break_match :=
  match goal with
  | |- context [match ?x with _ => _ end] => destruct x eqn:?
  end.

(** ** The shape of a wrapper call *)

Lemma untouched_by_computation (s s' : EyeProcessor ExtState) :
  same_wiring s s' ->
  image_queue_outgoing s' = image_queue_outgoing s ->
  current_image s' = current_image s ->
  previous_image s' = previous_image s ->
  previous_rotation s' = previous_rotation s ->
  current_image_gray_clean s' = current_image_gray_clean s ->
  eyeoffx s' = eyeoffx s ->
  untouched s s'.
Proof. intros; constructor; assumption. Qed.

Ltac untouched_now :=
  apply untouched_by_computation; [constructor| | | | | |]; reflexivity.

(** A call of a bound method enters itself in the trace, prepares a state
    [mid] and either stops there (its engine is missing) or hands one
    record to the sink. *)
Lemma invoke_shape (m : Bound.method) (s : EyeProcessor ExtState) :
  exists mid,
    untouched s mid /\
    trace mid = trace s ++ [EvDetector m (roi_size s)] /\
    ((exists e, invoke E m s = Raised e mid) \/
     (exists t i, invoke E m s = Ok (output_images_and_update E t i mid))).
Proof.
  unfold invoke; destruct m.
  - unfold HSFM; cbn [er_hsf log set_trace].
    destruct (er_hsf s) as [eng|].
    + destruct (hsf_run E eng _ _) as [[[cx cy] frame] x1].
      destruct (intense E cx cy _ _) as [eo x2].
      destruct (cal_osc E _ cx cy) as [[out_x out_y] x3].
      destruct (Qeq_bool cx 0);
        (eexists; split; [|split; [|right; eexists; eexists; reflexivity]];
         [untouched_now|reflexivity]).
    + eexists; split; [|split; [|left; eexists; reflexivity]];
        [untouched_now|reflexivity].
  - unfold HSRACM; cbn [er_hsrac log set_trace].
    destruct (er_hsrac s) as [eng|].
    + destruct (hsrac_run E eng _ _) as [[[[[cx cy] thresh] gray] uncrop] x1].
      cbn [prev_x set_current_image_gray set_ext log set_trace].
      destruct (prev_x s);
        destruct (intense E cx cy _ _) as [eo x2];
        destruct (cal_osc E _ cx cy) as [[out_x out_y] x3];
        cbn [eyeoffx set_ext set_eyeopen set_prev_x set_prev_y
             set_current_image_gray log set_trace];
        destruct (eyeoffx s);
        (eexists; split; [|split; [|right; eexists; eexists; reflexivity]];
         [untouched_now|reflexivity]).
    + eexists; split; [|split; [|left; eexists; reflexivity]];
        [untouched_now|reflexivity].
  - unfold RANSAC3DM.
    destruct (RANSAC3D E _) as [[[cx cy] thresh] x1].
    destruct (intense E cx cy _ _) as [eo x2].
    destruct (cal_osc E _ cx cy) as [[out_x out_y] x3].
    destruct (Qeq_bool cx 0);
      (eexists; split; [|split; [|right; eexists; eexists; reflexivity]];
       [untouched_now|reflexivity]).
  - unfold BLOBM.
    destruct (BLOB E _) as [[[cx cy] thresh] x1].
    destruct (intense E cx cy _ _) as [eo x2].
    destruct (cal_osc E _ cx cy) as [[out_x out_y] x3].
    destruct (Qeq_bool cx 0);
      (eexists; split; [|split; [|right; eexists; eexists; reflexivity]];
       [untouched_now|reflexivity]).
Qed.

(** A call puts at most one item on the outgoing queue. *)
Lemma invoke_queue (m : Bound.method) (s : EyeProcessor ExtState) :
  exists items,
    image_queue_outgoing (state_of_result (invoke E m s))
      = image_queue_outgoing s ++ items /\
    (length items <= 1)%nat.
Proof.
  destruct (invoke_shape m s) as (mid & U & _ & [(e & ->)|(t & i & ->)]);
    cbn [state_of_result].
  - exists []; rewrite app_nil_r; split; [apply (ut_queue _ _ U)|auto].
  - destruct (output_images_and_update_cases E t i mid)
      as [(Q & _)|(img & Q & _)]; rewrite Q, (ut_queue _ _ U).
    + exists []; rewrite app_nil_r; auto.
    + exists [(img, i)]; auto.
Qed.

(** ** The scheduler, for every counter and every table *)

Lemma call_observed (m : Bound.method) (s : EyeProcessor ExtState) :
  exists items,
    same_wiring s (state_of_result (invoke E m s)) /\
    detector_calls (trace (state_of_result (invoke E m s)))
      = detector_calls (trace s) ++ [m] /\
    image_queue_outgoing (state_of_result (invoke E m s))
      = image_queue_outgoing s ++ items /\
    (length items <= 1)%nat.
Proof.
  destruct (invoke_spec E m s) as [W (l & T & P)].
  destruct (invoke_queue m s) as (items & Q & L).
  exists items; split; [exact W|split; [|split; assumption]].
  rewrite T, detector_calls_app; cbn.
  rewrite (detector_calls_printed l P); reflexivity.
Qed.

Ltac skip_check :=
  cbn [bind call failed set_failed firstalgo secondalgo thirdalgo fourthalgo
       andb is_not_None trace image_queue_outgoing state_of_result
       Z.eqb Z.add Pos.eqb Pos.add Pos.succ].

Ltac fire m s0 :=
  let items := fresh "items" in
  let W := fresh "W" in
  let D := fresh "D" in
  let Q := fresh "Q" in
  let L := fresh "L" in
  let s1 := fresh "s1" in
  let e := fresh "e" in
  destruct (call_observed m s0) as (items & W & D & Q & L);
  destruct (invoke E m s0) as [s1|e s1];
  cbn [state_of_result bind] in W, D, Q |- *;
  destruct W;
  cbn [failed set_failed firstalgo secondalgo thirdalgo fourthalgo trace
       image_queue_outgoing] in *.

(** With the counter away from 0 every check fails: nothing is called and
    the last check puts the counter back to 0. *)
Lemma ALGOSELECT_nonzero_counter (s : EyeProcessor ExtState) :
  failed s <> 0 ->
  exists s',
    ALGOSELECT E s = Ok s' /\
    failed s' = 0 /\
    trace s' = trace s /\
    image_queue_outgoing s' = image_queue_outgoing s.
Proof.
  intros F; unfold ALGOSELECT.
  rewrite (proj2 (Z.eqb_neq (failed s) 0)) by exact F.
  cbn [andb bind failed set_failed].
  rewrite (proj2 (Z.eqb_neq (failed s + 1) 1)) by lia.
  cbn [andb bind failed set_failed].
  rewrite (proj2 (Z.eqb_neq (failed s + 1 + 1) 2)) by lia.
  cbn [andb bind failed set_failed].
  rewrite (proj2 (Z.eqb_neq (failed s + 1 + 1 + 1) 3)) by lia.
  cbn [andb].
  eexists; split; [reflexivity|]; cbn; auto.
Qed.

(** One tick of the scheduler, case by case. *)
Lemma ALGOSELECT_tick (s : EyeProcessor ExtState) :
  let calls :=
    if failed s =? 0
    then match first_occupied s with Some m => [m] | None => [] end
    else [] in
  let s' := state_of_result (ALGOSELECT E s) in
  detector_calls (trace s') = detector_calls (trace s) ++ calls /\
  (exists items,
     image_queue_outgoing s' = image_queue_outgoing s ++ items /\
     (length items <= length calls)%nat) /\
  (forall s'', ALGOSELECT E s = Ok s'' ->
     failed s'' = if (failed s =? 0) && only_fourth_occupied s then 3 else 0).
Proof.
  cbv zeta.
  destruct (Z.eqb_spec (failed s) 0) as [F|F].
  - unfold ALGOSELECT, first_occupied, only_fourth_occupied; rewrite F.
    destruct (firstalgo s) as [m1|] eqn:S1.
    { skip_check. fire m1 s.
      - rewrite sw_failed0, F; skip_check.
        split; [exact D|split].
        + exists items; split; [exact Q|exact L].
        + intros s'' H; injection H as <-; reflexivity.
      - split; [exact D|split].
        + exists items; split; [exact Q|exact L].
        + intros s'' H; discriminate H. }
    destruct (secondalgo s) as [m2|] eqn:S2.
    { skip_check; rewrite S2; skip_check. fire m2 (set_failed 1 s).
      - rewrite sw_failed0; skip_check.
        split; [exact D|split].
        + exists items; split; [exact Q|exact L].
        + intros s'' H; injection H as <-; reflexivity.
      - split; [exact D|split].
        + exists items; split; [exact Q|exact L].
        + intros s'' H; discriminate H. }
    destruct (thirdalgo s) as [m3|] eqn:S3.
    { skip_check; rewrite S2; skip_check; rewrite S3; skip_check.
      fire m3 (set_failed 2 (set_failed 1 s)).
      - rewrite sw_failed0; skip_check.
        split; [exact D|split].
        + exists items; split; [exact Q|exact L].
        + intros s'' H; injection H as <-; reflexivity.
      - split; [exact D|split].
        + exists items; split; [exact Q|exact L].
        + intros s'' H; discriminate H. }
    destruct (fourthalgo s) as [m4|] eqn:S4.
    { skip_check; rewrite S2; skip_check; rewrite S3; skip_check.
      rewrite S4; skip_check.
      fire m4 (set_failed 3 (set_failed 2 (set_failed 1 s))).
      - split; [exact D|split].
        + exists items; split; [exact Q|exact L].
        + intros s'' H; injection H as <-; exact sw_failed0.
      - split; [exact D|split].
        + exists items; split; [exact Q|exact L].
        + intros s'' H; discriminate H. }
    skip_check; rewrite S2; skip_check; rewrite S3; skip_check.
    rewrite S4; skip_check.
    rewrite app_nil_r; split; [reflexivity|split].
    + exists []; rewrite app_nil_r; split; [reflexivity|auto].
    + intros s'' H; injection H as <-; reflexivity.
  - destruct (ALGOSELECT_nonzero_counter s F) as (s1 & -> & F1 & T1 & Q1).
    cbn [state_of_result andb].
    rewrite T1, Q1, app_nil_r; split; [reflexivity|split].
    + exists []; rewrite app_nil_r; split; [reflexivity|auto].
    + intros s'' H; injection H as <-; exact F1.
Qed.

(** X1: One tick of the scheduler, whatever the counter and the table hold:
    a detector is called only when the counter is 0, it is the
    highest-priority occupied slot, it is called once and puts at most one
    item on the outgoing queue; a tick that returns leaves the counter at
    0, except that it leaves 3 when it called the fourth slot. *)
Theorem ALGOSELECT_one_shot (s : EyeProcessor ExtState) :
  let calls :=
    if failed s =? 0
    then match first_occupied s with Some m => [m] | None => [] end
    else [] in
  let s' := state_of_result (ALGOSELECT E s) in
  detector_calls (trace s') = detector_calls (trace s) ++ calls /\
  (length calls <= 1)%nat /\
  (exists items,
     image_queue_outgoing s' = image_queue_outgoing s ++ items /\
     (length items <= length calls)%nat) /\
  (forall s'', ALGOSELECT E s = Ok s'' ->
     failed s'' = if (failed s =? 0) && only_fourth_occupied s then 3 else 0).
Proof.
  cbv zeta.
  destruct (ALGOSELECT_tick s) as (D & Q & F).
  split; [exact D|].
  split; [|split; [exact Q|exact F]].
  destruct (failed s =? 0); [|auto].
  destruct (first_occupied s); cbn; auto.
Qed.

(** ** One iteration of the loop, in two shapes *)

Lemma plumbing_refl (s : EyeProcessor ExtState) : plumbing s s.
Proof. constructor; reflexivity. Qed.

Lemma plumbing_trans (s1 s2 s3 : EyeProcessor ExtState) :
  plumbing s1 s2 -> plumbing s2 s3 -> plumbing s1 s3.
Proof. intros [] []; constructor; congruence. Qed.

Lemma plumbing_log (ev : Event) (s : EyeProcessor ExtState) :
  detector_calls [ev] = [] -> plumbing s (log ev s).
Proof.
  intros H; constructor; try reflexivity.
  cbn; rewrite detector_calls_app, H, app_nil_r; reflexivity.
Qed.

Lemma plumbing_untraced (s s' : EyeProcessor ExtState) :
  failed s' = failed s -> slot_table s' = slot_table s ->
  er_hsf s' = er_hsf s -> er_hsrac s' = er_hsrac s ->
  image_queue_outgoing s' = image_queue_outgoing s ->
  previous_image s' = previous_image s ->
  eyeoffx s' = eyeoffx s ->
  trace s' = trace s ->
  plumbing s s'.
Proof. intros ? ? ? ? ? ? ? T; constructor; try assumption; rewrite T; reflexivity. Qed.

Ltac plumb := apply plumbing_untraced; reflexivity.

Lemma reset_model_plumbing (s : EyeProcessor ExtState) :
  plumbing s (reset_model s).
Proof.
  unfold reset_model.
  eapply plumbing_trans; [|apply plumbing_log; reflexivity].
  plumb.
Qed.

Lemma capture_plumbing (s : EyeProcessor ExtState) :
  plumbing s (snd (capture_crop_rotate_image E s)).
Proof.
  unfold capture_crop_rotate_image; cbv zeta.
  destruct (crop (current_image s) (config s)) as [cropped|].
  - repeat break_match; cbn [snd]; plumb.
  - repeat break_match; cbn [snd];
      (eapply plumbing_trans;
       [apply (plumbing_log (EvPrint ErrFrameCapture) s); reflexivity|plumb]).
Qed.

Lemma BLINKM_plumbing (s : EyeProcessor ExtState) :
  failed (BLINKM E s) = failed s /\
  slot_table (BLINKM E s) = slot_table s /\
  image_queue_outgoing (BLINKM E s) = image_queue_outgoing s /\
  trace (BLINKM E s) = trace s /\
  camera_model (BLINKM E s) = camera_model s /\
  detector_3d (BLINKM E s) = detector_3d s.
Proof.
  unfold BLINKM; destruct (BLINK E s) as [b x1]; repeat split; reflexivity.
Qed.

(** An iteration either ends before the scheduler, in a state that
    differs from the one it started in by plumbing only, or reaches the
    scheduler with such a state. *)
Lemma loop_body_structure (inp : TickInput) (s : EyeProcessor ExtState) :
  (exists pre,
     plumbing s pre /\
     (loop_body E inp s = Return pre \/
      loop_body E inp s = Continue pre \/
      loop_body E inp s = Crash CvError pre)) \/
  (exists sg,
     plumbing s sg /\
     in_cancelled inp = false /\
     roi_unconfigured inp = false /\
     delivers inp = true /\
     loop_body E inp s =
       match ALGOSELECT E sg with
       | Raised e s1 => Crash e s1
       | Ok s1 => Continue (BLINKM E s1)
       end).
Proof.
  unfold loop_body, roi_unconfigured, delivers; cbv zeta.
  assert (P0 : plumbing s (observe inp s)) by plumb.
  cbn [observe config set_settings set_config].
  fold (observe inp s).
  destruct (in_cancelled inp).
  { left; eexists; split; [|left; reflexivity].
    eapply plumbing_trans; [exact P0|apply plumbing_log; reflexivity]. }
  destruct (_ || _).
  { left; eexists; split;
      [|destruct (in_wait inp); [left|right; left]; reflexivity].
    eapply plumbing_trans; [exact P0|apply plumbing_log; reflexivity]. }
  assert (P1 : plumbing s
                 (if model_is_stale (observe inp s)
                  then reset_model (observe inp s) else observe inp s)).
  { destruct (model_is_stale _); [|exact P0].
    eapply plumbing_trans; [exact P0|apply reset_model_plumbing]. }
  match type of P1 with plumbing _ ?t => set (s1 := t) in * end.
  assert (P2 : plumbing s
                 (if in_queue_empty inp then log EvCaptureSet s1 else s1)).
  { destruct (in_queue_empty inp); [|exact P1].
    eapply plumbing_trans; [exact P1|apply plumbing_log; reflexivity]. }
  match type of P2 with plumbing _ ?t => set (s2 := t) in * end.
  destruct (in_frame inp) as [item|].
  2:{ left; exists s2; split; [exact P2|right; left; reflexivity]. }
  assert (P3 : plumbing s (dequeue item s2)).
  { eapply plumbing_trans; [exact P2|].
    destruct item as [[img n] fps]; plumb. }
  pose proof (capture_plumbing (dequeue item s2)) as P4.
  destruct (capture_crop_rotate_image E (dequeue item s2)) as [[|] s3];
    cbn [snd] in P4.
  2:{ left; exists s3; split;
        [eapply plumbing_trans; eassumption|right; left; reflexivity]. }
  assert (P5 : plumbing s s3) by (eapply plumbing_trans; eassumption).
  unfold detect_and_blink.
  destruct (Cv2.cvtColor _ _ _) as [gray|].
  2:{ left; exists s3; split; [exact P5|right; right; reflexivity]. }
  right; eexists; split; [|repeat split; reflexivity].
  eapply plumbing_trans; [exact P5|plumb].
Qed.

(** ** What a run emits *)



(** ** The values of the cascade counter *)

Lemma loop_body_counter (inp : TickInput) (s s' : EyeProcessor ExtState) :
  failed s = 0 \/ failed s = 3 ->
  loop_body E inp s = Continue s' \/ loop_body E inp s = Return s' ->
  failed s' = 0 \/ failed s' = 3.
Proof.
  intros F O.
  destruct (loop_body_structure inp s)
    as [(pre & P & [H|[H|H]])|(sg & P & _ & _ & _ & H)];
    rewrite H in O.
  - destruct O as [O|O]; [discriminate|injection O as <-].
    rewrite (pl_failed _ _ P); exact F.
  - destruct O as [O|O]; [injection O as <-|discriminate].
    rewrite (pl_failed _ _ P); exact F.
  - destruct O; discriminate.
  - destruct (ALGOSELECT_tick sg) as (_ & _ & C).
    destruct (ALGOSELECT E sg) as [s1|e s1]; [|destruct O; discriminate].
    destruct O as [O|O]; [injection O as <-|discriminate].
    destruct (BLINKM_plumbing s1) as (-> & _).
    rewrite (C s1 eq_refl).
    destruct ((failed sg =? 0) && only_fourth_occupied sg); auto.
Qed.

(** X3: From a counter of 0 or 3, as long as the worker has not raised, the
    counter is 0 or 3 after every iteration: 1 and 2 are never left behind,
    nor is any value above 3. *)
Theorem counter_is_0_or_3 (inputs : list TickInput) (s : EyeProcessor ExtState) :
  failed s = 0 \/ failed s = 3 ->
  is_Crash (loop E inputs s) = false ->
  failed (state_of (loop E inputs s)) = 0 \/
  failed (state_of (loop E inputs s)) = 3.
Proof.
  revert s; induction inputs as [|inp rest IH]; intros s F C; cbn [loop] in *.
  - exact F.
  - destruct (loop_body E inp s) as [s1|s1|e s1] eqn:B.
    + apply IH; [|exact C].
      apply (loop_body_counter inp s s1 F); left; exact B.
    + cbn; apply (loop_body_counter inp s s1 F); right; exact B.
    + discriminate C.
Qed.

(** ** A worker with every algorithm disabled *)

Lemma setup_all_disabled (s : EyeProcessor ExtState) :
  gui_HSF (settings s) = false ->
  gui_HSRAC (settings s) = false ->
  gui_RANSAC3D (settings s) = false ->
  gui_BLOB (settings s) = false ->
  exists s0,
    setup E s = Ok s0 /\
    slot_table s0 = (None, None, None, None) /\
    failed s0 = failed s /\
    image_queue_outgoing s0 = image_queue_outgoing s /\
    trace s0 = trace s /\
    er_hsf s0 = None /\
    er_hsrac s0 = None.
Proof.
  intros H1 H2 H3 H4.
  destruct s as [cfg st pimg cimg gimg gclean fno fps prot cm d3 hsf hsrac
                 f eoff eopen px py a1 a2 a3 a4 q x tr].
  destruct st as [e1 p1 e2 p2 e3 p3 e4 p4 skip rad].
  cbn in H1, H2, H3, H4; subst e1 e2 e3 e4.
  destruct hsf, hsrac; vm_compute;
    eexists; (split; [reflexivity|]); repeat split; reflexivity.
Qed.

Lemma loop_body_empty_table (inp : TickInput) (s : EyeProcessor ExtState) :
  slot_table s = (None, None, None, None) ->
  failed s = 0 ->
  let s' := state_of (loop_body E inp s) in
  slot_table s' = (None, None, None, None) /\
  failed s' = 0 /\
  image_queue_outgoing s' = image_queue_outgoing s /\
  detector_calls (trace s') = detector_calls (trace s) /\
  er_hsf s' = er_hsf s /\
  er_hsrac s' = er_hsrac s.
Proof.
  intros T F; cbv zeta.
  destruct (loop_body_structure inp s)
    as [(pre & P & [->|[->| ->]])|(sg & P & _ & _ & _ & ->)];
    cbn [state_of].
  1-3: destruct P; repeat split; congruence.
  assert (Tg : slot_table sg = (None, None, None, None))
    by (rewrite (pl_table _ _ P); exact T).
  assert (Fg : failed sg = 0) by (rewrite (pl_failed _ _ P); exact F).
  destruct (ALGOSELECT_empty_table E sg Fg Tg) as (s1 & A & F1 & T1 & Q1).
  destruct (ALGOSELECT_keeps E sg) as (K1 & K2 & K3 & _).
  rewrite A in *; cbn [state_of state_of_result] in *.
  assert (B : slot_table (BLINKM E s1) = slot_table s1 /\
              failed (BLINKM E s1) = failed s1 /\
              image_queue_outgoing (BLINKM E s1) = image_queue_outgoing s1 /\
              trace (BLINKM E s1) = trace s1 /\
              er_hsf (BLINKM E s1) = er_hsf s1 /\
              er_hsrac (BLINKM E s1) = er_hsrac s1)
    by (unfold BLINKM; destruct (BLINK E s1) as [b x1];
        repeat split; reflexivity).
  destruct B as (B1 & B2 & B3 & B4 & B5 & B6).
  rewrite B1, B2, B3, B4, B5, B6, T1.
  destruct P; repeat split; congruence.
Qed.

Lemma loop_empty_table (inputs : list TickInput) (s : EyeProcessor ExtState) :
  slot_table s = (None, None, None, None) ->
  failed s = 0 ->
  image_queue_outgoing (state_of (loop E inputs s)) = image_queue_outgoing s /\
  detector_calls (trace (state_of (loop E inputs s))) = detector_calls (trace s) /\
  er_hsf (state_of (loop E inputs s)) = er_hsf s /\
  er_hsrac (state_of (loop E inputs s)) = er_hsrac s /\
  failed (state_of (loop E inputs s)) = 0.
Proof.
  revert s; induction inputs as [|inp rest IH]; intros s T F; cbn [loop].
  - cbn; auto.
  - pose proof (loop_body_empty_table inp s T F) as B; cbv zeta in B.
    destruct B as (T1 & F1 & Q1 & D1 & H1 & R1).
    destruct (loop_body E inp s) as [s1|s1|e s1]; cbn [state_of] in *.
    + destruct (IH s1 T1 F1) as (Q & D & Hh & Hr & Ff).
      repeat split; congruence.
    + repeat split; congruence.
    + repeat split; congruence.
Qed.

(** X4: With the four enable flags off when [run] starts, the worker applies
    no detector and publishes nothing, whatever arrives and whatever the
    flags become while it runs; it holds no engine. *)
Theorem disabled_worker_is_silent (inputs : list TickInput)
    (s : EyeProcessor ExtState) :
  gui_HSF (settings s) = false ->
  gui_HSRAC (settings s) = false ->
  gui_RANSAC3D (settings s) = false ->
  gui_BLOB (settings s) = false ->
  failed s = 0 ->
  let s' := state_of (run E inputs s) in
  image_queue_outgoing s' = image_queue_outgoing s /\
  detector_calls (trace s') = detector_calls (trace s) /\
  er_hsf s' = None /\
  er_hsrac s' = None /\
  failed s' = 0.
Proof.
  intros H1 H2 H3 H4 F; cbv zeta.
  destruct (setup_all_disabled s H1 H2 H3 H4)
    as (s0 & S & T0 & F0 & Q0 & Tr0 & Eh & Er).
  unfold run; rewrite S.
  rewrite F in F0.
  destruct (loop_empty_table inputs s0 T0 F0) as (Q & D & Hh & Hr & Ff).
  repeat split; congruence.
Qed.

(** ** Setup: the engines *)

Lemma assign_HSF_full (s : EyeProcessor ExtState) (l : slots) :
  let e := mk_HSF_engine (gui_skip_autoradius (settings s))
                         (gui_HSF_radius (settings s)) in
  settings (fst (assign_HSF E s l)) = settings s /\
  er_hsf (fst (assign_HSF E s l)) =
    (if gui_HSF (settings s)
     then match er_hsf s with Some e0 => Some e0 | None => Some e end
     else None) /\
  er_hsrac (fst (assign_HSF E s l)) = er_hsrac s /\
  trace (fst (assign_HSF E s l)) =
    trace s ++
    (if gui_HSF (settings s) && negb (is_not_None (er_hsf s))
     then [EvNewHSF e] else []) /\
  snd (assign_HSF E s l) =
    (if gui_HSF (settings s)
     then Py.setitem l (gui_HSFP (settings s)) (Some Bound.HSFM)
     else Some l).
Proof.
  unfold assign_HSF.
  destruct (gui_HSF (settings s)), (er_hsf s) eqn:Eh; cbn;
    rewrite ?Eh, ?app_nil_r; repeat split; reflexivity.
Qed.

Lemma assign_HSRAC_full (s : EyeProcessor ExtState) (l : slots) :
  let e := mk_HSRAC_engine (gui_skip_autoradius (settings s))
                           (gui_HSF_radius (settings s)) in
  settings (fst (assign_HSRAC E s l)) = settings s /\
  er_hsf (fst (assign_HSRAC E s l)) = er_hsf s /\
  er_hsrac (fst (assign_HSRAC E s l)) =
    (if gui_HSRAC (settings s)
     then match er_hsrac s with Some e0 => Some e0 | None => Some e end
     else None) /\
  trace (fst (assign_HSRAC E s l)) =
    trace s ++
    (if gui_HSRAC (settings s) && negb (is_not_None (er_hsrac s))
     then [EvNewHSRAC e] else []) /\
  snd (assign_HSRAC E s l) =
    (if gui_HSRAC (settings s)
     then Py.setitem l (gui_HSRACP (settings s)) (Some Bound.HSRACM)
     else Some l).
Proof.
  unfold assign_HSRAC.
  destruct (gui_HSRAC (settings s)), (er_hsrac s) eqn:Eh; cbn;
    rewrite ?Eh, ?app_nil_r; repeat split; reflexivity.
Qed.

Lemma assign_chain_engines (en : bool) (p : Z) (m : Bound.method)
    (s : EyeProcessor ExtState) :
  settings (assign_chain en p m s) = settings s /\
  er_hsf (assign_chain en p m s) = er_hsf s /\
  er_hsrac (assign_chain en p m s) = er_hsrac s /\
  trace (assign_chain en p m s) = trace s.
Proof.
  unfold assign_chain; repeat break_match; repeat split; reflexivity.
Qed.

(** What setup returns, stage by stage: [s2] is [self] after the two
    engine stages, [a1 .. a4] the entries of [algolist] it unpacks. *)
Lemma setup_stages (s s' : EyeProcessor ExtState) :
  setup E s = Ok s' ->
  exists s1 s2 l1 a0 a1 a2 a3 a4,
    let s0 :=
      set_fourthalgo None
        (set_thirdalgo None (set_secondalgo None (set_firstalgo None s))) in
    assign_HSF E s0 [None; None; None; None; None] = (s1, Some l1) /\
    assign_HSRAC E s1 l1 = (s2, Some [a0; a1; a2; a3; a4]) /\
    s' =
      assign_chain (gui_BLOB (settings s2)) (gui_BLOBP (settings s2)) Bound.BLOBM
        (assign_chain (gui_RANSAC3D (settings s2)) (gui_RANSAC3DP (settings s2))
           Bound.RANSAC3DM
           (set_fourthalgo a4
              (set_thirdalgo a3 (set_secondalgo a2 (set_firstalgo a1 s2))))).
Proof.
  unfold setup; intros H.
  destruct (assign_HSF E _ _) as [s1 [l1|]] eqn:H1; [|discriminate].
  destruct (assign_HSRAC E s1 l1) as [s2 [l2|]] eqn:H2; [|discriminate].
  destruct l2 as [|a0 [|a1 [|a2 [|a3 [|a4 [|a5 l2]]]]]]; try discriminate.
  injection H as <-.
  exists s1, s2, l1, a0, a1, a2, a3, a4; cbv zeta.
  split; [reflexivity|split; [exact H2|]].
  match goal with
  | |- context [settings (assign_chain ?en ?q ?m ?t)] =>
      destruct (assign_chain_engines en q m t) as (C & _)
  end.
  rewrite C; reflexivity.
Qed.

Lemma setup_engines (s s' : EyeProcessor ExtState) :
  setup E s = Ok s' ->
  er_hsf s' =
    (if gui_HSF (settings s)
     then match er_hsf s with
          | Some e0 => Some e0
          | None => Some (mk_HSF_engine (gui_skip_autoradius (settings s))
                                        (gui_HSF_radius (settings s)))
          end
     else None) /\
  er_hsrac s' =
    (if gui_HSRAC (settings s)
     then match er_hsrac s with
          | Some e0 => Some e0
          | None => Some (mk_HSRAC_engine (gui_skip_autoradius (settings s))
                                          (gui_HSF_radius (settings s)))
          end
     else None) /\
  trace s' =
    trace s ++
    (if gui_HSF (settings s) && negb (is_not_None (er_hsf s))
     then [EvNewHSF (mk_HSF_engine (gui_skip_autoradius (settings s))
                                   (gui_HSF_radius (settings s)))]
     else []) ++
    (if gui_HSRAC (settings s) && negb (is_not_None (er_hsrac s))
     then [EvNewHSRAC (mk_HSRAC_engine (gui_skip_autoradius (settings s))
                                       (gui_HSF_radius (settings s)))]
     else []).
Proof.
  intros H.
  destruct (setup_stages s s' H) as (s1 & s2 & l1 & a0 & a1 & a2 & a3 & a4 & St).
  cbv zeta in St; destruct St as (H1 & H2 & ->).
  match type of H1 with assign_HSF E ?s0 ?l = _ =>
    pose proof (assign_HSF_full s0 l) as F1 end.
  pose proof (assign_HSRAC_full s1 l1) as F2.
  cbv zeta in F1, F2; rewrite H1 in F1; rewrite H2 in F2.
  cbn [fst snd settings er_hsf er_hsrac trace set_firstalgo set_secondalgo
       set_thirdalgo set_fourthalgo] in F1, F2.
  destruct F1 as (St1 & Eh1 & Er1 & Tr1 & _).
  destruct F2 as (St2 & Eh2 & Er2 & Tr2 & _).
  repeat match goal with
         | |- context [assign_chain ?en ?p ?m ?t] =>
             let C := fresh "C" in
             pose proof (assign_chain_engines en p m t) as C;
             destruct C as (_ & -> & -> & ->)
         end.
  cbn [er_hsf er_hsrac trace set_firstalgo set_secondalgo set_thirdalgo
       set_fourthalgo].
  rewrite Eh2, Eh1, Er2, Tr2, Tr1, !Er1, !St1, <- app_assoc.
  repeat split; reflexivity.
Qed.

(** X5: [run] constructs an engine only for an enabled algorithm that has
    none, keeps the engine an enabled algorithm already has (with the
    arguments it was first given), drops the engine of a disabled one, and
    treats the two engines independently. *)
Theorem setup_engine_lifecycle (s s' : EyeProcessor ExtState) :
  setup E s = Ok s' ->
  (er_hsf s' = None <-> gui_HSF (settings s) = false) /\
  (er_hsrac s' = None <-> gui_HSRAC (settings s) = false) /\
  (forall e, gui_HSF (settings s) = true -> er_hsf s = Some e ->
             er_hsf s' = Some e) /\
  (forall e, gui_HSRAC (settings s) = true -> er_hsrac s = Some e ->
             er_hsrac s' = Some e) /\
  (exists added,
     trace s' = trace s ++ added /\
     (existsb (constructs Bound.HSFM) added = true <->
      gui_HSF (settings s) = true /\ er_hsf s = None) /\
     (existsb (constructs Bound.HSRACM) added = true <->
      gui_HSRAC (settings s) = true /\ er_hsrac s = None)).
Proof.
  intros H; destruct (setup_engines s s' H) as (Eh & Er & Tr).
  split; [|split; [|split; [|split]]].
  - rewrite Eh; destruct (gui_HSF (settings s)), (er_hsf s);
      split; congruence.
  - rewrite Er; destruct (gui_HSRAC (settings s)), (er_hsrac s);
      split; congruence.
  - intros e G Hs; rewrite Eh, G, Hs; reflexivity.
  - intros e G Hs; rewrite Er, G, Hs; reflexivity.
  - eexists; split; [exact Tr|].
    destruct (gui_HSF (settings s)), (er_hsf s),
             (gui_HSRAC (settings s)), (er_hsrac s); cbn;
      split; split; intros; try discriminate; try tauto;
      try (destruct H0; discriminate); auto.
Qed.

(** ** Setup: only methods that can run get a slot *)

Lemma replace_nth_In {A} (n : nat) (v x : A) (l : list A) :
  In x (Py.replace_nth n v l) -> x = v \/ In x l.
Proof.
  revert n; induction l as [|h t IH]; intros n H; cbn in H.
  - destruct n; contradiction.
  - destruct n as [|n]; cbn in H.
    + destruct H as [H|H]; [left; congruence|right; right; exact H].
    + destruct H as [H|H]; [right; left; exact H|].
      destruct (IH n H) as [H'|H']; [left; exact H'|right; right; exact H'].
Qed.

Lemma setitem_In {A} (l l' : list A) (i : Z) (v x : A) :
  Py.setitem l i v = Some l' -> In x l' -> x = v \/ In x l.
Proof.
  unfold Py.setitem; intros H Hx.
  destruct ((0 <=? i) && (i <? Z.of_nat (length l))).
  - injection H as <-; eapply replace_nth_In; exact Hx.
  - destruct ((- Z.of_nat (length l) <=? i) && (i <? 0)); [|discriminate].
    injection H as <-; eapply replace_nth_In; exact Hx.
Qed.

Lemma setup_table_sources (s s' : EyeProcessor ExtState) (m : Bound.method) :
  setup E s = Ok s' ->
  In (Some m) (table_entries s') ->
  enabled (settings s) m = true.
Proof.
  intros H Hin.
  destruct (setup_stages s s' H) as (s1 & s2 & l1 & a0 & a1 & a2 & a3 & a4 & St).
  cbv zeta in St; destruct St as (H1 & H2 & ->).
  match type of H1 with assign_HSF E ?s0 ?l = _ =>
    pose proof (assign_HSF_full s0 l) as F1 end.
  pose proof (assign_HSRAC_full s1 l1) as F2.
  cbv zeta in F1, F2; rewrite H1 in F1; rewrite H2 in F2.
  cbn [fst snd settings set_firstalgo set_secondalgo set_thirdalgo
       set_fourthalgo] in F1, F2.
  destruct F1 as (St1 & _ & _ & _ & L1).
  destruct F2 as (St2 & _ & _ & _ & L2).
  rewrite St1 in L2, St2; rewrite St2 in Hin.
  assert (Src : forall x, In x [a0; a1; a2; a3; a4] ->
                x = None \/
                (x = Some Bound.HSFM /\ gui_HSF (settings s) = true) \/
                (x = Some Bound.HSRACM /\ gui_HSRAC (settings s) = true)).
  { intros x Hx.
    assert (S1 : forall y, In y l1 ->
                 y = None \/ (y = Some Bound.HSFM /\ gui_HSF (settings s) = true)).
    { intros y Hy; destruct (gui_HSF (settings s)).
      - symmetry in L1; destruct (setitem_In _ _ _ _ y L1 Hy) as [->|Hy'];
          [right; auto|left].
        cbn in Hy'; intuition congruence.
      - injection L1 as ->; left; cbn in Hy; intuition congruence. }
    destruct (gui_HSRAC (settings s)).
    - symmetry in L2; destruct (setitem_In _ _ _ _ x L2 Hx) as [->|Hx'];
        [right; right; auto|].
      destruct (S1 x Hx') as [->|[-> G]]; [left; auto|right; left; auto].
    - injection L2 as <-.
      destruct (S1 x Hx) as [->|[-> G]]; [left; auto|right; left; auto]. }
  unfold table_entries in Hin.
  repeat match type of Hin with
         | context [assign_chain ?en ?q ?m0 ?t] =>
             let C := fresh "C" in
             pose proof (assign_chain_spec en q m0 t) as C;
             cbv zeta in C;
             destruct C as (_ & C1 & C2 & C3 & C4);
             rewrite C1, C2, C3, C4 in Hin; clear C1 C2 C3 C4
         end.
  cbn [firstalgo secondalgo thirdalgo fourthalgo set_firstalgo set_secondalgo
       set_thirdalgo set_fourthalgo] in Hin.
  assert (Cases : (m = Bound.BLOBM /\ gui_BLOB (settings s) = true) \/
                  (m = Bound.RANSAC3DM /\ gui_RANSAC3D (settings s) = true) \/
                  In (Some m) [a0; a1; a2; a3; a4]).
  { cbn [In] in Hin |- *.
    destruct (gui_BLOB (settings s)), (gui_RANSAC3D (settings s));
      cbn [andb] in Hin;
      repeat match type of Hin with
             | context [if ?c then _ else _] => destruct c
             end;
      intuition congruence. }
  destruct Cases as [[-> G]|[[-> G]|Hm]]; [exact G|exact G|].
  destruct (Src _ Hm) as [Hn|[[Hn G]|[Hn G]]]; [discriminate| |];
    injection Hn as ->; exact G.
Qed.

Lemma setup_slots_ready (s s' : EyeProcessor ExtState) :
  setup E s = Ok s' -> slots_ready s'.
Proof.
  intros H m Hin.
  pose proof (setup_table_sources s s' m H Hin) as G.
  destruct (setup_engines s s' H) as (Eh & Er & _).
  unfold ready; destruct m; try reflexivity; cbn [enabled] in G.
  - rewrite Eh, G; destruct (er_hsf s); reflexivity.
  - rewrite Er, G; destruct (er_hsrac s); reflexivity.
Qed.

(** X6: When setup returns, every bound method in the slot table belongs to
    an algorithm that is enabled and has its engine: nothing the scheduler
    can call is missing its handle.  This holds for every priority value,
    also outside 1..4. *)
Theorem setup_wires_only_ready_methods (s s' : EyeProcessor ExtState)
    (m : Bound.method) :
  setup E s = Ok s' ->
  firstalgo s' = Some m \/ secondalgo s' = Some m \/
  thirdalgo s' = Some m \/ fourthalgo s' = Some m ->
  enabled (settings s) m = true /\ ready m s' = true.
Proof.
  intros H Hm.
  assert (Hin : In (Some m) (table_entries s')).
  { unfold table_entries; cbn [In].
    destruct Hm as [Hm|[Hm|[Hm|Hm]]]; rewrite Hm; auto. }
  split.
  - apply (setup_table_sources s s' m H Hin).
  - apply (setup_slots_ready s s' H m Hin).
Qed.

(** ** A worker fed colour frames does not raise *)

Lemma slots_ready_transfer (s s' : EyeProcessor ExtState) :
  slot_table s' = slot_table s ->
  er_hsf s' = er_hsf s ->
  er_hsrac s' = er_hsrac s ->
  slots_ready s -> slots_ready s'.
Proof.
  intros T H R Rd m Hin.
  unfold slot_table in T; injection T as T1 T2 T3 T4.
  unfold table_entries in Hin; rewrite T1, T2, T3, T4 in Hin.
  specialize (Rd m Hin).
  unfold ready in *; rewrite H, R; exact Rd.
Qed.

Lemma check_ok (guard : bool) (slot : option Bound.method) (v : Z)
    (s : EyeProcessor ExtState) :
  (forall m, slot = Some m -> ready m s = true) ->
  (guard = true -> slot <> None) ->
  exists s1,
    (if guard then call E slot s else Ok (set_failed v s)) = Ok s1 /\
    keeps_table s s1.
Proof.
  intros Rd G; destruct guard.
  - destruct slot as [m|]; [|exfalso; apply (G eq_refl); reflexivity].
    destruct (invoke_ready E m s (Rd m eq_refl)) as [s1 H].
    pose proof (invoke_keeps E m s) as K; rewrite H in K.
    exists s1; split; [exact H|exact K].
  - eexists; split; [reflexivity|apply keeps_untraced; reflexivity].
Qed.

Lemma guard_occupied (b : bool) (A : Type) (slot : option A) :
  b && is_not_None slot = true -> slot <> None.
Proof.
  destruct slot; [discriminate|].
  rewrite andb_false_r; discriminate.
Qed.

(** With every slot ready the scheduler returns. *)
Lemma ALGOSELECT_ok (s : EyeProcessor ExtState) :
  slots_ready s -> exists s', ALGOSELECT E s = Ok s'.
Proof.
  intros Rd; unfold ALGOSELECT.
  assert (Step : forall (s0 : EyeProcessor ExtState) (i v : Z) slot,
             slots_ready s0 -> In slot (table_entries s0) ->
             exists s1,
               (if (failed s0 =? i) && is_not_None slot
                then call E slot s0 else Ok (set_failed v s0)) = Ok s1 /\
               slots_ready s1).
  { intros s0 i v slot R0 Hin.
    destruct (check_ok ((failed s0 =? i) && is_not_None slot) slot v s0)
      as (s1 & H & K1 & K2 & K3 & _).
    - intros m ->; apply R0; exact Hin.
    - apply guard_occupied.
    - exists s1; split; [exact H|].
      apply (slots_ready_transfer s0 s1 K1 K2 K3 R0). }
  destruct (Step s 0 (failed s + 1) (firstalgo s) Rd) as (s1 & -> & R1);
    [cbn; auto|cbn [bind]].
  destruct (Step s1 1 (failed s1 + 1) (secondalgo s1) R1) as (s2 & -> & R2);
    [cbn; auto|cbn [bind]].
  destruct (Step s2 2 (failed s2 + 1) (thirdalgo s2) R2) as (s3 & -> & R3);
    [cbn; auto|cbn [bind]].
  destruct (Step s3 3 0 (fourthalgo s3) R3) as (s4 & -> & _);
    [cbn; auto|].
  eexists; reflexivity.
Qed.

Lemma cvtColor_bgr2gray_ok (px : Np.DType -> Z -> Z -> Z -> Z)
    (a : Np.ndarray) :
  is_bgr_frame a ->
  exists gray,
    Cv2.cvtColor px (Some a) Cv2.COLOR_BGR2GRAY = Some gray /\
    Np.dtype gray = Np.dtype a /\
    exists rows cols k,
      Np.shape a = [rows; cols; k] /\ Np.shape gray = [rows; cols].
Proof.
  intros (rows & cols & k & S & R & C & K & D).
  apply Nat.eqb_neq in R, C.
  unfold Cv2.cvtColor.
  rewrite (mat_three_axes a rows cols k S) by (destruct K; subst k; lia).
  rewrite R, C, D; cbn [orb negb].
  destruct K; subst k; eexists; (split; [reflexivity|]);
    (split; [reflexivity|]); exists rows, cols; eexists;
    (split; [exact S|reflexivity]).
Qed.

(** The frame the preprocessor accepts is a non-empty colour image
    whenever what it was given and what it may fall back on are. *)
Lemma capture_colour (s s1 : EyeProcessor ExtState) :
  (forall a, current_image s = Some a -> is_bgr_frame a) ->
  previous_ok s ->
  capture_crop_rotate_image E s = (true, s1) ->
  exists a, current_image s1 = Some a /\ is_bgr_frame a.
Proof.
  intros Cur Prev.
  unfold capture_crop_rotate_image, crop; cbv zeta.
  destruct (current_image s) as [a|] eqn:Ca.
  - destruct (Cur a eq_refl) as (R & C & k & S & Rn & Cn & K & D).
    assert (K' : (2 <= k <= 512)%nat) by (destruct K; subst k; lia).
    unfold Np.getitem2; rewrite S.
    destruct (Py.slice_bounds R _ _) as [ys yn].
    destruct (Py.slice_bounds C _ _) as [xs xn].
    cbn [current_image set_current_image shape3 Np.shape].
    match goal with
    | |- context [Cv2.warpAffine _ (Some ?c) _ _ _] => set (cropped := c)
    end.
    destruct (Nat.eqb_spec yn 0) as [Y0|Yn].
    { unfold Cv2.warpAffine.
      rewrite (mat_three_axes cropped yn xn k eq_refl) by lia.
      subst yn; cbn [Nat.eqb orb]; discriminate. }
    destruct (Nat.eqb_spec xn 0) as [X0|Xn].
    { unfold Cv2.warpAffine.
      rewrite (mat_three_axes cropped yn xn k eq_refl) by lia.
      subst xn; rewrite Nat.eqb_refl, orb_true_r; cbn [orb]; discriminate. }
    rewrite (warpAffine_same_canvas _ cropped yn xn k _ _ eq_refl Yn Xn)
      by (lia || (apply cvt_depth_warp_depth; exact D)).
    intros H; injection H as <-; cbn [current_image set_current_image].
    eexists; split; [reflexivity|].
    exists yn, xn, k; cbn [Np.shape Np.dtype].
    rewrite shape_of_mat_colour by lia.
    repeat split; assumption.
  - cbn [current_image previous_image set_current_image log set_trace].
    destruct (previous_image s) as [p|] eqn:Pp; [|discriminate].
    destruct (Prev p Pp) as (R & C & k & S & Rn & Cn & K & D).
    assert (K' : (2 <= k <= 512)%nat) by (destruct K; subst k; lia).
    cbn [shape3]; rewrite S.
    rewrite (warpAffine_same_canvas _ p R C k _ _ S Rn Cn)
      by (lia || (apply cvt_depth_warp_depth; exact D)).
    intros H; injection H as <-; cbn [current_image set_current_image].
    eexists; split; [reflexivity|].
    exists R, C, k; cbn [Np.shape Np.dtype].
    rewrite shape_of_mat_colour by lia.
    repeat split; assumption.
Qed.

(** The state the preprocessor is run on. *)
Lemma before_capture_plumbing (inp : TickInput) (item : pyobj * Z * Q)
    (s : EyeProcessor ExtState) :
  plumbing s
    (dequeue item
       (if in_queue_empty inp
        then log EvCaptureSet
               (if model_is_stale (observe inp s)
                then reset_model (observe inp s) else observe inp s)
        else if model_is_stale (observe inp s)
             then reset_model (observe inp s) else observe inp s)).
Proof.
  match goal with
  | |- plumbing s (dequeue item ?t) =>
      apply (plumbing_trans s t);
        [|destruct item as [[img n] fps]; apply plumbing_untraced; reflexivity]
  end.
  assert (P1 : plumbing s
                 (if model_is_stale (observe inp s)
                  then reset_model (observe inp s) else observe inp s)).
  { destruct (model_is_stale _).
    - eapply plumbing_trans; [|apply reset_model_plumbing].
      apply plumbing_untraced; reflexivity.
    - apply plumbing_untraced; reflexivity. }
  destruct (in_queue_empty inp); [|exact P1].
  eapply plumbing_trans; [exact P1|apply plumbing_log; reflexivity].
Qed.

Lemma loop_body_no_crash (inp : TickInput) (s : EyeProcessor ExtState) :
  previous_ok s -> slots_ready s -> delivers_colour inp ->
  is_Crash (loop_body E inp s) = false.
Proof.
  intros Prev Rd Col.
  unfold loop_body, delivers_colour in *; cbv zeta.
  destruct (in_cancelled inp); [reflexivity|].
  destruct (_ || _); [destruct (in_wait inp); reflexivity|].
  destruct (in_frame inp) as [item|]; [|reflexivity].
  match goal with
  | |- context [capture_crop_rotate_image E ?s0] =>
      assert (P0 : plumbing s s0) by apply before_capture_plumbing;
      assert (C0 : forall a, current_image s0 = Some a -> is_bgr_frame a)
        by (destruct item as [[[a0|] n] fps];
            destruct (model_is_stale _), (in_queue_empty inp);
            cbn; intros a Ha; try discriminate;
            injection Ha as <-; exact Col);
      pose proof (capture_plumbing s0) as P1;
      pose proof (capture_colour s0) as Cc;
      destruct (capture_crop_rotate_image E s0) as [[|] s3]
  end; [|reflexivity].
  cbn [snd] in P1.
  assert (P3 : plumbing s s3) by (eapply plumbing_trans; eassumption).
  destruct (Cc s3 C0) as (a & Ca & Ba); [|reflexivity|].
  { intros p Hp; apply Prev; rewrite <- (pl_previous _ _ P0); exact Hp. }
  unfold detect_and_blink; rewrite Ca.
  destruct (cvtColor_bgr2gray_ok (gray_pixel E) a Ba) as (gray & -> & _).
  match goal with
  | |- context [ALGOSELECT E ?sg] =>
      destruct (ALGOSELECT_ok sg) as [s4 ->]; [|reflexivity]
  end.
  apply (slots_ready_transfer s); try exact Rd; cbn;
    first [apply (pl_table _ _ P3)|apply (pl_er_hsf _ _ P3)
          |apply (pl_er_hsrac _ _ P3)].
Qed.

(** X7: Once setup has returned, a worker whose incoming items carry [None]
    or a non-empty colour image of an element type the grayscale
    conversion takes (8-bit or 16-bit unsigned integers, 32-bit floats)
    never raises, whatever the detectors answer and whatever the ROI, the
    rotation and the settings become: a frame it cannot use only costs the
    tick. *)
Theorem worker_survives_colour_frames (inputs : list TickInput)
    (s s0 : EyeProcessor ExtState) :
  setup E s = Ok s0 ->
  previous_ok s ->
  Forall delivers_colour inputs ->
  is_Crash (run E inputs s) = false.
Proof.
  intros S Prev Col.
  unfold run; rewrite S.
  assert (Prev0 : previous_ok s0).
  { pose proof (setup_previous_image E s) as Q; rewrite S in Q; cbn in Q.
    intros p Hp; apply Prev; congruence. }
  pose proof (setup_slots_ready s s0 S) as Rd0.
  clear S Prev; revert s0 Prev0 Rd0.
  induction Col as [|inp rest Hc _ IH]; intros s0 Prev0 Rd0; cbn [loop].
  - reflexivity.
  - pose proof (loop_body_no_crash inp s0 Prev0 Rd0 Hc) as Nc.
    pose proof (loop_body_previous_ok E inp s0 Prev0) as Pv.
    destruct (loop_body_keeps E inp s0) as (K1 & K2 & K3 & _).
    destruct (loop_body E inp s0) as [s1|s1|e s1]; cbn [state_of] in *.
    + apply IH; [exact Pv|].
      apply (slots_ready_transfer s0 s1 K1 K2 K3 Rd0).
    + reflexivity.
    + discriminate Nc.
Qed.

(** ** The crop, for an ROI anywhere to the right of and below the origin *)

Lemma slice_bounds_clip (len : nat) (lo n : Z) :
  0 <= lo -> 0 < n ->
  Py.slice_bounds len lo (lo + n) =
    (Z.to_nat (Z.min lo (Z.of_nat len)),
     Z.to_nat (Z.min n (Z.of_nat len - lo))).
Proof.
  intros H0 Hn.
  unfold Py.slice_bounds, Py.adjust.
  destruct (Z.ltb_spec lo 0); [lia|].
  destruct (Z.ltb_spec (lo + n) 0); [lia|].
  f_equal; lia.
Qed.

Lemma crop_clipped (s : EyeProcessor ExtState) (a : Np.ndarray)
    (R C : nat) (rest : list nat) :
  current_image s = Some a ->
  Np.shape a = R :: C :: rest ->
  0 <= roi_window_x (config s) -> 0 <= roi_window_y (config s) ->
  0 < roi_window_w (config s) -> 0 < roi_window_h (config s) ->
  exists cropped,
    crop (current_image s) (config s) = Some cropped /\
    Np.shape cropped =
      Z.to_nat (Z.min (roi_window_h (config s))
                      (Z.of_nat R - roi_window_y (config s)))
      :: Z.to_nat (Z.min (roi_window_w (config s))
                         (Z.of_nat C - roi_window_x (config s)))
      :: rest.
Proof.
  intros I S X Y W H.
  unfold crop, Np.getitem2; rewrite I, S.
  rewrite (slice_bounds_clip R _ _ Y H), (slice_bounds_clip C _ _ X W).
  eexists; split; reflexivity.
Qed.

(** X8: An ROI with a non-negative corner and positive size that starts
    inside a frame of three axes is clipped to the frame, not rejected.
    For every element type [cv2.warpAffine] takes, the preprocessor
    succeeds and leaves min(h, rows - y) rows and min(w, cols - x)
    columns, with the element type of the frame and with its channel
    axis, except that a channel axis of length one is dropped; for the
    two other element types it returns [None]. *)
Theorem preprocessor_clips_to_frame (s : EyeProcessor ExtState)
    (a : Np.ndarray) (R C k : nat) :
  current_image s = Some a ->
  Np.shape a = [R; C; k] ->
  (1 <= k <= 512)%nat ->
  0 <= roi_window_x (config s) < Z.of_nat C ->
  0 <= roi_window_y (config s) < Z.of_nat R ->
  0 < roi_window_w (config s) ->
  0 < roi_window_h (config s) ->
  (Cv2.warp_depth (Np.dtype a) = true ->
   exists out s',
     capture_crop_rotate_image E s = (true, s') /\
     current_image s' = Some out /\
     Np.dtype out = Np.dtype a /\
     Np.shape out =
       Z.to_nat (Z.min (roi_window_h (config s))
                       (Z.of_nat R - roi_window_y (config s)))
       :: Z.to_nat (Z.min (roi_window_w (config s))
                          (Z.of_nat C - roi_window_x (config s)))
       :: (if Nat.eqb k 1 then [] else [k])) /\
  (Cv2.warp_depth (Np.dtype a) = false ->
   fst (capture_crop_rotate_image E s) = false).
Proof.
  intros I S K [X0 X1] [Y0 Y1] W H.
  destruct (crop_clipped s a R C [k] I S X0 Y0 W H) as (cropped & Cr & Sc).
  pose proof (crop_dtype _ _ a cropped I Cr) as Dc.
  split; intros D.
  - destruct (capture_success E s cropped _ _ k Cr Sc)
      as (rotated & Cap & Sr & Dr); try lia; try congruence.
    exists rotated; eexists; split; [exact Cap|split; [reflexivity|]].
    split; [congruence|].
    rewrite Sr; unfold Cv2.shape_of_mat.
    destruct (Nat.eqb k 1); reflexivity.
  - rewrite (capture_bad_depth E s cropped Cr) by congruence; reflexivity.
Qed.

(** X9: An ROI that starts at or beyond the right or the bottom edge of the
    frame gives an empty crop without raising: the preprocessor reports
    failure for the tick, prints nothing, and does not fall back on the
    previous frame even when there is one. *)
Theorem preprocessor_skips_roi_beyond_frame (s : EyeProcessor ExtState)
    (a : Np.ndarray) (R C k : nat) :
  current_image s = Some a ->
  Np.shape a = [R; C; k] ->
  0 <= roi_window_x (config s) ->
  0 <= roi_window_y (config s) ->
  0 < roi_window_w (config s) ->
  0 < roi_window_h (config s) ->
  Z.of_nat C <= roi_window_x (config s) \/
  Z.of_nat R <= roi_window_y (config s) ->
  exists empty,
    capture_crop_rotate_image E s = (false, set_current_image (Some empty) s) /\
    crop (current_image s) (config s) = Some empty /\
    exists rows cols,
      Np.shape empty = [rows; cols; k] /\ (rows = 0%nat \/ cols = 0%nat).
Proof.
  intros I S X Y W H Out.
  destruct (crop_clipped s a R C [k] I S X Y W H) as (cropped & Cr & Sc).
  exists cropped; split; [|split; [exact Cr|]].
  - unfold capture_crop_rotate_image; rewrite Cr.
    cbn [current_image set_current_image shape3]; rewrite Sc.
    unfold Cv2.warpAffine, Cv2.mat; rewrite Sc.
    destruct ((1 <=? k)%nat && (k <=? 512)%nat); [|reflexivity].
    assert (Z : Nat.eqb (Z.to_nat (Z.min (roi_window_h (config s))
                                     (Z.of_nat R - roi_window_y (config s)))) 0
                || Nat.eqb (Z.to_nat (Z.min (roi_window_w (config s))
                                        (Z.of_nat C - roi_window_x (config s)))) 0
                = true).
    { apply orb_true_iff; destruct Out; [right|left]; apply Nat.eqb_eq; lia. }
    rewrite Z; reflexivity.
  - eexists; eexists; split; [exact Sc|].
    destruct Out; [right|left]; lia.
Qed.

(** ** A frame with a single channel *)

(** X10: A grayscale (two-axis) frame that the ROI meets is cropped without
    complaint.  With no frame accepted so far the tick is skipped.  Once a
    frame has been accepted, the size of that frame is used for the
    canvas; if the element type of the grayscale frame is one
    [cv2.warpAffine] takes, the rotation goes through and the grayscale
    conversion raises: the worker dies with an OpenCV error; if not, the
    rotation raises inside the [try] and the tick is skipped. *)
Theorem single_channel_frame (inp : TickInput) (s : EyeProcessor ExtState)
    (a : Np.ndarray) (r c : nat) (n : Z) (fps : Q) :
  in_cancelled inp = false ->
  in_frame inp = Some (Some a, n, fps) ->
  Np.shape a = [r; c] ->
  0 <= roi_window_x (in_config inp) < Z.of_nat c ->
  0 <= roi_window_y (in_config inp) < Z.of_nat r ->
  0 < roi_window_w (in_config inp) ->
  0 < roi_window_h (in_config inp) ->
  previous_ok s ->
  (previous_image s = None \/ Cv2.warp_depth (Np.dtype a) = false ->
   exists s',
     loop_body E inp s = Continue s' /\
     image_queue_outgoing s' = image_queue_outgoing s /\
     detector_calls (trace s') = detector_calls (trace s)) /\
  (previous_image s <> None -> Cv2.warp_depth (Np.dtype a) = true ->
   exists s', loop_body E inp s = Crash CvError s').
Proof.
  intros Cn F S [X0 X1] [Y0 Y1] W H Prev.
  assert (U : (roi_window_w (in_config inp) <=? 0)
              || (roi_window_h (in_config inp) <=? 0) = false).
  { apply orb_false_iff; split; apply Z.leb_gt; assumption. }
  unfold loop_body; rewrite Cn.
  cbn [observe config set_settings set_config]; rewrite U, F.
  fold (observe inp s).
  match goal with
  | |- context [capture_crop_rotate_image E ?s0] =>
      pose proof (before_capture_plumbing inp (Some a, n, fps) s) as P0;
      change (plumbing s s0) in P0;
      assert (I0 : current_image s0 = Some a)
        by (destruct (model_is_stale _), (in_queue_empty inp); reflexivity);
      assert (Cf : config s0 = in_config inp)
        by (destruct (model_is_stale _), (in_queue_empty inp); reflexivity);
      generalize dependent s0
  end.
  intros s0 P0 I0 Cf.
  assert (Cr : exists cropped,
             crop (current_image s0) (config s0) = Some cropped /\
             exists rows cols,
               Np.shape cropped = [rows; cols] /\
               rows <> 0%nat /\ cols <> 0%nat).
  { destruct (crop_clipped s0 a r c [] I0 S) as (cropped & Cr & Sc);
      try (rewrite Cf; lia).
    exists cropped; split; [exact Cr|].
    eexists; eexists; split; [exact Sc|rewrite Cf; lia]. }
  destruct Cr as (cropped & Cr & rows & cols & Sc & Rn & Cn0).
  pose proof (crop_dtype _ _ a cropped I0 Cr) as Dc.
  unfold capture_crop_rotate_image; rewrite Cr.
  cbn [current_image previous_image set_current_image shape3]; rewrite Sc.
  rewrite (pl_previous _ _ P0).
  split.
  - intros [Pn|D].
    + rewrite Pn.
      eexists; split; [reflexivity|].
      cbn [image_queue_outgoing set_current_image trace].
      split; [apply (pl_queue _ _ P0)|apply (pl_calls _ _ P0)].
    + assert (Skip : forall o : option (nat * nat),
                match o with
                | Some (rows0, cols0) =>
                    match
                      Cv2.warpAffine (warp_pixels E) (Some cropped)
                        (Cv2.getRotationMatrix2D
                           (inject_Z (Z.of_nat cols0) / 2,
                            inject_Z (Z.of_nat rows0) / 2)%Q
                           (rotation_angle
                              (config (set_current_image (Some cropped) s0))) 1)
                        (cols0, rows0) (64, 64, 64)
                    with
                    | Some rotated =>
                        (true,
                         set_current_image (Some rotated)
                           (set_current_image (Some cropped) s0))
                    | None => (false, set_current_image (Some cropped) s0)
                    end
                | None => (false, set_current_image (Some cropped) s0)
                end = (false, set_current_image (Some cropped) s0)).
      { intros [[rows0 cols0]|]; [|reflexivity].
        rewrite warpAffine_bad_depth by congruence; reflexivity. }
      rewrite Skip.
      eexists; split; [reflexivity|].
      cbn [image_queue_outgoing set_current_image trace].
      split; [apply (pl_queue _ _ P0)|apply (pl_calls _ _ P0)].
  - intros Pn D.
    destruct (previous_image s) as [p|] eqn:Pp; [|congruence].
    destruct (Prev p Pp) as (R & C & k & Sp & Rp & Cp & K & _).
    cbn [shape3]; rewrite Sp.
    unfold Cv2.warpAffine, Cv2.mat; rewrite Sc.
    apply Nat.eqb_neq in Rn, Cn0, Rp, Cp.
    rewrite Rn, Cn0, Rp, Cp, Dc, D; cbn [orb negb].
    unfold detect_and_blink, Cv2.cvtColor, Cv2.mat.
    cbn [current_image set_current_image Np.shape Np.dtype
         Cv2.shape_of_mat Nat.eqb].
    rewrite Rp, Cp; cbn [orb].
    destruct (negb _); eexists; reflexivity.
Qed.

(** ** The camera model of the 3D detector *)

Lemma count_new_camera_app (l1 l2 : list Event) :
  count_new_camera (l1 ++ l2) = (count_new_camera l1 + count_new_camera l2)%nat.
Proof.
  induction l1 as [|ev l1 IH]; cbn; [reflexivity|].
  destruct ev; cbn; rewrite IH; reflexivity.
Qed.

Lemma count_new_camera_printed (l : list Event) :
  forallb is_print l = true -> count_new_camera l = 0%nat.
Proof.
  induction l as [|ev l IH]; cbn; [reflexivity|].
  destruct ev; cbn; try discriminate; exact IH.
Qed.

Lemma camera_refl (s : EyeProcessor ExtState) : camera_kept s s.
Proof. repeat split. Qed.

Lemma camera_trans (s1 s2 s3 : EyeProcessor ExtState) :
  camera_kept s1 s2 -> camera_kept s2 s3 -> camera_kept s1 s3.
Proof. intros (A1 & B1 & C1) (A2 & B2 & C2); repeat split; congruence. Qed.

Lemma camera_log (ev : Event) (s : EyeProcessor ExtState) :
  count_new_camera [ev] = 0%nat -> camera_kept s (log ev s).
Proof.
  intros H; repeat split.
  cbn; rewrite count_new_camera_app, H; lia.
Qed.

Lemma camera_untraced (s s' : EyeProcessor ExtState) :
  camera_model s' = camera_model s -> detector_3d s' = detector_3d s ->
  trace s' = trace s -> camera_kept s s'.
Proof. intros A B T; repeat split; try assumption; rewrite T; reflexivity. Qed.

Lemma invoke_camera (m : Bound.method) (s : EyeProcessor ExtState) :
  camera_kept s (state_of_result (invoke E m s)).
Proof.
  destruct (invoke_spec E m s) as [W (l & T & P)].
  destruct W; repeat split; try assumption.
  rewrite T, count_new_camera_app; cbn.
  rewrite (count_new_camera_printed l P); lia.
Qed.

Lemma ALGOSELECT_camera (s : EyeProcessor ExtState) :
  camera_kept s (state_of_result (ALGOSELECT E s)).
Proof.
  apply ALGOSELECT_lift.
  - exact camera_refl.
  - exact camera_trans.
  - exact invoke_camera.
  - intros v s0; apply camera_untraced; reflexivity.
Qed.

Lemma capture_camera (s : EyeProcessor ExtState) :
  camera_kept s (snd (capture_crop_rotate_image E s)).
Proof.
  unfold capture_crop_rotate_image; cbv zeta.
  destruct (crop (current_image s) (config s)) as [cropped|].
  - repeat break_match; cbn [snd]; apply camera_untraced; reflexivity.
  - repeat break_match; cbn [snd];
      (eapply camera_trans;
       [apply (camera_log (EvPrint ErrFrameCapture) s); reflexivity
       |apply camera_untraced; reflexivity]).
Qed.

Lemma detect_and_blink_camera (s : EyeProcessor ExtState) :
  camera_kept s (state_of (detect_and_blink E s)).
Proof.
  unfold detect_and_blink.
  destruct (Cv2.cvtColor _ _ _) as [gray|]; [|apply camera_refl].
  match goal with
  | |- context [ALGOSELECT E ?s0] =>
      pose proof (ALGOSELECT_camera s0) as K;
      destruct (ALGOSELECT E s0) as [s1|e s1]; cbn in K |- *
  end.
  - destruct (BLINKM_plumbing s1) as (_ & _ & _ & T & A & B).
    destruct K as (K1 & K2 & K3).
    repeat split; cbn in *; congruence.
  - exact K.
Qed.

Lemma pair_eqb_eq (a b : Z * Z) : pair_eqb a b = true <-> a = b.
Proof.
  destruct a as [a1 a2], b as [b1 b2]; unfold pair_eqb; cbn.
  rewrite andb_true_iff, !Z.eqb_eq; split.
  - intros [-> ->]; reflexivity.
  - intros H; injection H as -> ->; auto.
Qed.

(** What an iteration does to the camera model: nothing when it is
    cancelled or finds the ROI unset; otherwise it leaves behind a model
    for the ROI it has just read, building one only if the model at hand
    is missing or was made for another ROI size. *)
Lemma loop_body_camera (inp : TickInput) (s : EyeProcessor ExtState) :
  let res := (roi_window_w (in_config inp), roi_window_h (in_config inp)) in
  let s' := state_of (loop_body E inp s) in
  (in_cancelled inp = true \/ roi_unconfigured inp = true -> camera_kept s s') /\
  (in_cancelled inp = false -> roi_unconfigured inp = false ->
   camera_fits res s' /\
   (camera_fits res s -> camera_kept s s') /\
   (count_new_camera (trace s') <= count_new_camera (trace s) + 1)%nat).
Proof.
  cbv zeta; unfold loop_body, roi_unconfigured; cbv zeta.
  cbn [observe config set_settings set_config]; fold (observe inp s).
  assert (K0 : camera_kept s (observe inp s))
    by (apply camera_untraced; reflexivity).
  destruct (in_cancelled inp).
  { split; [intros _|discriminate].
    eapply camera_trans; [exact K0|apply camera_log; reflexivity]. }
  destruct (_ || _).
  { split; [intros _|discriminate].
    destruct (in_wait inp);
      (eapply camera_trans; [exact K0|apply camera_log; reflexivity]). }
  clear K0.
  split; [intros [|]; discriminate|intros _ _].
  set (res := (roi_window_w (in_config inp), roi_window_h (in_config inp))).
  set (s1 := if model_is_stale (observe inp s)
             then reset_model (observe inp s) else observe inp s).
  assert (A1 : camera_fits res s1 /\
               (camera_fits res s -> camera_kept s s1) /\
               (count_new_camera (trace s1)
                <= count_new_camera (trace s) + 1)%nat).
  { subst s1; unfold model_is_stale.
    change (camera_model (observe inp s)) with (camera_model s).
    change (detector_3d (observe inp s)) with (detector_3d s).
    change (roi_size (observe inp s)) with res.
    destruct (camera_model s) as [cm|] eqn:Cm;
      [destruct (detector_3d s) as [d|] eqn:D3;
       [destruct (pair_eqb (resolution cm) res) eqn:Eq; cbn [negb]|]|].
    - apply pair_eqb_eq in Eq.
      split; [exists cm, d; auto|].
      split; [intros _; apply camera_untraced; reflexivity|cbn; lia].
    - split; [eexists; eexists; repeat split|].
      split; [|cbn; rewrite count_new_camera_app; cbn; lia].
      intros (cm' & d' & Hc & _ & Hr).
      rewrite Cm in Hc; injection Hc as <-.
      apply pair_eqb_eq in Hr; congruence.
    - split; [eexists; eexists; repeat split|].
      split; [|cbn; rewrite count_new_camera_app; cbn; lia].
      intros (cm' & d' & _ & Hd & _); rewrite D3 in Hd; discriminate.
    - split; [eexists; eexists; repeat split|].
      split; [|cbn; rewrite count_new_camera_app; cbn; lia].
      intros (cm' & d' & Hc & _); rewrite Cm in Hc; discriminate. }
  clearbody s1.
  assert (Fin : forall s2 : EyeProcessor ExtState,
             camera_kept s1 s2 ->
             camera_fits res s2 /\
             (camera_fits res s -> camera_kept s s2) /\
             (count_new_camera (trace s2)
              <= count_new_camera (trace s) + 1)%nat).
  { intros s2 (K1 & K2 & K3).
    destruct A1 as ((cm & d & Hc & Hd & Hr) & Kp & Cnt).
    split; [exists cm, d; repeat split; congruence|].
    split; [|lia].
    intros Fs; eapply camera_trans; [apply Kp; exact Fs|repeat split; assumption]. }
  set (s2 := if in_queue_empty inp then log EvCaptureSet s1 else s1).
  assert (K2 : camera_kept s1 s2).
  { subst s2; destruct (in_queue_empty inp);
      [apply camera_log; reflexivity|apply camera_refl]. }
  clearbody s2.
  destruct (in_frame inp) as [item|]; [|apply Fin; exact K2].
  assert (K3 : camera_kept s1 (dequeue item s2)).
  { eapply camera_trans; [exact K2|].
    destruct item as [[img n] fps]; apply camera_untraced; reflexivity. }
  pose proof (capture_camera (dequeue item s2)) as K4.
  destruct (capture_crop_rotate_image E (dequeue item s2)) as [[|] s3];
    cbn [snd] in K4; apply Fin.
  - eapply camera_trans; [|apply detect_and_blink_camera].
    eapply camera_trans; eassumption.
  - eapply camera_trans; eassumption.
Qed.

(** X11: While the ROI size read by the iterations stays the same, the worker
    builds the camera model and the 3D detector at most once, and not at
    all if it starts with a model for that size; a change of focal length
    alone never rebuilds them. *)
Theorem camera_model_built_at_most_once (res : Z * Z)
    (inputs : list TickInput) (s : EyeProcessor ExtState) :
  Forall (fun inp =>
            (roi_window_w (in_config inp), roi_window_h (in_config inp)) = res)
         inputs ->
  let s' := state_of (loop E inputs s) in
  (count_new_camera (trace s') <= count_new_camera (trace s) + 1)%nat /\
  (camera_fits res s ->
   count_new_camera (trace s') = count_new_camera (trace s) /\
   camera_model s' = camera_model s).
Proof.
  intros H; cbv zeta.
  assert (Fit : forall s0 : EyeProcessor ExtState,
             camera_fits res s0 -> camera_kept s0 (state_of (loop E inputs s0))).
  { induction H as [|inp rest Hr _ IH]; intros s0 F0; cbn [loop].
    - apply camera_refl.
    - pose proof (loop_body_camera inp s0) as B; cbv zeta in B; rewrite Hr in B.
      destruct B as (B1 & B2).
      assert (K : camera_kept s0 (state_of (loop_body E inp s0))).
      { destruct (in_cancelled inp) eqn:Cn; [apply B1; auto|].
        destruct (roi_unconfigured inp) eqn:U; [apply B1; auto|].
        destruct (B2 eq_refl eq_refl) as (_ & Kp & _); apply Kp; exact F0. }
      destruct (loop_body E inp s0) as [s1|s1|e s1]; cbn [state_of] in *;
        [|exact K|exact K].
      eapply camera_trans; [exact K|apply IH].
      destruct F0 as (cm & d & Hc & Hd & Hres), K as (K1 & K2 & _).
      exists cm, d; repeat split; congruence. }
  split.
  - clear Fit; revert s; induction H as [|inp rest Hr Hrest IH]; intros s;
      cbn [loop]; [cbn; lia|].
    pose proof (loop_body_camera inp s) as B; cbv zeta in B; rewrite Hr in B.
    destruct B as (B1 & B2).
    destruct (in_cancelled inp) eqn:Cn;
      [|destruct (roi_unconfigured inp) eqn:U].
    + destruct (B1 (or_introl eq_refl)) as (_ & _ & K).
      destruct (loop_body E inp s) as [s1|s1|e s1]; cbn [state_of] in *;
        [rewrite <- K; apply IH|lia|lia].
    + destruct (B1 (or_intror eq_refl)) as (_ & _ & K).
      destruct (loop_body E inp s) as [s1|s1|e s1]; cbn [state_of] in *;
        [rewrite <- K; apply IH|lia|lia].
    + destruct (B2 eq_refl eq_refl) as (F1 & _ & Cnt).
      destruct (loop_body E inp s) as [s1|s1|e s1]; cbn [state_of] in *;
        [|exact Cnt|exact Cnt].
      assert (Fit1 : camera_kept s1 (state_of (loop E rest s1))).
      { clear IH B1 B2 Cnt.
        revert s1 F1; induction Hrest as [|inp' rest' Hr' _ IH'];
          intros s1 F1; cbn [loop]; [apply camera_refl|].
        pose proof (loop_body_camera inp' s1) as B; cbv zeta in B;
          rewrite Hr' in B.
        destruct B as (B1 & B2).
        assert (K : camera_kept s1 (state_of (loop_body E inp' s1))).
        { destruct (in_cancelled inp') eqn:Cn'; [apply B1; auto|].
          destruct (roi_unconfigured inp') eqn:U'; [apply B1; auto|].
          destruct (B2 eq_refl eq_refl) as (_ & Kp & _); apply Kp; exact F1. }
        destruct (loop_body E inp' s1) as [s2|s2|e s2]; cbn [state_of] in *;
          [|exact K|exact K].
        eapply camera_trans; [exact K|apply IH'].
        destruct F1 as (cm & d & Hc & Hd & Hres), K as (K1 & K2 & _).
        exists cm, d; repeat split; congruence. }
      destruct Fit1 as (_ & _ & K); lia.
  - intros F0; destruct (Fit s F0) as (K1 & _ & K3); auto.
Qed.

(** ** The frame kept for fallback *)

(** X12: Whatever a run does, [previous_image] stays [None] or a non-empty
    colour image: only frames that passed the grayscale conversion are
    ever stored there. *)
Theorem accepted_frame_invariant (inputs : list TickInput)
    (s : EyeProcessor ExtState) :
  previous_ok s -> previous_ok (state_of (run E inputs s)).
Proof.
  intros P; unfold run.
  pose proof (setup_previous_image E s) as S.
  destruct (setup E s) as [s0|e s0]; cbn in S.
  - apply loop_previous_ok; intros p Hp; apply P; congruence.
  - cbn; intros p Hp; apply P; congruence.
Qed.

(** ** The hybrid wrapper *)

Lemma output_record (P : EyeInformation -> Prop) (t : pyobj)
    (i : EyeInformation) (s0 s : EyeProcessor ExtState) :
  image_queue_outgoing s0 = image_queue_outgoing s ->
  P i ->
  Forall (fun r => P (snd r)) (emitted s (output_images_and_update E t i s0)).
Proof.
  intros Q Hi.
  assert (Eq : emitted s (output_images_and_update E t i s0)
               = emitted s0 (output_images_and_update E t i s0))
    by (unfold emitted; rewrite Q; reflexivity).
  rewrite Eq.
  destruct (output_images_and_update_emitted E t i s0) as [->|(img & ->)].
  - constructor.
  - constructor; [exact Hi|constructor].
Qed.

Lemma output_keeps_rest (t : pyobj) (i : EyeInformation)
    (s : EyeProcessor ExtState) :
  current_image_gray (output_images_and_update E t i s) = current_image_gray s /\
  current_image_gray_clean (output_images_and_update E t i s)
    = current_image_gray_clean s /\
  eyeoffx (output_images_and_update E t i s) = eyeoffx s /\
  prev_x (output_images_and_update E t i s) = prev_x s /\
  eyeopen (output_images_and_update E t i s) = eyeopen s.
Proof.
  unfold output_images_and_update; repeat break_match; repeat split; reflexivity.
Qed.

(** X13: With its engine in place [HSRACM] returns.  The grayscale frame it
    leaves in [self], and publishes from, is the one the engine handed
    back, while the clean copy made by the loop is untouched; [prev_x]
    takes the first centre ever found and keeps it; every record is
    tagged [HSRAC], and its blink field is 0 as long as the blink flag of
    the previous iteration is set, whatever the intensity says. *)
Theorem HSRACM_record (s : EyeProcessor ExtState) (eng : HSRAC_engine) :
  er_hsrac s = Some eng ->
  let answer := fst (hsrac_run E eng (current_image_gray s) (ext s)) in
  let cx := fst (fst (fst (fst answer))) in
  let gray_frame := snd (fst answer) in
  exists s',
    HSRACM E s = Ok s' /\
    current_image_gray s' = gray_frame /\
    current_image_gray_clean s' = current_image_gray_clean s /\
    eyeoffx s' = eyeoffx s /\
    prev_x s' = match prev_x s with Some v => Some v | None => Some cx end /\
    Forall (fun r =>
              info_type (snd r) = InformationOrigin.HSRAC /\
              pupil_dialation (snd r) = 0 /\
              blink (snd r) = if eyeoffx s then 0%Q else eyeopen s')
           (emitted s s').
Proof.
  intros Er; cbv zeta; unfold HSRACM; rewrite Er.
  destruct (hsrac_run E eng _ _) as [[[[[cx cy] thresh] gray] uncrop] x1].
  cbn [fst snd prev_x set_current_image_gray set_ext].
  destruct (prev_x s) eqn:Px;
    destruct (intense E cx cy _ _) as [eo x2];
    destruct (cal_osc E _ cx cy) as [[out_x out_y] x3];
    cbn [eyeoffx set_ext set_eyeopen set_prev_x set_prev_y
         set_current_image_gray];
    destruct (eyeoffx s) eqn:Eo;
    (eexists; split; [reflexivity|]);
    match goal with
    | |- context [output_images_and_update E ?t ?i ?s0] =>
        pose proof (output_record
                      (fun r => info_type r = InformationOrigin.HSRAC /\
                                pupil_dialation r = 0 /\
                                blink r = blink i) t i s0 s eq_refl
                      (conj eq_refl (conj eq_refl eq_refl))) as Rec;
        destruct (output_keeps_rest t i s0) as (S1 & S2 & S3 & S4 & S5);
        rewrite ?S1, ?S2, ?S3, ?S4, ?S5
    end;
    cbn [current_image_gray current_image_gray_clean eyeoffx prev_x eyeopen
         set_ext set_eyeopen set_prev_x set_prev_y set_current_image_gray
         blink] in *;
    rewrite ?Px;
    repeat split; try reflexivity; try assumption; exact Rec.
Qed.

(** ** A crop that raises *)

(** The subscript of line 204 raises exactly for [None] and for an array
    of fewer than two axes; the bounds play no part. *)
Lemma crop_fails_iff (img : pyobj) (cfg : EyeTrackCameraConfig) :
  crop img cfg = None <->
  img = None \/ exists a, img = Some a /\ (length (Np.shape a) < 2)%nat.
Proof.
  unfold crop, Np.getitem2.
  destruct img as [a|]; [|split; auto].
  destruct (Np.shape a) as [|r [|c rest]] eqn:S.
  - split; [intros _; right; exists a; rewrite S; split; [reflexivity|cbn; lia]
           |reflexivity].
  - split; [intros _; right; exists a; rewrite S; split; [reflexivity|cbn; lia]
           |reflexivity].
  - destruct (Py.slice_bounds r _ _) as [ys yn].
    destruct (Py.slice_bounds c _ _) as [xs xn].
    split; [discriminate|].
    intros [H|(a' & H & L)]; [discriminate|].
    injection H as <-; rewrite S in L; cbn in L; lia.
Qed.

Lemma first_occupied_table (s s' : EyeProcessor ExtState) :
  slot_table s' = slot_table s -> first_occupied s' = first_occupied s.
Proof.
  unfold slot_table, first_occupied; intros T.
  injection T as -> -> -> ->; reflexivity.
Qed.

(** C6 (as amended): the crop raises exactly when the dequeued frame is
    [None] or has fewer than two axes, whatever the ROI.  In an iteration
    where it does,
    - with no earlier accepted frame the preprocessor reports failure: the
      iteration ends there, the loop goes on, no detector was called and
      nothing was put on the outgoing queue;
    - with an earlier accepted frame [p], that frame is rotated about its
      centre on a canvas of its own size and converted to grayscale, and
      the iteration goes on as for any frame: the scheduler runs on the
      state [s1] that holds the rotated frame and its grayscale copies,
      followed by the blink check, so that the detector of the
      highest-priority occupied slot is called when the counter is 0.
    The state is any state whose [previous_image] is an accepted frame or
    [None], as in every state a run reaches ([run_previous_ok]). *)
Theorem crop_failure_fallback (inp : TickInput) (s : EyeProcessor ExtState)
    (img : pyobj) (n : Z) (fps : Q) :
  previous_ok s ->
  in_cancelled inp = false ->
  roi_unconfigured inp = false ->
  in_frame inp = Some (img, n, fps) ->
  (crop img (in_config inp) = None <->
   img = None \/ exists a, img = Some a /\ (length (Np.shape a) < 2)%nat) /\
  (crop img (in_config inp) = None ->
   (previous_image s = None ->
    exists s',
      loop_body E inp s = Continue s' /\
      image_queue_outgoing s' = image_queue_outgoing s /\
      detector_calls (trace s') = detector_calls (trace s)) /\
   (forall p : Np.ndarray,
      previous_image s = Some p ->
      exists rotated gray s1 rows cols,
        shape3 (Some p) = Some (rows, cols) /\
        Cv2.warpAffine (warp_pixels E) (Some p)
          (Cv2.getRotationMatrix2D
             (inject_Z (Z.of_nat cols) / 2, inject_Z (Z.of_nat rows) / 2)%Q
             (rotation_angle (in_config inp)) 1)
          (cols, rows) (64, 64, 64) = Some rotated /\
        Np.shape rotated = Np.shape p /\
        Cv2.cvtColor (gray_pixel E) (Some rotated) Cv2.COLOR_BGR2GRAY
          = Some gray /\
        Np.shape gray = [rows; cols] /\
        current_image s1 = Some rotated /\
        current_image_gray s1 = Some gray /\
        current_image_gray_clean s1 = Some gray /\
        plumbing s s1 /\
        loop_body E inp s =
          match ALGOSELECT E s1 with
          | Raised e s2 => Crash e s2
          | Ok s2 => Continue (BLINKM E s2)
          end /\
        detector_calls (trace (state_of (loop_body E inp s))) =
          detector_calls (trace s) ++
          (if failed s =? 0
           then match first_occupied s with Some m => [m] | None => [] end
           else []))).
Proof.
  intros Ok Cn U F.
  split; [apply crop_fails_iff|].
  intros Cr.
  unfold roi_unconfigured in U.
  split.
  - intros P.
    unfold loop_body; rewrite Cn.
    cbn [observe config set_settings set_config]; rewrite U, F.
    match goal with
    | |- context [capture_crop_rotate_image E ?s0] =>
        rewrite (capture_no_fallback E s0)
    end.
    + eexists; split; [reflexivity|].
      destruct (model_is_stale _), (in_queue_empty inp); cbn;
        rewrite !detector_calls_app; cbn; rewrite ?app_nil_r; auto.
    + destruct (model_is_stale _), (in_queue_empty inp); exact Cr.
    + destruct (model_is_stale _), (in_queue_empty inp); exact P.
  - intros p P.
    destruct (Ok p P) as (rows & cols & k & S & R & C & K & D).
    assert (K' : (2 <= k <= 512)%nat) by (destruct K; subst k; lia).
    pose proof (before_capture_plumbing inp (img, n, fps) s) as P0.
    unfold loop_body; rewrite Cn.
    cbn [observe config set_settings set_config]; rewrite U, F.
    fold (observe inp s).
    match goal with
    | |- context [capture_crop_rotate_image E ?s0] =>
        change (plumbing s s0) in P0;
        assert (Cr0 : crop (current_image s0) (config s0) = None)
          by (destruct (model_is_stale _), (in_queue_empty inp); exact Cr);
        assert (A0 : rotation_angle (config s0) = rotation_angle (in_config inp))
          by (destruct (model_is_stale _), (in_queue_empty inp); reflexivity);
        generalize dependent s0
    end.
    intros s0 P0 Cr0 A0.
    assert (Pp : previous_image s0 = Some p)
      by (rewrite (pl_previous _ _ P0); exact P).
    pose proof (capture_fallback E s0 p rows cols k Cr0 Pp S R C K'
                  (cvt_depth_warp_depth _ D)) as Fb.
    cbv zeta in Fb; rewrite A0 in Fb.
    destruct Fb as [W Cap]; rewrite Cap.
    match type of W with
    | _ = Some ?r => set (rotated := r) in *
    end.
    assert (Br : is_bgr_frame rotated).
    { exists rows, cols, k; repeat split; try assumption; reflexivity. }
    destruct (cvtColor_bgr2gray_ok (gray_pixel E) rotated Br)
      as (gray & G & _ & rows' & cols' & k' & Sr & Sg).
    cbn [Np.shape rotated] in Sr; injection Sr as <- <- <-.
    unfold detect_and_blink.
    cbn [current_image set_current_image]; rewrite G.
    cbn [current_image_gray set_current_image_gray].
    match goal with
    | |- context [ALGOSELECT E ?sg] => set (s1 := sg)
    end.
    assert (P1 : plumbing s s1).
    { apply (plumbing_trans s s0); [exact P0|].
      apply (plumbing_trans s0
               (log (EvPrint ErrFrameCapture) (set_current_image (Some p) s0))).
      - apply (plumbing_trans s0 (set_current_image (Some p) s0));
          [apply plumbing_untraced; reflexivity
          |apply plumbing_log; reflexivity].
      - apply plumbing_untraced; reflexivity. }
    exists rotated, gray, s1, rows, cols.
    split; [unfold shape3; rewrite S; reflexivity|].
    split; [exact W|].
    split; [symmetry; exact S|].
    split; [exact G|].
    split; [exact Sg|].
    split; [reflexivity|].
    split; [reflexivity|].
    split; [reflexivity|].
    split; [exact P1|].
    split; [reflexivity|].
    destruct (ALGOSELECT_tick s1) as (Calls & _).
    cbv zeta in Calls.
    pose proof (first_occupied_table s s1 (pl_table _ _ P1)) as Fo.
    rewrite (pl_failed _ _ P1), Fo, (pl_calls _ _ P1) in Calls.
    destruct (ALGOSELECT E s1) as [s2|e s2]; cbn [state_of state_of_result] in *.
    + rewrite <- Calls.
      destruct (BLINKM_plumbing s2) as (_ & _ & _ & T & _).
      rewrite T; reflexivity.
    + exact Calls.
Qed.

(** ** Waiting for the ROI *)

Lemma idle_loop_trace (inputs : list TickInput) :
  forall s : EyeProcessor ExtState,
    Forall (fun inp => roi_unconfigured inp = true) inputs ->
    trace (state_of (loop E inputs s)) = trace s ++ idle_events inputs.
Proof.
  induction inputs as [|inp rest IH]; intros s H; cbn [loop idle_events].
  - cbn; rewrite app_nil_r; reflexivity.
  - rewrite (idle_iteration E inp s (Forall_inv H)).
    destruct (in_cancelled inp); [reflexivity|].
    destruct (in_wait inp); [reflexivity|].
    rewrite (IH _ (Forall_inv_tail H)).
    cbn [trace log set_trace observe set_settings set_config].
    rewrite <- app_assoc; reflexivity.
Qed.

(** C9 (as amended): a worker that finds the ROI width or height not
    positive in every iteration.  Each iteration that does not find the
    cancellation event set at its top waits once on that event, for
    0.1 s, and does nothing else; the worker never raises; it returns
    exactly when some iteration sees the cancellation, at its top or in
    its wait, and in that very iteration; the loop constructs no engine,
    no camera model and no 3D detector and publishes nothing, so that what
    the run adds to the trace is what the setup added followed by the
    waits of [idle_events].  The setup, however, has constructed the
    edge-based and the hybrid engine before the loop looks at the ROI,
    whenever their algorithm is enabled and has no engine yet. *)
Theorem idle_worker_waits (inputs : list TickInput)
    (s s0 : EyeProcessor ExtState) :
  setup E s = Ok s0 ->
  Forall (fun inp => roi_unconfigured inp = true) inputs ->
  let o := run E inputs s in
  let new_hsf :=
    mk_HSF_engine (gui_skip_autoradius (settings s))
      (gui_HSF_radius (settings s)) in
  let new_hsrac :=
    mk_HSRAC_engine (gui_skip_autoradius (settings s))
      (gui_HSF_radius (settings s)) in
  is_Crash o = false /\
  is_Return o = existsb cancellation_seen inputs /\
  (forall before inp after,
     inputs = before ++ inp :: after ->
     cancellation_seen inp = true ->
     o = run E (before ++ [inp]) s /\ is_Return o = true) /\
  trace (state_of o) = trace s0 ++ idle_events inputs /\
  trace s0 =
    trace s ++
    (if gui_HSF (settings s) && negb (is_not_None (er_hsf s))
     then [EvNewHSF new_hsf] else []) ++
    (if gui_HSRAC (settings s) && negb (is_not_None (er_hsrac s))
     then [EvNewHSRAC new_hsrac] else []) /\
  er_hsf (state_of o) =
    (if gui_HSF (settings s)
     then match er_hsf s with Some e0 => Some e0 | None => Some new_hsf end
     else None) /\
  er_hsrac (state_of o) =
    (if gui_HSRAC (settings s)
     then match er_hsrac s with Some e0 => Some e0 | None => Some new_hsrac end
     else None) /\
  camera_model (state_of o) = camera_model s0 /\
  detector_3d (state_of o) = detector_3d s0 /\
  image_queue_outgoing (state_of o) = image_queue_outgoing s0.
Proof.
  intros S H; cbv zeta.
  assert (Run : forall l, run E l s = loop E l s0)
    by (intros l; unfold run; rewrite S; reflexivity).
  rewrite !Run.
  destruct (idle_loop E inputs s0 H) as (C & R & _ & H1 & H2 & H3 & H4 & Q).
  destruct (setup_engines s s0 S) as (E1 & E2 & T).
  split; [exact C|].
  split; [exact R|].
  split.
  { intros before inp after Hi Hc.
    rewrite Run; subst inputs.
    assert (H' : Forall (fun i => roi_unconfigured i = true) (before ++ [inp])).
    { apply Forall_app in H; destruct H as [Hb Ha].
      apply Forall_app; split; [exact Hb|].
      constructor; [exact (Forall_inv Ha)|constructor]. }
    destruct (idle_loop E (before ++ [inp]) s0 H') as (_ & R' & _).
    cbv zeta in R'.
    rewrite existsb_app in R'; cbn in R'; rewrite Hc in R'.
    rewrite orb_true_r in R'.
    assert (Eq : loop E (before ++ inp :: after) s0
                 = loop E (before ++ [inp]) s0).
    { change (before ++ inp :: after) with (before ++ [inp] ++ after).
      rewrite app_assoc, (loop_app E).
      destruct (loop E (before ++ [inp]) s0);
        [discriminate|reflexivity|discriminate]. }
    split; [exact Eq|].
    rewrite Eq; exact R'. }
  split; [apply idle_loop_trace; exact H|].
  split; [exact T|].
  split; [rewrite H1; exact E1|].
  split; [rewrite H2; exact E2|].
  repeat split; assumption.
Qed.

End MoreFacts.

(** * The decorator [run_once] *)

Section RunOnceFacts.

Context {A W R : Type} (f : A -> W -> option R * W).

Lemma wrapper_calls_after_run (args : list A) (w : W) :
  wrapper_calls f args (true, w) = (repeat Skipped (length args), (true, w)).
Proof.
  induction args as [|a rest IH]; cbn; [reflexivity|].
  rewrite IH; reflexivity.
Qed.

(** X14: However often the wrapper is called, the wrapped function is applied
    to the first argument only: the first call gives its result, every
    later call gives [None] and leaves the state of the function as the
    first call left it.  This also holds when the first call raises: the
    function is not tried again. *)
Theorem run_once_runs_once (a : A) (rest : list A) (w : W) :
  wrapper_calls f (a :: rest) (run_once w) =
    ((match fst (f a w) with Some r => Returned r | None => Failed end)
       :: repeat Skipped (length rest),
     (true, snd (f a w))).
Proof.
  cbn [wrapper_calls run_once wrapper negb].
  destruct (f a w) as [[r|] w']; cbn [fst snd];
    rewrite wrapper_calls_after_run; reflexivity.
Qed.

End RunOnceFacts.

(** * The camera widget *)

Section WidgetFacts.

Import Widget.

Variable parse_int : String.string -> option Z.
Variable imencode : Np.ndarray -> option (list Z).

Local Ltac crunch :=
  repeat (cbn in *;
          match goal with
          | |- context [if ?c then _ else _] => destruct c eqn:?
          | |- context [match ?c with Some _ => _ | None => _ end] =>
              destruct c eqn:?
          | |- context [match ?c with pair _ _ => _ end] => destruct c eqn:?
          end);
  cbn in *.

Lemma held_refl (s : CameraWidget) : held s s.
Proof. unfold held. tauto. Qed.

Lemma held_trans (s t u : CameraWidget) : held s t -> held t u -> held s u.
Proof.
  unfold held. intros H1 H2.
  decompose [and] H1. decompose [and] H2.
  repeat split; congruence.
Qed.

Lemma update_config_held (ev : GuiEvent) (vals : Values) (s : CameraWidget) :
  held s (update_config parse_int ev vals s).
Proof.
  unfold update_config, held, roi.
  destruct ev; crunch; repeat split; congruence.
Qed.

Lemma display_held (q : QueueInput) (s : CameraWidget) :
  held s (state_of (display imencode q s)).
Proof.
  unfold display, held, roi.
  crunch; repeat split; congruence.
Qed.

Lemma renders_app (evs1 evs2 : list (GuiEvent * Values * QueueInput))
    (s : CameraWidget) :
  renders parse_int imencode (evs1 ++ evs2) s =
  match renders parse_int imencode evs1 s with
  | Done s' => renders parse_int imencode evs2 s'
  | Raise e s' => Raise e s'
  end.
Proof.
  revert s. induction evs1 as [|[[ev vals] q] rest IH]; intro s; cbn.
  - reflexivity.
  - destruct (render parse_int imencode ev vals q s); [apply IH | reflexivity].
Qed.

Lemma render_Done (ev : GuiEvent) (vals : Values) (q : QueueInput)
    (s s' : CameraWidget) :
  render parse_int imencode ev vals q s = Done s' ->
  exists d, dispatch ev vals (update_config parse_int ev vals s) = Done d /\
            display imencode q d = Done s'.
Proof.
  unfold render. destruct (dispatch _ _ _) as [d|e d]; [|discriminate].
  intro H. exists d. split; [reflexivity | exact H].
Qed.

Lemma display_Done_held (q : QueueInput) (d s' : CameraWidget) :
  display imencode q d = Done s' -> held d s'.
Proof.
  intro H. pose proof (display_held q d) as K. rewrite H in K. exact K.
Qed.

(** ** Selecting the region of interest *)

Lemma render_down (vals : Values) (q : QueueInput) (s s' : CameraWidget) :
  is_mouse_up s = true ->
  render parse_int imencode RoiSelection vals q s = Done s' ->
  dragging (v_roi_selection vals) (v_roi_selection vals) s s'.
Proof.
  intros U H. apply render_Done in H. destruct H as (d & D & S).
  apply display_Done_held in S.
  pose proof (update_config_held RoiSelection vals s) as K.
  set (u := update_config parse_int RoiSelection vals s) in *.
  unfold held in K, S. decompose [and] K. decompose [and] S.
  cbn [dispatch] in D.
  replace (is_mouse_up u) with true in D by congruence.
  injection D as <-.
  unfold dragging, roi in *. cbn in *.
  repeat split; congruence.
Qed.

Lemma render_move (e : GuiEvent * Values * QueueInput) (p q : Z * Z)
    (s0 s s' : CameraWidget) :
  during_drag e = true ->
  dragging p q s0 s ->
  render parse_int imencode (fst (fst e)) (snd (fst e)) (snd e) s = Done s' ->
  dragging p (last_pointer q [e]) s0 s'.
Proof.
  intros E G H. apply render_Done in H. destruct H as (d & D & S).
  apply display_Done_held in S.
  pose proof (update_config_held (fst (fst e)) (snd (fst e)) s) as K.
  set (u := update_config parse_int (fst (fst e)) (snd (fst e)) s) in *.
  unfold held in K, S. decompose [and] K. decompose [and] S.
  unfold dragging in G. decompose [and] G.
  unfold during_drag in E. unfold last_pointer, pointer.
  destruct (fst (fst e)); try discriminate; cbn [dispatch] in D.
  - replace (is_mouse_up u) with false in D by congruence.
    injection D as <-.
    unfold dragging, roi in *. cbn in *.
    repeat split; congruence.
  - injection D as <-.
    unfold dragging, roi in *.
    repeat split; congruence.
Qed.

Lemma renders_moves (p : Z * Z) (s0 : CameraWidget)
    (moves : list (GuiEvent * Values * QueueInput)) :
  forall (q : Z * Z) (s s' : CameraWidget),
    forallb during_drag moves = true ->
    dragging p q s0 s ->
    renders parse_int imencode moves s = Done s' ->
    dragging p (last_pointer q moves) s0 s'.
Proof.
  induction moves as [|e rest IH]; intros q s s' F G H.
  - cbn in H. injection H as <-. exact G.
  - cbn [forallb] in F. apply andb_prop in F. destruct F as [Fe Fr].
    destruct e as [[ev vals] qi].
    cbn [renders] in H.
    destruct (render parse_int imencode ev vals qi s) as [s1|] eqn:R;
      [|discriminate].
    pose proof (render_move (ev, vals, qi) p q s0 s s1 Fe G R) as G1.
    specialize (IH _ _ _ Fr G1 H).
    unfold during_drag in Fe. cbn [fst snd] in Fe.
    cbn [last_pointer fst snd] in *.
    destruct ev; try discriminate; exact IH.
Qed.

Lemma effects_grow_display (q : QueueInput) (s : CameraWidget) (e : Effect) :
  In e (effects s) -> In e (effects (state_of (display imencode q s))).
Proof.
  unfold display. intro H.
  crunch; rewrite ?in_app_iff; tauto.
Qed.

Lemma render_up (vals : Values) (qi : QueueInput) (p q : Z * Z)
    (s0 s s' : CameraWidget) :
  dragging p q s0 s ->
  render parse_int imencode RoiSelectionUp vals qi s = Done s' ->
  is_mouse_up s' = true /\
  (fst p <> fst q -> snd p <> snd q ->
   roi s' = (Z.min (fst p) (fst q), Z.min (snd p) (snd q),
             Z.abs (fst p - fst q), Z.abs (snd p - snd q)) /\
   In Save (effects s')) /\
  (fst p = fst q \/ snd p = snd q -> roi s' = roi s0).
Proof.
  intros G H. apply render_Done in H. destruct H as (d & D & S).
  pose proof (effects_grow_display qi d Save) as Eff. rewrite S in Eff.
  cbn [state_of] in Eff.
  apply display_Done_held in S.
  pose proof (update_config_held RoiSelectionUp vals s) as K.
  set (u := update_config parse_int RoiSelectionUp vals s) in *.
  unfold held in K, S. decompose [and] K. decompose [and] S.
  unfold dragging in G. decompose [and] G.
  cbn [dispatch] in D.
  assert (X0 : x0 (set_is_mouse_up true u) = Some (fst p))
    by (cbn [x0 x1 y0 y1 set_is_mouse_up]; congruence).
  assert (X1 : x1 (set_is_mouse_up true u) = Some (fst q))
    by (cbn [x0 x1 y0 y1 set_is_mouse_up]; congruence).
  assert (Y0 : y0 (set_is_mouse_up true u) = Some (snd p))
    by (cbn [x0 x1 y0 y1 set_is_mouse_up]; congruence).
  assert (Y1 : y1 (set_is_mouse_up true u) = Some (snd q))
    by (cbn [x0 x1 y0 y1 set_is_mouse_up]; congruence).
  rewrite X0, X1, Y0, Y1 in D.
  destruct (Z.abs (fst p - fst q) =? 0) eqn:Ex; cbn [negb] in D.
  - apply Z.eqb_eq in Ex.
    injection D as <-. unfold roi in *. cbn in *.
    split; [congruence|]. split; [lia|]. intros _. congruence.
  - apply Z.eqb_neq in Ex.
    destruct (Z.abs (snd p - snd q) =? 0) eqn:Ey; cbn [negb] in D.
    + apply Z.eqb_eq in Ey.
      injection D as <-. unfold roi in *. cbn in *.
      split; [congruence|]. split; [lia|]. intros _. congruence.
    + apply Z.eqb_neq in Ey.
      injection D as <-. unfold roi in *. cbn in *.
      split; [congruence|]. split.
      * intros _ _. split; [congruence|].
        apply Eff. rewrite in_app_iff. right. left. reflexivity.
      * lia.
Qed.

(** X15: Selecting the region of interest with the mouse.  From a
    widget whose button is up, the graph event [down] (the press), then
    graph events and events [render] has no branch for ([moves]), then
    the release [up]: when the loop gets through them, the configured ROI
    is the box spanned by the point of the press and the point of the last
    graph event, whatever the direction of the drag, with a positive
    width and height, and the configuration has been written to disk;
    when the two points share a coordinate (a click, or a drag along one
    axis) the ROI is left as it was. *)
Theorem drag_sets_roi (down up : GuiEvent * Values * QueueInput)
    (moves : list (GuiEvent * Values * QueueInput)) (s s' : CameraWidget) :
  is_mouse_up s = true ->
  fst (fst down) = RoiSelection ->
  forallb during_drag moves = true ->
  fst (fst up) = RoiSelectionUp ->
  renders parse_int imencode (down :: moves ++ [up]) s = Done s' ->
  let p := pointer down in
  let q := last_pointer p moves in
  is_mouse_up s' = true /\
  (fst p <> fst q -> snd p <> snd q ->
   roi s' = (Z.min (fst p) (fst q), Z.min (snd p) (snd q),
             Z.abs (fst p - fst q), Z.abs (snd p - snd q)) /\
   0 < roi_window_w s' /\ 0 < roi_window_h s' /\
   In Save (effects s')) /\
  (fst p = fst q \/ snd p = snd q -> roi s' = roi s).
Proof.
  intros U Ed F Eu H p q.
  destruct down as [[ev vals] qi]. cbn [fst snd] in Ed. subst ev.
  destruct up as [[ev' vals'] qi']. cbn [fst snd] in Eu. subst ev'.
  cbn [renders] in H.
  destruct (render parse_int imencode RoiSelection vals qi s) as [s1|] eqn:R1;
    [|discriminate].
  rewrite renders_app in H.
  destruct (renders parse_int imencode moves s1) as [s2|] eqn:R2;
    [|discriminate].
  cbn [renders] in H.
  destruct (render parse_int imencode RoiSelectionUp vals' qi' s2)
    as [s3|] eqn:R3; [|discriminate].
  injection H as <-.
  pose proof (render_down vals qi s s1 U R1) as G1.
  pose proof (renders_moves _ _ moves _ _ _ F G1 R2) as G2.
  pose proof (render_up vals' qi' _ _ s s2 s3 G2 R3) as (A & B & C).
  subst p q. unfold pointer. cbn [fst snd].
  split; [exact A|]. split; [|exact C].
  intros Nx Ny. destruct (B Nx Ny) as [B1 B2].
  split; [exact B1|].
  unfold roi in B1. injection B1 as _ _ Bw Bh.
  rewrite Bw, Bh. split; [lia|]. split; [lia|exact B2].
Qed.

(** ** The camera's output queue *)

Lemma dispatch_mode (ev : GuiEvent) (vals : Values) (s : CameraWidget) :
  mode_matches_queue s ->
  mode_matches_queue (state_of (dispatch ev vals s)).
Proof.
  unfold mode_matches_queue, dispatch. intro M.
  destruct ev; crunch; try reflexivity; try exact M;
    rewrite M;
    repeat match goal with H : in_roi_mode _ = _ |- _ => rewrite H end;
    reflexivity.
Qed.

Lemma render_mode (ev : GuiEvent) (vals : Values) (q : QueueInput)
    (s : CameraWidget) :
  mode_matches_queue s ->
  mode_matches_queue (state_of (render parse_int imencode ev vals q s)).
Proof.
  intro M. unfold render.
  pose proof (update_config_held ev vals s) as K.
  assert (M1 : mode_matches_queue (update_config parse_int ev vals s)).
  { unfold mode_matches_queue, held in *.
    destruct K as (_ & _ & _ & _ & _ & _ & Km & Kc).
    rewrite Kc, Km. exact M. }
  pose proof (dispatch_mode ev vals _ M1) as M2.
  destruct (dispatch ev vals _) as [d|e d]; cbn [state_of] in *.
  - pose proof (display_held q d) as K2.
    unfold mode_matches_queue, held in *.
    destruct K2 as (_ & _ & _ & _ & _ & _ & Km & Kc).
    rewrite Kc, Km. exact M2.
  - exact M2.
Qed.

Lemma renders_mode (evs : list (GuiEvent * Values * QueueInput)) :
  forall s : CameraWidget,
    mode_matches_queue s ->
    mode_matches_queue (state_of (renders parse_int imencode evs s)).
Proof.
  induction evs as [|[[ev vals] q] rest IH]; intros s M; cbn [renders].
  - exact M.
  - pose proof (render_mode ev vals q s M) as M1.
    destruct (render parse_int imencode ev vals q s) as [s1|e s1];
      cbn [state_of] in *.
    + apply IH. exact M1.
    + exact M1.
Qed.

(** X16: The camera feeds the queue of the mode the widget shows.  In
    every state the GUI loop reaches from a new widget, whatever the
    events and whether or not the loop has died on one of them, the camera
    sends its frames to the ROI queue when the widget is in ROI mode and
    to the tracker's capture queue when it is not: [render] never leaves
    the display polling a queue the camera does not fill. *)
Theorem camera_follows_mode (src : Source) (thr rot scal : Q) (color : bool)
    (x y w h : Z) (counter : option Z)
    (evs : list (GuiEvent * Values * QueueInput)) :
  mode_matches_queue
    (state_of (renders parse_int imencode evs
                 (init src thr rot scal color x y w h counter))).
Proof.
  apply renders_mode. reflexivity.
Qed.

(** ** A release with no press before it *)

Lemma render_no_press (ev : GuiEvent) (vals : Values) (q : QueueInput)
    (s s' : CameraWidget) :
  is_graph_event (ev, vals, q) = false ->
  x0 s = None ->
  render parse_int imencode ev vals q s = Done s' ->
  x0 s' = None.
Proof.
  intros E X H. apply render_Done in H. destruct H as (d & D & S).
  apply display_Done_held in S.
  pose proof (update_config_held ev vals s) as K.
  set (u := update_config parse_int ev vals s) in *.
  unfold held in K, S. decompose [and] K. decompose [and] S.
  assert (Xu : x0 u = None) by congruence.
  assert (Xd : x0 d = None).
  { unfold is_graph_event in E. cbn [fst] in E.
    destruct ev; try discriminate; cbn [dispatch] in D.
    - injection D as <-. cbn. exact Xu.
    - injection D as <-. exact Xu.
    - injection D as <-. cbn. exact Xu.
    - assert (X' : x0 (set_is_mouse_up true u) = None) by (cbn; exact Xu).
      rewrite X' in D. discriminate.
    - injection D as <-. cbn. exact Xu.
    - injection D as <-. cbn. exact Xu.
    - injection D as <-. exact Xu. }
  congruence.
Qed.

Lemma renders_no_press (evs : list (GuiEvent * Values * QueueInput)) :
  forall s s' : CameraWidget,
    forallb (fun e => negb (is_graph_event e)) evs = true ->
    x0 s = None ->
    renders parse_int imencode evs s = Done s' ->
    x0 s' = None.
Proof.
  induction evs as [|[[ev vals] q] rest IH]; intros s s' F X H.
  - cbn in H. injection H as <-. exact X.
  - cbn [forallb] in F. apply andb_prop in F. destruct F as [Fe Fr].
    apply negb_true_iff in Fe.
    cbn [renders] in H.
    destruct (render parse_int imencode ev vals q s) as [s1|] eqn:R;
      [|discriminate].
    apply (IH s1 s' Fr); [|exact H].
    exact (render_no_press ev vals q s s1 Fe X R).
Qed.

(** X17: A release of the mouse button that no press preceded.  If the
    loop gets from a new widget through events none of which is a graph
    event, then the release event of the graph makes [render] raise
    [TypeError] (it subtracts [None] from [None]): [render] has no guard
    for it.  The ROI is as before, and the button counts as up. *)
Theorem release_without_press_raises (src : Source) (thr rot scal : Q)
    (color : bool) (x y w h : Z) (counter : option Z)
    (evs : list (GuiEvent * Values * QueueInput))
    (vals : Values) (q : QueueInput) (s : CameraWidget) :
  forallb (fun e => negb (is_graph_event e)) evs = true ->
  renders parse_int imencode evs
    (init src thr rot scal color x y w h counter) = Done s ->
  exists t,
    render parse_int imencode RoiSelectionUp vals q s = Raise TypeError t /\
    roi t = roi s /\ is_mouse_up t = true.
Proof.
  intros F H.
  pose proof (renders_no_press evs
                (init src thr rot scal color x y w h counter) s F eq_refl H)
    as X.
  pose proof (update_config_held RoiSelectionUp vals s) as K.
  unfold render.
  set (u := update_config parse_int RoiSelectionUp vals s) in *.
  destruct K as (_ & Kx & _ & _ & _ & Kr & _ & _).
  cbn [dispatch].
  assert (X' : x0 (set_is_mouse_up true u) = None)
    by (cbn [x0 set_is_mouse_up]; congruence).
  rewrite X'.
  eexists. split; [reflexivity|].
  split; [exact Kr | reflexivity].
Qed.

(** ** Writing the configuration *)

Lemma count_saves_app (a b : list Effect) :
  count_saves (a ++ b) = (count_saves a + count_saves b)%nat.
Proof.
  induction a as [|e a IH]; cbn; [reflexivity|].
  destruct e; cbn; rewrite ?IH; reflexivity.
Qed.

Lemma display_config (q : QueueInput) (s : CameraWidget) :
  let t := state_of (display imencode q s) in
  config_of t = config_of s /\
  count_saves (effects t) = count_saves (effects s).
Proof.
  unfold display, config_of, roi.
  crunch; rewrite ?count_saves_app; cbn; split; try reflexivity; lia.
Qed.

Lemma dispatch_config (ev : GuiEvent) (vals : Values) (s : CameraWidget) :
  ev <> RoiSelectionUp ->
  let t := state_of (dispatch ev vals s) in
  config_of t = config_of s /\
  count_saves (effects t) = count_saves (effects s).
Proof.
  intro N. unfold dispatch, config_of, roi.
  destruct ev; try congruence;
    crunch; rewrite ?count_saves_app; cbn; split; try reflexivity; lia.
Qed.

Lemma dispatch_sliders (ev : GuiEvent) (vals : Values) (s : CameraWidget) :
  let t := state_of (dispatch ev vals s) in
  threshold t = threshold s /\ rotation_angle t = rotation_angle s /\
  vrc_eye_position_scalar t = vrc_eye_position_scalar s /\
  show_color_image t = show_color_image s /\
  capture_source t = capture_source s.
Proof.
  unfold dispatch.
  destruct ev; crunch; repeat split; reflexivity.
Qed.

Lemma update_config_settles (ev : GuiEvent) (vals : Values)
    (s : CameraWidget) :
  is_whole (v_threshold_slider vals) = true ->
  is_whole (v_rotation_slider vals) = true ->
  is_whole (v_scalar_slider vals) = true ->
  settled vals (update_config parse_int ev vals s).
Proof.
  unfold is_whole, settled, update_config. intros W1 W2 W3.
  destruct ev; crunch; repeat split;
    try assumption; try reflexivity;
    try (match goal with
         | H : negb ?c = false |- ?c = true =>
             apply negb_false_iff in H; exact H
         | H : negb (Bool.eqb ?a ?b) = false |- ?a = ?b =>
             apply negb_false_iff in H; apply eqb_prop; exact H
         end).
Qed.

Lemma update_config_settled (ev : GuiEvent) (vals : Values)
    (s : CameraWidget) :
  ev <> SaveTrackingButton ->
  settled vals s ->
  update_config parse_int ev vals s = s.
Proof.
  unfold settled, update_config. intros N (A & B & C & D).
  destruct ev; try congruence; cbv beta iota zeta;
    rewrite A; cbv beta iota zeta; cbn [negb];
    rewrite B; cbv beta iota zeta; cbn [negb];
    rewrite C; cbv beta iota zeta; cbn [negb];
    rewrite D, eqb_reflx; reflexivity.
Qed.

Lemma render_settles (ev : GuiEvent) (vals : Values) (q : QueueInput)
    (s s' : CameraWidget) :
  is_whole (v_threshold_slider vals) = true ->
  is_whole (v_rotation_slider vals) = true ->
  is_whole (v_scalar_slider vals) = true ->
  render parse_int imencode ev vals q s = Done s' ->
  settled vals s'.
Proof.
  intros W1 W2 W3 R.
  apply render_Done in R. destruct R as (d & D & S).
  pose proof (update_config_settles ev vals s W1 W2 W3) as St.
  pose proof (dispatch_sliders ev vals (update_config parse_int ev vals s))
    as Ds.
  rewrite D in Ds. cbv zeta in Ds. cbn [state_of] in Ds.
  destruct Ds as (D1 & D2 & D3 & D4 & _).
  pose proof (display_config q d) as Dc.
  rewrite S in Dc. cbv zeta in Dc. cbn [state_of] in Dc.
  destruct Dc as [Dc _]. unfold config_of in Dc.
  injection Dc as _ C1 C2 C3 C4 _.
  unfold settled in *. destruct St as (S1 & S2 & S3 & S4).
  rewrite C1, C2, C3, C4, D1, D2, D3, D4. tauto.
Qed.

(** X18: A render that changes nothing writes nothing.  Once a render
    has gone through with the sliders at whole numbers (as a slider of
    resolution one gives them), a following render with the same widget
    values, for any event but the save button and the release of the
    mouse on the graph, leaves the configuration as it is and does not
    write it to disk: the comparison of the stored integer with the
    slider's float does not make every pass of the GUI loop a save. *)
Theorem settled_render_writes_nothing (ev1 ev2 : GuiEvent) (vals : Values)
    (q1 q2 : QueueInput) (s s1 : CameraWidget) :
  is_whole (v_threshold_slider vals) = true ->
  is_whole (v_rotation_slider vals) = true ->
  is_whole (v_scalar_slider vals) = true ->
  render parse_int imencode ev1 vals q1 s = Done s1 ->
  ev2 <> SaveTrackingButton ->
  ev2 <> RoiSelectionUp ->
  let s2 := state_of (render parse_int imencode ev2 vals q2 s1) in
  config_of s2 = config_of s1 /\
  count_saves (effects s2) = count_saves (effects s1).
Proof.
  intros W1 W2 W3 R N1 N2.
  pose proof (render_settles ev1 vals q1 s s1 W1 W2 W3 R) as St.
  cbv zeta. unfold render.
  rewrite (update_config_settled ev2 vals s1 N1 St).
  pose proof (dispatch_config ev2 vals s1 N2) as Dc. cbv zeta in Dc.
  destruct Dc as [C1 E1].
  destruct (dispatch ev2 vals s1) as [d2|e d2]; cbn [state_of] in *.
  - pose proof (display_config q2 d2) as Dc. cbv zeta in Dc.
    destruct Dc as [C2 E2]. split; congruence.
  - split; assumption.
Qed.

Lemma update_config_source (vals : Values) (s : CameraWidget) (n : Z) :
  differs_from_source (v_camera_addr vals) (capture_source s) = true ->
  parse_int (v_camera_addr vals) = Some n ->
  let u := update_config parse_int SaveTrackingButton vals s in
  capture_source u = SrcInt n /\
  count_saves (effects u) = S (count_saves (effects s)).
Proof.
  intros Df P. unfold update_config. rewrite Df, P.
  crunch; rewrite ?count_saves_app; cbn; split; try reflexivity; lia.
Qed.

Lemma render_source (vals : Values) (q : QueueInput) (s : CameraWidget)
    (n : Z) :
  differs_from_source (v_camera_addr vals) (capture_source s) = true ->
  parse_int (v_camera_addr vals) = Some n ->
  let t := state_of (render parse_int imencode SaveTrackingButton vals q s) in
  capture_source t = SrcInt n /\
  count_saves (effects t) = S (count_saves (effects s)).
Proof.
  intros Df P. cbv zeta.
  pose proof (update_config_source vals s n Df P) as U. cbv zeta in U.
  destruct U as [U1 U2].
  unfold render. cbn [dispatch].
  pose proof (display_config q
                (update_config parse_int SaveTrackingButton vals s)) as Dc.
  cbv zeta in Dc. destruct Dc as [Dc Ds].
  unfold config_of in Dc. injection Dc as C0 _ _ _ _ _.
  split; congruence.
Qed.

(** X19: A numeric camera address is saved again at every click.  When
    the text of the address field reads as an integer, a click on the
    save button stores that integer as the capture source; the guard of
    the next click compares the text with the stored integer, which are
    never equal, so a second click with the text unchanged stores the
    source and writes the configuration to disk once more. *)
Theorem numeric_address_saved_again (vals : Values) (q1 q2 : QueueInput)
    (s s1 : CameraWidget) (n : Z) :
  parse_int (v_camera_addr vals) = Some n ->
  capture_source s <> SrcStr (v_camera_addr vals) ->
  render parse_int imencode SaveTrackingButton vals q1 s = Done s1 ->
  let s2 :=
    state_of (render parse_int imencode SaveTrackingButton vals q2 s1) in
  capture_source s1 = SrcInt n /\
  capture_source s2 = SrcInt n /\
  count_saves (effects s1) = S (count_saves (effects s)) /\
  count_saves (effects s2) = S (count_saves (effects s1)).
Proof.
  intros P N R.
  assert (Df : differs_from_source (v_camera_addr vals) (capture_source s)
               = true).
  { unfold differs_from_source. destruct (capture_source s) as [m| |b];
      try reflexivity.
    apply negb_true_iff. apply String.eqb_neq. congruence. }
  pose proof (render_source vals q1 s n Df P) as A. cbv zeta in A.
  rewrite R in A. cbn [state_of] in A. destruct A as [A1 A2].
  assert (Df1 : differs_from_source (v_camera_addr vals) (capture_source s1)
                = true) by (rewrite A1; reflexivity).
  pose proof (render_source vals q2 s1 n Df1 P) as B. cbv zeta in B.
  destruct B as [B1 B2].
  cbv zeta. tauto.
Qed.

End WidgetFacts.

(** * Cancellation *)

Section Cancellation.

Context {ExtState : Type} (E : Externals ExtState).

Lemma loop_body_cancelled (inp : TickInput) (s : EyeProcessor ExtState) :
  in_cancelled inp = true ->
  exists s',
    loop_body E inp s = Return s' /\
    plumbing s s' /\
    trace s' = trace s ++ [EvPrint InfoExiting].
Proof.
  intro C. unfold loop_body. rewrite C.
  eexists. split; [reflexivity|]. split.
  - apply (plumbing_trans s (observe inp s)).
    + apply plumbing_untraced; reflexivity.
    + apply plumbing_log. reflexivity.
  - reflexivity.
Qed.

(** X20: Cancellation stops the worker at the top of an iteration.  When
    the cancellation event is set as an iteration begins, the worker is
    over after it, returned or having raised before, and never still
    running; what the environment offers afterwards is not looked at; and
    the cancelled iteration itself calls no detector and publishes
    nothing: the outgoing queue and the detector calls are those the
    earlier iterations left. *)
Theorem cancelled_worker_stops (before after : list TickInput)
    (inp : TickInput) (s : EyeProcessor ExtState) :
  in_cancelled inp = true ->
  let o := loop E (before ++ inp :: after) s in
  let earlier := loop E before s in
  o = loop E (before ++ [inp]) s /\
  (forall s', o <> Continue s') /\
  (is_Crash earlier = false -> is_Return o = true) /\
  image_queue_outgoing (state_of o) = image_queue_outgoing (state_of earlier) /\
  detector_calls (trace (state_of o)) =
    detector_calls (trace (state_of earlier)).
Proof.
  intros C; cbv zeta.
  rewrite !loop_app.
  destruct (loop E before s) as [s1|s1|e s1]; cbn [state_of is_Crash].
  - cbn [loop].
    destruct (loop_body_cancelled inp s1 C) as (s2 & B & P & T).
    rewrite B. cbn [state_of is_Return].
    split; [reflexivity|].
    split; [intros s' H; discriminate H|].
    split; [reflexivity|].
    split; [apply (pl_queue _ _ P) | apply (pl_calls _ _ P)].
  - split; [reflexivity|].
    split; [intros s' H; discriminate H|].
    split; [reflexivity|].
    split; reflexivity.
  - split; [reflexivity|].
    split; [intros s' H; discriminate H|].
    split; [intro H; discriminate H|].
    split; reflexivity.
Qed.

End Cancellation.


(** * Further concrete runs *)

Lemma counter_is_0_or_3_witness :
  let E := demo_ext (4, 4)%Q in
  let inputs := three_frames (only_blob 4) in
  let s := wired (4, 4)%Q (demo_config 0 0 8 8) (only_blob 4) in
  (failed s = 0 \/ failed s = 3) /\
  is_Crash (loop E inputs s) = false /\
  (failed (state_of (loop E inputs s)) = 0 \/
   failed (state_of (loop E inputs s)) = 3).
Proof.
  cbv zeta.
  split; [left; reflexivity|].
  split; [vm_compute; reflexivity|].
  apply (counter_is_0_or_3 (demo_ext (4, 4)%Q) (three_frames (only_blob 4))
           (wired (4, 4)%Q (demo_config 0 0 8 8) (only_blob 4))).
  - left; reflexivity.
  - vm_compute; reflexivity.
Defined.

Lemma disabled_worker_is_silent_witness :
  let E := demo_ext (4, 4)%Q in
  let inputs := three_frames (only_blob 1) in
  let s := init (demo_config 0 0 8 8) nothing_enabled tt in
  let s' := state_of (run E inputs s) in
  gui_BLOB (settings s) = false /\
  image_queue_outgoing s' = image_queue_outgoing s /\
  detector_calls (trace s') = detector_calls (trace s) /\
  er_hsf s' = None /\
  er_hsrac s' = None /\
  failed s' = 0.
Proof.
  cbv zeta.
  split; [reflexivity|].
  apply (disabled_worker_is_silent (demo_ext (4, 4)%Q)
           (three_frames (only_blob 1))
           (init (demo_config 0 0 8 8) nothing_enabled tt));
    reflexivity.
Defined.

Lemma setup_engine_lifecycle_witness :
  let E := demo_ext (4, 4)%Q in
  let s := init roi_100 (only_hsf 1) tt in
  let s' := wired (4, 4)%Q roi_100 (only_hsf 1) in
  setup E s = Ok s' /\
  (er_hsf s' = None <-> gui_HSF (settings s) = false) /\
  (er_hsrac s' = None <-> gui_HSRAC (settings s) = false) /\
  (forall e, gui_HSF (settings s) = true -> er_hsf s = Some e ->
             er_hsf s' = Some e) /\
  (forall e, gui_HSRAC (settings s) = true -> er_hsrac s = Some e ->
             er_hsrac s' = Some e) /\
  (exists added,
     trace s' = trace s ++ added /\
     (existsb (constructs Bound.HSFM) added = true <->
      gui_HSF (settings s) = true /\ er_hsf s = None) /\
     (existsb (constructs Bound.HSRACM) added = true <->
      gui_HSRAC (settings s) = true /\ er_hsrac s = None)).
Proof.
  cbv zeta.
  split; [vm_compute; reflexivity|].
  apply (setup_engine_lifecycle (demo_ext (4, 4)%Q)
           (init roi_100 (only_hsf 1) tt)
           (wired (4, 4)%Q roi_100 (only_hsf 1))).
  vm_compute; reflexivity.
Defined.

Lemma setup_wires_only_ready_methods_witness :
  let E := demo_ext (4, 4)%Q in
  let s := init roi_100 colliding tt in
  let s' := wired (4, 4)%Q roi_100 colliding in
  setup E s = Ok s' /\
  secondalgo s' = Some Bound.HSRACM /\
  enabled (settings s) Bound.HSRACM = true /\
  ready Bound.HSRACM s' = true.
Proof.
  cbv zeta.
  split; [vm_compute; reflexivity|].
  split; [vm_compute; reflexivity|].
  apply (setup_wires_only_ready_methods (demo_ext (4, 4)%Q)
           (init roi_100 colliding tt)
           (wired (4, 4)%Q roi_100 colliding) Bound.HSRACM).
  - vm_compute; reflexivity.
  - right; left; vm_compute; reflexivity.
Defined.

Lemma worker_survives_colour_frames_witness :
  let E := demo_ext (4, 4)%Q in
  let inputs := three_frames colliding in
  let s := init (demo_config 0 0 8 8) colliding tt in
  setup E s = Ok (wired (4, 4)%Q (demo_config 0 0 8 8) colliding) /\
  Forall delivers_colour inputs /\
  is_Crash (run E inputs s) = false.
Proof.
  cbv zeta.
  assert (B : is_bgr_frame (disk_frame 8 8 2)).
  { exists 8%nat, 8%nat, 3%nat.
    split; [reflexivity|].
    split; [discriminate|].
    split; [discriminate|].
    split; [left; reflexivity|reflexivity]. }
  assert (Col : Forall delivers_colour (three_frames colliding))
    by (repeat constructor; exact B).
  split; [vm_compute; reflexivity|].
  split; [exact Col|].
  apply (worker_survives_colour_frames (demo_ext (4, 4)%Q)
           (three_frames colliding)
           (init (demo_config 0 0 8 8) colliding tt)
           (wired (4, 4)%Q (demo_config 0 0 8 8) colliding)).
  - vm_compute; reflexivity.
  - intros p Hp; discriminate Hp.
  - exact Col.
Defined.

Lemma preprocessor_clips_to_frame_witness :
  let E := demo_ext (0, 0)%Q in
  Cv2.warp_depth (Np.dtype (disk_frame 4 4 1)) = true /\
  (Cv2.warp_depth (Np.dtype (disk_frame 4 4 1)) = true ->
   exists out s',
     capture_crop_rotate_image E overhanging = (true, s') /\
     current_image s' = Some out /\
     Np.dtype out = Np.dtype (disk_frame 4 4 1) /\
     Np.shape out = [2%nat; 2%nat; 3%nat]) /\
  (Cv2.warp_depth (Np.dtype (disk_frame 4 4 1)) = false ->
   fst (capture_crop_rotate_image E overhanging) = false).
Proof.
  cbv zeta.
  split; [reflexivity|].
  apply (preprocessor_clips_to_frame (demo_ext (0, 0)%Q) overhanging
           (disk_frame 4 4 1) 4 4 3);
    try reflexivity; cbn; lia.
Defined.

Lemma preprocessor_skips_roi_beyond_frame_witness :
  let E := demo_ext (0, 0)%Q in
  exists empty,
    capture_crop_rotate_image E beyond
      = (false, set_current_image (Some empty) beyond) /\
    crop (current_image beyond) (config beyond) = Some empty /\
    exists rows cols,
      Np.shape empty = [rows; cols; 3%nat] /\
      (rows = 0%nat \/ cols = 0%nat).
Proof.
  cbv zeta.
  apply (preprocessor_skips_roi_beyond_frame (demo_ext (0, 0)%Q) beyond
           (disk_frame 4 4 1) 4 4 3);
    try reflexivity; cbn; try lia.
Defined.

Lemma single_channel_frame_witness :
  let E := demo_ext (4, 4)%Q in
  let s := after_good_frame in
  in_frame gray_tick = Some (Some (gray_frame 2 2 7), 1, 60%Q) /\
  previous_image s <> None /\
  Cv2.warp_depth (Np.dtype (gray_frame 2 2 7)) = true /\
  (previous_image s = None \/
   Cv2.warp_depth (Np.dtype (gray_frame 2 2 7)) = false ->
   exists s',
     loop_body E gray_tick s = Continue s' /\
     image_queue_outgoing s' = image_queue_outgoing s /\
     detector_calls (trace s') = detector_calls (trace s)) /\
  (previous_image s <> None ->
   Cv2.warp_depth (Np.dtype (gray_frame 2 2 7)) = true ->
   exists s', loop_body E gray_tick s = Crash CvError s').
Proof.
  cbv zeta.
  assert (P : previous_image after_good_frame = Some (disk_frame 8 8 2))
    by (vm_compute; reflexivity).
  split; [reflexivity|].
  split; [rewrite P; discriminate|].
  split; [reflexivity|].
  apply (single_channel_frame (demo_ext (4, 4)%Q) gray_tick after_good_frame
           (gray_frame 2 2 7) 2 2 1 60%Q);
    try reflexivity; try (cbn; lia).
  intros p Hp; rewrite P in Hp; injection Hp as <-.
  exists 8%nat, 8%nat, 3%nat.
  split; [reflexivity|].
  split; [discriminate|].
  split; [discriminate|].
  split; [left; reflexivity|reflexivity].
Defined.

Lemma camera_model_built_at_most_once_witness :
  let E := demo_ext (4, 4)%Q in
  let inputs := three_frames (only_blob 1) in
  let s := wired (4, 4)%Q (demo_config 0 0 8 8) (only_blob 1) in
  let s' := state_of (loop E inputs s) in
  (count_new_camera (trace s') <= count_new_camera (trace s) + 1)%nat /\
  (camera_fits (8, 8) s ->
   count_new_camera (trace s') = count_new_camera (trace s) /\
   camera_model s' = camera_model s).
Proof.
  cbv zeta.
  apply (camera_model_built_at_most_once (demo_ext (4, 4)%Q) (8, 8)
           (three_frames (only_blob 1))
           (wired (4, 4)%Q (demo_config 0 0 8 8) (only_blob 1))).
  repeat constructor.
Defined.

Lemma accepted_frame_invariant_witness :
  let E := demo_ext (4, 4)%Q in
  let s := init (demo_config 0 0 8 8) (only_blob 1) tt in
  previous_ok s /\
  previous_ok (state_of (run E (three_frames (only_blob 1)) s)).
Proof.
  cbv zeta.
  assert (P : previous_ok (init (demo_config 0 0 8 8) (only_blob 1) tt))
    by (intros p Hp; discriminate Hp).
  split; [exact P|].
  apply (accepted_frame_invariant (demo_ext (4, 4)%Q)
           (three_frames (only_blob 1))
           (init (demo_config 0 0 8 8) (only_blob 1) tt)).
  exact P.
Defined.

Lemma HSRACM_record_witness :
  let E := demo_ext (4, 4)%Q in
  let s := wired (4, 4)%Q roi_100 colliding in
  er_hsrac s = Some hybrid_engine /\
  exists s',
    HSRACM E s = Ok s' /\
    current_image_gray s' =
      snd (fst (fst (hsrac_run E hybrid_engine (current_image_gray s)
                       (ext s)))) /\
    current_image_gray_clean s' = current_image_gray_clean s /\
    eyeoffx s' = eyeoffx s /\
    prev_x s' =
      match prev_x s with
      | Some v => Some v
      | None =>
          Some (fst (fst (fst (fst (fst (hsrac_run E hybrid_engine
                                           (current_image_gray s)
                                           (ext s)))))))
      end /\
    Forall (fun r =>
              info_type (snd r) = InformationOrigin.HSRAC /\
              pupil_dialation (snd r) = 0 /\
              blink (snd r) = if eyeoffx s then 0%Q else eyeopen s')
           (emitted s s').
Proof.
  cbv zeta.
  split; [vm_compute; reflexivity|].
  apply (HSRACM_record (demo_ext (4, 4)%Q) (wired (4, 4)%Q roi_100 colliding)
           hybrid_engine).
  vm_compute; reflexivity.
Defined.

Lemma drag_sets_roi_witness :
  let s' :=
    Widget.state_of
      (Widget.renders demo_parse_int demo_imencode
         (press :: drag_moves ++ [release]) widget_in_roi_mode) in
  Widget.is_mouse_up widget_in_roi_mode = true /\
  Widget.renders demo_parse_int demo_imencode
    (press :: drag_moves ++ [release]) widget_in_roi_mode = Widget.Done s' /\
  Widget.is_mouse_up s' = true /\
  (30 <> 10 -> 5 <> 20 ->
   Widget.roi s' = (10, 5, 20, 15) /\
   0 < Widget.roi_window_w s' /\ 0 < Widget.roi_window_h s' /\
   In Widget.Save (Widget.effects s')) /\
  (30 = 10 \/ 5 = 20 -> Widget.roi s' = Widget.roi widget_in_roi_mode).
Proof.
  cbv zeta.
  split; [vm_compute; reflexivity|].
  split; [vm_compute; reflexivity|].
  apply (drag_sets_roi demo_parse_int demo_imencode press release drag_moves
           widget_in_roi_mode
           (Widget.state_of
              (Widget.renders demo_parse_int demo_imencode
                 (press :: drag_moves ++ [release]) widget_in_roi_mode)));
    vm_compute; reflexivity.
Defined.

Lemma release_without_press_raises_witness :
  let s := widget_in_roi_mode in
  Widget.renders demo_parse_int demo_imencode
    [(Widget.RoiButton, demo_values (0, 0), roi_frame)] new_widget
    = Widget.Done s /\
  exists t,
    Widget.render demo_parse_int demo_imencode Widget.RoiSelectionUp
      (demo_values (3, 4)) roi_frame s = Widget.Raise TypeError t /\
    Widget.roi t = Widget.roi s /\ Widget.is_mouse_up t = true.
Proof.
  cbv zeta.
  split; [vm_compute; reflexivity|].
  apply (release_without_press_raises demo_parse_int demo_imencode
           Widget.SrcNone 50 0 3000 false 0 0 0 0 (Some 300)
           [(Widget.RoiButton, demo_values (0, 0), roi_frame)]
           (demo_values (3, 4)) roi_frame widget_in_roi_mode).
  - reflexivity.
  - vm_compute; reflexivity.
Defined.

Lemma settled_render_writes_nothing_witness :
  let s1 :=
    Widget.state_of
      (Widget.render demo_parse_int demo_imencode Widget.OtherEvent
         (demo_values (0, 0)) no_frames
         (Widget.init Widget.SrcNone 49 0 3000 true 0 0 0 0 None)) in
  let s2 :=
    Widget.state_of
      (Widget.render demo_parse_int demo_imencode Widget.RecenterEye
         (demo_values (0, 0)) no_frames s1) in
  Widget.is_whole (Widget.v_threshold_slider (demo_values (0, 0))) = true /\
  Widget.config_of s2 = Widget.config_of s1 /\
  Widget.count_saves (Widget.effects s2)
    = Widget.count_saves (Widget.effects s1).
Proof.
  cbv zeta.
  split; [reflexivity|].
  apply (settled_render_writes_nothing demo_parse_int demo_imencode
           Widget.OtherEvent Widget.RecenterEye (demo_values (0, 0))
           no_frames no_frames
           (Widget.init Widget.SrcNone 49 0 3000 true 0 0 0 0 None));
    try discriminate; vm_compute; reflexivity.
Defined.

Lemma numeric_address_saved_again_witness :
  let s1 :=
    Widget.state_of
      (Widget.render demo_parse_int demo_imencode Widget.SaveTrackingButton
         (demo_values (0, 0)) no_frames new_widget) in
  let s2 :=
    Widget.state_of
      (Widget.render demo_parse_int demo_imencode Widget.SaveTrackingButton
         (demo_values (0, 0)) no_frames s1) in
  Widget.capture_source s1 = Widget.SrcInt 0 /\
  Widget.capture_source s2 = Widget.SrcInt 0 /\
  Widget.count_saves (Widget.effects s1)
    = S (Widget.count_saves (Widget.effects new_widget)) /\
  Widget.count_saves (Widget.effects s2)
    = S (Widget.count_saves (Widget.effects s1)).
Proof.
  cbv zeta.
  apply (numeric_address_saved_again demo_parse_int demo_imencode
           (demo_values (0, 0)) no_frames no_frames new_widget
           (Widget.state_of
              (Widget.render demo_parse_int demo_imencode
                 Widget.SaveTrackingButton (demo_values (0, 0)) no_frames
                 new_widget)) 0).
  - reflexivity.
  - discriminate.
  - vm_compute; reflexivity.
Defined.

Lemma cancelled_worker_stops_witness :
  let E := demo_ext (4, 4)%Q in
  let s := wired (4, 4)%Q (demo_config 0 0 8 8) (only_blob 1) in
  let before := three_frames (only_blob 1) in
  let inp := idle_tick (demo_config 0 0 8 8) (only_blob 1) true false in
  let after := three_frames (only_blob 1) in
  let o := loop E (before ++ inp :: after) s in
  let earlier := loop E before s in
  in_cancelled inp = true /\
  o = loop E (before ++ [inp]) s /\
  (forall s', o <> Continue s') /\
  (is_Crash earlier = false -> is_Return o = true) /\
  image_queue_outgoing (state_of o) = image_queue_outgoing (state_of earlier) /\
  detector_calls (trace (state_of o)) =
    detector_calls (trace (state_of earlier)).
Proof.
  cbv zeta.
  split; [reflexivity|].
  apply (cancelled_worker_stops (demo_ext (4, 4)%Q)
           (three_frames (only_blob 1)) (three_frames (only_blob 1))
           (idle_tick (demo_config 0 0 8 8) (only_blob 1) true false)
           (wired (4, 4)%Q (demo_config 0 0 8 8) (only_blob 1))).
  reflexivity.
Defined.

Lemma crop_failure_fallback_witness :
  let E := demo_ext (4, 4)%Q in
  let inp := frame_tick (demo_config 0 0 8 8) (only_blob 1) None 2 in
  let s := after_good_frame in
  previous_ok s /\
  previous_image s = Some (disk_frame 8 8 2) /\
  in_frame inp = Some (None, 2, 60%Q) /\
  (crop None (in_config inp) = None <->
   @None Np.ndarray = None \/
   exists a : Np.ndarray, None = Some a /\ (length (Np.shape a) < 2)%nat) /\
  (crop None (in_config inp) = None ->
   (previous_image s = None ->
    exists s',
      loop_body E inp s = Continue s' /\
      image_queue_outgoing s' = image_queue_outgoing s /\
      detector_calls (trace s') = detector_calls (trace s)) /\
   (forall p : Np.ndarray,
      previous_image s = Some p ->
      exists rotated gray s1 rows cols,
        shape3 (Some p) = Some (rows, cols) /\
        Cv2.warpAffine (warp_pixels E) (Some p)
          (Cv2.getRotationMatrix2D
             (inject_Z (Z.of_nat cols) / 2, inject_Z (Z.of_nat rows) / 2)%Q
             (rotation_angle (in_config inp)) 1)
          (cols, rows) (64, 64, 64) = Some rotated /\
        Np.shape rotated = Np.shape p /\
        Cv2.cvtColor (gray_pixel E) (Some rotated) Cv2.COLOR_BGR2GRAY
          = Some gray /\
        Np.shape gray = [rows; cols] /\
        current_image s1 = Some rotated /\
        current_image_gray s1 = Some gray /\
        current_image_gray_clean s1 = Some gray /\
        plumbing s s1 /\
        loop_body E inp s =
          match ALGOSELECT E s1 with
          | Raised e s2 => Crash e s2
          | Ok s2 => Continue (BLINKM E s2)
          end /\
        detector_calls (trace (state_of (loop_body E inp s))) =
          detector_calls (trace s) ++
          (if failed s =? 0
           then match first_occupied s with Some m => [m] | None => [] end
           else []))).
Proof.
  cbv zeta.
  assert (P : previous_image after_good_frame = Some (disk_frame 8 8 2))
    by (vm_compute; reflexivity).
  assert (Ok : previous_ok after_good_frame).
  { intros p Hp; rewrite P in Hp; injection Hp as <-.
    exists 8%nat, 8%nat, 3%nat.
    split; [reflexivity|].
    split; [discriminate|].
    split; [discriminate|].
    split; [left; reflexivity|reflexivity]. }
  split; [exact Ok|].
  split; [exact P|].
  split; [reflexivity|].
  apply (crop_failure_fallback (demo_ext (4, 4)%Q)
           (frame_tick (demo_config 0 0 8 8) (only_blob 1) None 2)
           after_good_frame None 2 60%Q);
    [exact Ok|reflexivity|reflexivity|reflexivity].
Defined.

(** C6 as stated fails: an ROI whose corner lies on the right edge of the
    frame is out of bounds, and a frame was accepted in the iteration
    before; yet the crop does not raise, the accepted frame is not used,
    and the iteration ends with the empty crop in [current_image], no
    detector called and nothing published. *)
Lemma out_of_bounds_roi_is_no_crop_failure :
  let E := demo_ext (4, 4)%Q in
  let inp :=
    frame_tick (demo_config 8 0 8 8) (only_blob 1)
      (Some (disk_frame 8 8 2)) 2 in
  let o := loop_body E inp after_good_frame in
  previous_image after_good_frame = Some (disk_frame 8 8 2) /\
  Z.of_nat 8 < roi_window_x (in_config inp) + roi_window_w (in_config inp) /\
  option_map Np.shape (crop (Some (disk_frame 8 8 2)) (in_config inp))
    = Some [8; 0; 3]%nat /\
  o = Continue (state_of o) /\
  option_map Np.shape (current_image (state_of o)) = Some [8; 0; 3]%nat /\
  image_queue_outgoing (state_of o) = image_queue_outgoing after_good_frame /\
  detector_calls (trace (state_of o))
    = detector_calls (trace after_good_frame).
Proof.
  cbv zeta.
  split; [vm_compute; reflexivity|].
  split; [vm_compute; reflexivity|].
  split; [vm_compute; reflexivity|].
  split; [vm_compute; reflexivity|].
  split; [vm_compute; reflexivity|].
  split; vm_compute; reflexivity.
Qed.

Lemma idle_worker_waits_witness :
  let E := demo_ext (0, 0)%Q in
  let inputs :=
    [idle_tick roi_unset (only_hsf 1) false false;
     idle_tick roi_unset (only_hsf 1) false true;
     idle_tick roi_unset (only_hsf 1) false false] in
  let s := init roi_unset (only_hsf 1) tt in
  let s0 := wired (0, 0)%Q roi_unset (only_hsf 1) in
  let o := run E inputs s in
  let new_hsf :=
    mk_HSF_engine (gui_skip_autoradius (settings s))
      (gui_HSF_radius (settings s)) in
  let new_hsrac :=
    mk_HSRAC_engine (gui_skip_autoradius (settings s))
      (gui_HSF_radius (settings s)) in
  setup E s = Ok s0 /\
  Forall (fun inp => roi_unconfigured inp = true) inputs /\
  is_Crash o = false /\
  is_Return o = existsb cancellation_seen inputs /\
  (forall before inp after,
     inputs = before ++ inp :: after ->
     cancellation_seen inp = true ->
     o = run E (before ++ [inp]) s /\ is_Return o = true) /\
  trace (state_of o) = trace s0 ++ idle_events inputs /\
  trace s0 =
    trace s ++
    (if gui_HSF (settings s) && negb (is_not_None (er_hsf s))
     then [EvNewHSF new_hsf] else []) ++
    (if gui_HSRAC (settings s) && negb (is_not_None (er_hsrac s))
     then [EvNewHSRAC new_hsrac] else []) /\
  er_hsf (state_of o) =
    (if gui_HSF (settings s)
     then match er_hsf s with Some e0 => Some e0 | None => Some new_hsf end
     else None) /\
  er_hsrac (state_of o) =
    (if gui_HSRAC (settings s)
     then match er_hsrac s with Some e0 => Some e0 | None => Some new_hsrac end
     else None) /\
  camera_model (state_of o) = camera_model s0 /\
  detector_3d (state_of o) = detector_3d s0 /\
  image_queue_outgoing (state_of o) = image_queue_outgoing s0.
Proof.
  cbv zeta.
  split; [vm_compute; reflexivity|].
  split; [repeat constructor|].
  apply (idle_worker_waits (demo_ext (0, 0)%Q)
           [idle_tick roi_unset (only_hsf 1) false false;
            idle_tick roi_unset (only_hsf 1) false true;
            idle_tick roi_unset (only_hsf 1) false false]
           (init roi_unset (only_hsf 1) tt)
           (wired (0, 0)%Q roi_unset (only_hsf 1))).
  - vm_compute; reflexivity.
  - repeat constructor.
Defined.
